(** * sikecil-pintar: the nutrition scripts, embedded and verified

    A shallow embedding of the aggregation code of
    [scripts/nutrition_report.py], [scripts/nutrition_analyzer.py],
    [scripts/data_export.py] and [scripts/meal_tracker.py].

    Conventions of the embedding.
    - A JSON object read by [json.load] is a record whose fields are
      [option]s: [None] is an absent key, and [get field default] is the
      [dict.get(key, default)] of the scripts.  Every key that is present
      holds a value of the type the schema gives it.
    - Python numbers are exact rationals ([Q]); sums are compared with [==].
      On integer data this is Python's own arithmetic; on floats it leaves
      the binary rounding of each operation out.
    - A Python [int] is a [Z].
    - An exception is a [Raise] in the [result] monad; a loop body that can
      raise is a monadic fold, so the first exception ends the loop.
    - A [dict] whose iteration order is observed (the per-day table, the food
      counters) is an association list in insertion order. *)

From Stdlib Require Import List String Ascii ZArith QArith Qround Lia Bool.
From Stdlib Require Import Permutation Sorted Setoid Morphisms.
From Stdlib Require Import DecimalString Qabs.
Import ListNotations.

Set Implicit Arguments.

(** ** Python values and exceptions *)

Module Py.

Inductive exn : Type :=
| ValueError
| TypeError
| ZeroDivisionError
| OverflowError.

Inductive result (A : Type) : Type :=
| Ok (a : A)
| Raise (e : exn).

Arguments Ok {A} a.
Arguments Raise {A} e.

Definition bind {A B : Type} (c : result A) (k : A -> result B) : result B :=
  match c with
  | Ok a => k a
  | Raise e => Raise e
  end.

(** [for x in xs: acc = body(acc, x)] where the body may raise. *)
Fixpoint for_each {A St : Type} (body : St -> A -> result St) (xs : list A)
  (acc : St) : result St :=
  match xs with
  | [] => Ok acc
  | x :: xs' => bind (body acc x) (for_each body xs')
  end.

(** [[x for x in xs if cond(x)]] where the condition may raise. *)
Fixpoint comprehension_if {A : Type} (cond : A -> result bool) (xs : list A)
  : result (list A) :=
  match xs with
  | [] => Ok []
  | x :: xs' =>
      bind (cond x) (fun keep =>
      bind (comprehension_if cond xs') (fun rest =>
      Ok (if keep then x :: rest else rest)))
  end.

(** [[f(x) for x in xs]] where [f] may raise. *)
Fixpoint comprehension {A B : Type} (f : A -> result B) (xs : list A)
  : result (list B) :=
  match xs with
  | [] => Ok []
  | x :: xs' =>
      bind (f x) (fun y =>
      bind (comprehension f xs') (fun rest => Ok (y :: rest)))
  end.

(** [d.get(key, default)] on a field that may be absent. *)
Definition get {A : Type} (field : option A) (default : A) : A :=
  match field with
  | Some v => v
  | None => default
  end.

Definition Qltb (a b : Q) : bool := negb (Qle_bool b a).

(** [a / b]: true division, [ZeroDivisionError] on a zero divisor. *)
Definition truediv (a b : Q) : result Q :=
  if Qeq_bool b 0 then Raise ZeroDivisionError else Ok (a / b).

(** [int(x)]: truncation toward zero. *)
Definition int (x : Q) : Z := Z.quot (Qnum x) (Zpos (Qden x)).

(** [round(x)]: to the nearest integer, a tie to the even neighbour. *)
Definition round (x : Q) : Z :=
  let f := Qfloor x in
  match Qcompare (x - inject_Z f) (1 # 2) with
  | Lt => f
  | Gt => (f + 1)%Z
  | Eq => if Z.even f then f else (f + 1)%Z
  end.

(** [round(x, 2)]. *)
Definition round2 (x : Q) : Q := inject_Z (round (x * 100)) / 100.

(** [s * n] for a sequence [s] of one element: empty when [n <= 0]. *)
Definition repeat_char {A : Type} (c : A) (n : Z) : list A :=
  repeat c (Z.to_nat n).

(** [xs[:n]]: the first [n] elements, and for a negative [n] all but the
    last [-n]. *)
Definition slice_to {A : Type} (xs : list A) (n : Z) : list A :=
  if (n <? 0)%Z
  then firstn (Z.to_nat (Z.of_nat (List.length xs) + n)) xs
  else firstn (Z.to_nat n) xs.

(** [s.replace('Z', '+00:00')]: every occurrence is replaced. *)
Fixpoint replace_Z (s : string) : string :=
  match s with
  | EmptyString => EmptyString
  | String c s' =>
      if Ascii.eqb c "Z"%char
      then ("+00:00" ++ replace_Z s')%string
      else String c (replace_Z s')
  end.

(** [s.capitalize()] on ASCII letters: the first character in upper case,
    the others in lower case. *)
Definition upper (c : ascii) : ascii :=
  let n := nat_of_ascii c in
  if ((97 <=? n) && (n <=? 122))%nat then ascii_of_nat (n - 32) else c.

Definition lower (c : ascii) : ascii :=
  let n := nat_of_ascii c in
  if ((65 <=? n) && (n <=? 90))%nat then ascii_of_nat (n + 32) else c.

Fixpoint lower_all (s : string) : string :=
  match s with
  | EmptyString => EmptyString
  | String c s' => String (lower c) (lower_all s')
  end.

Definition capitalize (s : string) : string :=
  match s with
  | EmptyString => EmptyString
  | String c s' => String (upper c) (lower_all s')
  end.

(** An insertion-ordered [dict] with string keys. *)
Definition dict (V : Type) : Type := list (string * V).

(** [d[k] = f(d[k])], the entry being created from [dflt] (at the end of the
    iteration order) when [k] is not yet a key. *)
Fixpoint dict_update {V : Type} (k : string) (f : V -> V) (dflt : V)
  (d : dict V) : dict V :=
  match d with
  | [] => [(k, f dflt)]
  | (k', v) :: d' =>
      if String.eqb k k' then (k', f v) :: d'
      else (k', v) :: dict_update k f dflt d'
  end.

(** [sorted(items, key=..., reverse=True)]: Python's sort is stable, also
    with [reverse=True], so its result is the one an insertion sort gives
    that never moves an item past one of equal key. *)
Fixpoint insert_desc {A : Type} (key : A -> Z) (x : A) (sorted : list A)
  : list A :=
  match sorted with
  | [] => [x]
  | y :: sorted' =>
      if (key x <? key y)%Z then y :: insert_desc key x sorted'
      else x :: sorted
  end.

Fixpoint sorted_reverse {A : Type} (key : A -> Z) (items : list A) : list A :=
  match items with
  | [] => []
  | x :: items' => insert_desc key x (sorted_reverse key items')
  end.


(** [min(xs)] and [max(xs)] on a list that is not empty: the first item is
    the candidate, and each later item replaces it when [item < candidate]
    (for [max]: [item > candidate]); a comparison that raises ends the
    scan. *)
Fixpoint scan {A : Type} (better : A -> A -> result bool) (candidate : A)
  (rest : list A) : result A :=
  match rest with
  | [] => Ok candidate
  | item :: rest' =>
      bind (better item candidate) (fun b =>
      scan better (if b then item else candidate) rest')
  end.

Definition builtin_min {A : Type} (lt : A -> A -> result bool) (xs : list A)
  : result A :=
  match xs with
  | [] => Raise ValueError
  | x :: rest => scan lt x rest
  end.

Definition builtin_max {A : Type} (gt : A -> A -> result bool) (xs : list A)
  : result A :=
  match xs with
  | [] => Raise ValueError
  | x :: rest => scan gt x rest
  end.

(** [str(n)] for an [int]. *)
Definition str_int (n : Z) : string := NilZero.string_of_int (Z.to_int n).

Definition digit_chr (d : Z) : ascii := ascii_of_nat (48 + Z.to_nat d).

(** The last [width] decimal digits of [n], with leading zeros. *)
Fixpoint zfill_digits (width : nat) (n : Z) : string :=
  match width with
  | O => EmptyString
  | S w => (zfill_digits w (n / 10) ++ String (digit_chr (n mod 10)) EmptyString)%string
  end.

(** [format(x, '.<digits>f')]: the value rounded to [digits] decimals, a
    tie to the even neighbour, with a minus sign when [x] is below zero. *)
Definition format_f (digits : nat) (x : Q) : string :=
  let scale := (10 ^ Z.of_nat digits)%Z in
  let n := round (Qabs x * inject_Z scale) in
  ((if Qltb x 0 then "-" else "")
   ++ str_int (n / scale)
   ++ match digits with
      | O => ""
      | _ => "." ++ zfill_digits digits (n mod scale)
      end)%string.

(** [s.split(sep)] for a separator of one character: the pieces between the
    occurrences, empty pieces included. *)
Fixpoint split (sep : ascii) (s : string) : list string :=
  match s with
  | EmptyString => [EmptyString]
  | String c s' =>
      if Ascii.eqb c sep then EmptyString :: split sep s'
      else match split sep s' with
           | piece :: pieces => String c piece :: pieces
           | [] => [String c EmptyString]
           end
  end.

(** [sorted(items)] and [sorted(items, reverse=True)] on strings.  Python
    compares strings by code point, which is the order of their UTF-8 bytes,
    and its sort is stable: the result is the one an insertion sort gives
    that moves an item only past the items it must come after. *)
Fixpoint insert_sorted {A : Type} (after : A -> A -> bool) (x : A)
  (sorted : list A) : list A :=
  match sorted with
  | [] => [x]
  | y :: sorted' =>
      if after x y then y :: insert_sorted after x sorted'
      else x :: sorted
  end.

Fixpoint sort_by {A : Type} (after : A -> A -> bool) (items : list A)
  : list A :=
  match items with
  | [] => []
  | x :: items' => insert_sorted after x (sort_by after items')
  end.

Definition sorted_strings (items : list string) : list string :=
  sort_by (fun x y => String.ltb y x) items.

Definition sorted_strings_reverse (items : list string) : list string :=
  sort_by (fun x y => String.ltb x y) items.

(** [d.keys()] *)
Definition keys {V : Type} (d : dict V) : list string := map fst d.

Fixpoint dict_get {V : Type} (k : string) (d : dict V) : option V :=
  match d with
  | [] => None
  | (k', v) :: d' => if String.eqb k k' then Some v else dict_get k d'
  end.

(** [d[k]] for a [k] taken from [d.keys()]: the entry is there, so the
    subscript does not raise and [dflt] is never returned. *)
Definition subscript {V : Type} (d : dict V) (k : string) (dflt : V) : V :=
  get (dict_get k d) dflt.

(** [enumerate(xs, start)] *)
Fixpoint enumerate {A : Type} (xs : list A) (start : Z) : list (Z * A) :=
  match xs with
  | [] => []
  | x :: xs' => (start, x) :: enumerate xs' (start + 1)
  end.

End Py.

Import Py.

Notation "x <- c ;; k" := (Py.bind c (fun x => k))
  (at level 61, c at next level, right associativity).

(** ** [datetime]: the part of Python's library the scripts call

    [fromisoformat] follows the grammar the library documents,
    [YYYY-MM-DD[*HH[:MM[:SS[.fff[fff]]]][+HH:MM[:SS[.ffffff]]]]], and the
    range checks of the [datetime] constructor.  A value is offset-aware when
    the string carries an offset, and naive otherwise. *)

Module Datetime.

Record datetime : Type := mk_datetime {
  year : Z;
  month : Z;
  day : Z;
  hour : Z;
  minute : Z;
  second : Z;
  microsecond : Z;
  (** [utcoffset()] in microseconds; [None] for a naive value *)
  tzinfo : option Z
}.

Definition digit (c : ascii) : option Z :=
  let n := Z.of_nat (nat_of_ascii c) in
  if ((48 <=? n) && (n <=? 57))%Z then Some (n - 48)%Z else None.

(** [int(s)] on a string of decimal digits. *)
Fixpoint int_digits (cs : list ascii) (acc : Z) : result Z :=
  match cs with
  | [] => Ok acc
  | c :: cs' =>
      match digit c with
      | Some d => int_digits cs' (10 * acc + d)%Z
      | None => Raise ValueError
      end
  end.

Definition int_of (cs : list ascii) : result Z :=
  match cs with
  | [] => Raise ValueError
  | _ => int_digits cs 0%Z
  end.

Definition substr (cs : list ascii) (a b : nat) : list ascii :=
  firstn (b - a) (skipn a cs).

Definition _is_leap (y : Z) : bool :=
  ((y mod 4 =? 0) && (negb (y mod 100 =? 0) || (y mod 400 =? 0)))%Z.

Definition _days_in_month (y m : Z) : Z :=
  if (m =? 2)%Z then (if _is_leap y then 29 else 28)%Z
  else if ((m =? 4) || (m =? 6) || (m =? 9) || (m =? 11))%Z then 30%Z
  else 31%Z.

Definition _days_before_year (y : Z) : Z :=
  let y1 := (y - 1)%Z in
  (y1 * 365 + y1 / 4 - y1 / 100 + y1 / 400)%Z.

Definition _DAYS_BEFORE_MONTH (m : Z) : Z :=
  nth (Z.to_nat m) [0; 0; 31; 59; 90; 120; 151; 181; 212; 243; 273; 304; 334]%Z 0%Z.

Definition _days_before_month (y m : Z) : Z :=
  (_DAYS_BEFORE_MONTH m + (if (2 <? m)%Z && _is_leap y then 1 else 0))%Z.

Definition _ymd2ord (y m d : Z) : Z :=
  (_days_before_year y + _days_before_month y m + d)%Z.

Definition _MAXORDINAL : Z := 3652059.

(** The checks of the [datetime] constructor. *)
Definition check_fields (y m d hh mm ss us : Z) : bool :=
  ((1 <=? y) && (y <=? 9999) && (1 <=? m) && (m <=? 12) &&
   (1 <=? d) && (d <=? _days_in_month y m) &&
   (0 <=? hh) && (hh <=? 23) && (0 <=? mm) && (mm <=? 59) &&
   (0 <=? ss) && (ss <=? 59) && (0 <=? us) && (us <=? 999999))%Z.

Definition _parse_isoformat_date (dstr : list ascii) : result (Z * Z * Z) :=
  match dstr with
  | [y1; y2; y3; y4; s1; m1; m2; s2; d1; d2] =>
      y <- int_of [y1; y2; y3; y4] ;;
      if negb (Ascii.eqb s1 "-"%char) then Raise ValueError else
      m <- int_of [m1; m2] ;;
      if negb (Ascii.eqb s2 "-"%char) then Raise ValueError else
      d <- int_of [d1; d2] ;;
      Ok (y, m, d)
  | _ => Raise ValueError
  end.

Definition two_digits (cs : list ascii) : result (Z * list ascii) :=
  match cs with
  | a :: b :: rest => v <- int_of [a; b] ;; Ok (v, rest)
  | _ => Raise ValueError
  end.

Definition fraction (cs : list ascii) : result Z :=
  match cs with
  | [] => Ok 0%Z
  | c :: ds =>
      if negb (Ascii.eqb c "."%char) then Raise ValueError
      else if (List.length ds =? 3)%nat then v <- int_of ds ;; Ok (v * 1000)%Z
      else if (List.length ds =? 6)%nat then int_of ds
      else Raise ValueError
  end.

(** [HH[:MM[:SS[.fff[fff]]]]] *)
Definition _parse_hh_mm_ss_ff (tstr : list ascii) : result (Z * Z * Z * Z) :=
  p0 <- two_digits tstr ;;
  match snd p0 with
  | [] => Ok (fst p0, 0, 0, 0)%Z
  | c0 :: r0 =>
      if negb (Ascii.eqb c0 ":"%char) then Raise ValueError else
      p1 <- two_digits r0 ;;
      match snd p1 with
      | [] => Ok (fst p0, fst p1, 0, 0)%Z
      | c1 :: r1 =>
          if negb (Ascii.eqb c1 ":"%char) then Raise ValueError else
          p2 <- two_digits r1 ;;
          us <- fraction (snd p2) ;;
          Ok (fst p0, fst p1, fst p2, us)
      end
  end.

(** [s.find(c)] *)
Fixpoint find (c : ascii) (cs : list ascii) : option nat :=
  match cs with
  | [] => None
  | x :: cs' =>
      if Ascii.eqb x c then Some 0%nat
      else match find c cs' with Some i => Some (S i) | None => None end
  end.

Definition hms_micros (t : Z * Z * Z * Z) : Z :=
  let '(hh, mm, ss, us) := t in
  (((hh * 3600 + mm * 60 + ss) * 1000000) + us)%Z.

Definition _parse_isoformat_time (tstr : list ascii)
  : result (Z * Z * Z * Z * option Z) :=
  if (List.length tstr <? 2)%nat then Raise ValueError else
  let tz_pos :=
    match find "-"%char tstr with
    | Some i => Some i
    | None => find "+"%char tstr
    end in
  match tz_pos with
  | None => t <- _parse_hh_mm_ss_ff tstr ;; Ok (t, None)
  | Some i =>
      t <- _parse_hh_mm_ss_ff (firstn i tstr) ;;
      let tzstr := skipn (S i) tstr in
      let n := List.length tzstr in
      if negb ((n =? 5) || (n =? 8) || (n =? 15))%nat then Raise ValueError else
      tz <- _parse_hh_mm_ss_ff tzstr ;;
      let off := hms_micros tz in
      if (off =? 0)%Z then Ok (t, Some 0%Z)
      else if (86400000000 <=? off)%Z then Raise ValueError
      else if Ascii.eqb (nth i tstr " "%char) "-"%char
           then Ok (t, Some (- off)%Z)
           else Ok (t, Some off)
  end.

(** [datetime.fromisoformat(date_string)] *)
Definition fromisoformat (date_string : string) : result datetime :=
  let cs := list_ascii_of_string date_string in
  ymd <- _parse_isoformat_date (substr cs 0 10) ;;
  let '(y, m, d) := ymd in
  let tstr := skipn 11 cs in
  tc <- match tstr with
        | [] => Ok (0, 0, 0, 0, None)%Z
        | _ => _parse_isoformat_time tstr
        end ;;
  let '(hh, mm, ss, us, tz) := tc in
  if check_fields y m d hh mm ss us
  then Ok (mk_datetime y m d hh mm ss us tz)
  else Raise ValueError.

(** The position of the calendar fields on the timeline, in microseconds
    from 0001-01-01T00:00:00 (day 1 of the proleptic Gregorian ordinal), the
    offset not applied.  Two naive values compare as these numbers do. *)
Definition wall_micros (dt : datetime) : Z :=
  (_ymd2ord (year dt) (month dt) (day dt) * 86400000000
   + hms_micros (hour dt, minute dt, second dt, microsecond dt))%Z.

(** [now - timedelta(days=days)] for the naive [now] that [datetime.now()]
    returns.  The scripts only compare the difference, never read its
    calendar fields, so it is kept as its position on the naive timeline.
    [timedelta] refuses more than 999999999 days and the difference must stay
    within years 1 to 9999. *)
Definition minus_days (now_micros : Z) (days : Z) : result Z :=
  if (999999999 <? Z.abs days)%Z then Raise OverflowError else
  let r := (now_micros - days * 86400000000)%Z in
  let ord := (r / 86400000000)%Z in
  if ((1 <=? ord) && (ord <=? _MAXORDINAL))%Z then Ok r
  else Raise OverflowError.

(** [dt > cutoff] against a naive [cutoff]: comparing an offset-aware value
    with a naive one raises [TypeError]. *)
Definition gt_naive (dt : datetime) (cutoff : Z) : result bool :=
  match tzinfo dt with
  | Some _ => Raise TypeError
  | None => Ok (cutoff <? wall_micros dt)%Z
  end.

(** [dt.date()]: the calendar fields, whatever the offset. *)
Definition date (dt : datetime) : Z * Z * Z := (year dt, month dt, day dt).

Definition digit_char (d : Z) : ascii := ascii_of_nat (48 + Z.to_nat d).

Definition pad2 (n : Z) : string :=
  String (digit_char (n / 10 mod 10)) (String (digit_char (n mod 10)) EmptyString).

Definition pad4 (n : Z) : string :=
  String (digit_char (n / 1000 mod 10))
    (String (digit_char (n / 100 mod 10)) (pad2 n)).

(** [dt.strftime('%Y-%m-%d')] *)
Definition strftime_ymd (dt : datetime) : string :=
  (pad4 (year dt) ++ "-" ++ pad2 (month dt) ++ "-" ++ pad2 (day dt))%string.


(** The instant an offset-aware value denotes (its calendar fields less its
    offset); for a naive value, the position of its calendar fields. *)
Definition instant (dt : datetime) : Z :=
  match tzinfo dt with
  | Some offset => (wall_micros dt - offset)%Z
  | None => wall_micros dt
  end.

(** [a < b] and [a > b] on two [datetime]s: two naive values compare by
    their fields, two aware values by their instants, and a naive value
    against an aware one raises [TypeError]. *)
Definition lt (a b : datetime) : result bool :=
  match tzinfo a, tzinfo b with
  | None, None | Some _, Some _ => Ok (instant a <? instant b)%Z
  | _, _ => Raise TypeError
  end.

Definition gt (a b : datetime) : result bool :=
  match tzinfo a, tzinfo b with
  | None, None | Some _, Some _ => Ok (instant b <? instant a)%Z
  | _, _ => Raise TypeError
  end.

(** [dt.strftime('%H:%M:%S')] *)
Definition strftime_hms (dt : datetime) : string :=
  (pad2 (hour dt) ++ ":" ++ pad2 (minute dt) ++ ":" ++ pad2 (second dt))%string.

(** [dt.replace(hour=0, minute=0, second=0, microsecond=0)] *)
Definition midnight (dt : datetime) : datetime :=
  mk_datetime (year dt) (month dt) (day dt) 0 0 0 0 (tzinfo dt).

(** A [datetime] that results from arithmetic, kept as the position of its
    calendar fields on the timeline and its offset. *)
Record point : Type := mk_point {
  position : Z;
  offset : option Z
}.

Definition point_of (dt : datetime) : point :=
  mk_point (wall_micros dt) (tzinfo dt).

(** [p + timedelta(days=days)]; the date must stay within years 1 to 9999. *)
Definition plus_days (p : point) (days : Z) : result point :=
  if (999999999 <? Z.abs days)%Z then Raise OverflowError else
  let r := (position p + days * 86400000000)%Z in
  let ord := (r / 86400000000)%Z in
  if ((1 <=? ord) && (ord <=? _MAXORDINAL))%Z then Ok (mk_point r (offset p))
  else Raise OverflowError.

(** [p <= dt] and [dt < p]; a naive value against an aware one raises
    [TypeError]. *)
Definition point_le_dt (p : point) (dt : datetime) : result bool :=
  match offset p, tzinfo dt with
  | None, None => Ok (position p <=? wall_micros dt)%Z
  | Some o, Some _ => Ok (position p - o <=? instant dt)%Z
  | _, _ => Raise TypeError
  end.

Definition dt_lt_point (dt : datetime) (p : point) : result bool :=
  match tzinfo dt, offset p with
  | None, None => Ok (wall_micros dt <? position p)%Z
  | Some _, Some o => Ok (instant dt <? position p - o)%Z
  | _, _ => Raise TypeError
  end.

Definition pad6 (n : Z) : string :=
  (pad2 (n / 10000) ++ pad2 (n / 100) ++ pad2 n)%string.

(** The offset as [isoformat] writes it: [+HH:MM], with the seconds and the
    microseconds only when they are not 0. *)
Definition _format_offset (off : option Z) : string :=
  match off with
  | None => ""
  | Some off =>
      let sign := if (off <? 0)%Z then "-" else "+" in
      let off := Z.abs off in
      let hh := (off / 3600000000)%Z in
      let mm := (off / 60000000 mod 60)%Z in
      let ss := (off / 1000000 mod 60)%Z in
      let us := (off mod 1000000)%Z in
      sign ++ pad2 hh ++ ":" ++ pad2 mm
      ++ (if ((ss =? 0) && (us =? 0))%Z then ""
          else ":" ++ pad2 ss
               ++ (if (us =? 0)%Z then "" else "." ++ pad6 us))
  end%string.

(** [dt.isoformat()]: the microseconds are written only when they are not
    0, and a naive value, as [datetime.now()] returns, has no offset. *)
Definition isoformat (dt : datetime) : string :=
  (strftime_ymd dt ++ "T" ++ strftime_hms dt
   ++ (if (microsecond dt =? 0)%Z then "" else "." ++ pad6 (microsecond dt))
   ++ _format_offset (tzinfo dt))%string.

End Datetime.

Import Datetime.

(** ** The meal records, as [json.load] returns them *)

Record Macros : Type := mk_Macros {
  protein_g : option Q;
  carbs_g : option Q;
  fat_g : option Q;
  fiber_g : option Q;
  sugar_g : option Q
}.

Record Micros : Type := mk_Micros {
  sodium_mg : option Q;
  potassium_mg : option Q;
  calcium_mg : option Q;
  iron_mg : option Q;
  vitamin_a_mcg : option Q;
  vitamin_c_mg : option Q;
  cholesterol_mg : option Q
}.

(** The object under ['totals'] of a meal and under ['nutrition'] of a food
    item: the same keys. *)
Record Nutrients : Type := mk_Nutrients {
  calories_kcal : option Q;
  macros : option Macros;
  micros : option Micros;
  allergens : option (list string);
  serving_total_g : option Q
}.

Record FoodItem : Type := mk_FoodItem {
  label : option string;
  confidence : option Q;
  serving_est_g : option Q;
  nutrition : option Nutrients
}.

Record ImageMeta : Type := mk_ImageMeta {
  width : option Z;
  height : option Z
}.

Record AnalysisData : Type := mk_AnalysisData {
  totals : option Nutrients;
  composition : option (list FoodItem);
  image_meta : option ImageMeta
}.

Record Meal : Type := mk_Meal {
  id : option string;
  mealType : option string;
  name : option string;
  notes : option string;
  consumedAt : option string;
  createdAt : option string;
  analysisData : option AnalysisData
}.

(** The empty objects [{}] that the scripts pass as defaults. *)
Definition empty_Macros : Macros := mk_Macros None None None None None.
Definition empty_Nutrients : Nutrients := mk_Nutrients None None None None None.
Definition empty_AnalysisData : AnalysisData := mk_AnalysisData None None None.

(** [datetime.fromisoformat(meal.get('consumedAt', '').replace('Z', '+00:00'))] *)
Definition consumed_at (meal : Meal) : result datetime :=
  fromisoformat (replace_Z (get (consumedAt meal) ""%string)).

(** The list comprehension shared by [generate_weekly_report] (with 7 days),
    [get_daily_averages] and [list_meals]:
    [[meal for meal in self.meals if fromisoformat(...) > cutoff]]. *)
Definition recent (cutoff : Z) (meals : list Meal) : result (list Meal) :=
  comprehension_if
    (fun meal => dt <- consumed_at meal ;; gt_naive dt cutoff) meals.

(** ** [scripts/nutrition_report.py] *)

Module NutritionReport.

Record DayData : Type := mk_DayData {
  count : Z;
  calories : Q;
  protein : Q;
  carbs : Q;
  fat : Q
}.

Record ReportTotals : Type := mk_ReportTotals {
  t_calories : Q;
  t_protein : Q;
  t_carbs : Q;
  t_fat : Q;
  t_fiber : Q
}.

(** The first statements of [generate_weekly_report]: the meals of the last
    7 days.  [now_micros] is the reading of [datetime.now()]. *)
Definition recent_meals (now_micros : Z) (meals : list Meal)
  : result (list Meal) :=
  cutoff <- minus_days now_micros 7 ;;
  recent cutoff meals.

Definition day_default : DayData := mk_DayData 0 0 0 0 0.

Definition _group_by_day_step (daily_data : dict DayData) (meal : Meal)
  : result (dict DayData) :=
  consumed <- consumed_at meal ;;
  let date_str := strftime_ymd consumed in
  let analysis := get (analysisData meal) empty_AnalysisData in
  let totals := get (totals analysis) empty_Nutrients in
  let macros := get (macros totals) empty_Macros in
  Ok (dict_update date_str
        (fun d => mk_DayData
           (count d + 1)
           (calories d + get (calories_kcal totals) 0)
           (protein d + get (protein_g macros) 0)
           (carbs d + get (carbs_g macros) 0)
           (fat d + get (fat_g macros) 0))
        day_default daily_data).

Definition _group_by_day (meals : list Meal) : result (dict DayData) :=
  for_each _group_by_day_step meals [].

Definition _calculate_totals_step (acc : ReportTotals) (meal : Meal)
  : ReportTotals :=
  let analysis := get (analysisData meal) empty_AnalysisData in
  let meal_totals := get (totals analysis) empty_Nutrients in
  let macros := get (macros meal_totals) empty_Macros in
  mk_ReportTotals
    (t_calories acc + get (calories_kcal meal_totals) 0)
    (t_protein acc + get (protein_g macros) 0)
    (t_carbs acc + get (carbs_g macros) 0)
    (t_fat acc + get (fat_g macros) 0)
    (t_fiber acc + get (fiber_g macros) 0).

Definition _calculate_totals (meals : list Meal) : ReportTotals :=
  fold_left _calculate_totals_step meals (mk_ReportTotals 0 0 0 0 0).

Record FoodCount : Type := mk_FoodCount {
  fc_count : Z;
  fc_total_calories : Q
}.

Record TopFood : Type := mk_TopFood {
  food : string;
  tf_count : Z;
  avg_calories : Q
}.

Definition count_item (food_count : dict FoodCount) (item : FoodItem)
  : dict FoodCount :=
  let label := get (label item) "unknown"%string in
  let nutrition := get (nutrition item) empty_Nutrients in
  dict_update label
    (fun d => mk_FoodCount (fc_count d + 1)
                (fc_total_calories d + get (calories_kcal nutrition) 0))
    (mk_FoodCount 0 0) food_count.

Definition count_meal (food_count : dict FoodCount) (meal : Meal)
  : dict FoodCount :=
  let analysis := get (analysisData meal) empty_AnalysisData in
  let composition := get (composition analysis) [] in
  fold_left count_item composition food_count.

Definition _get_top_foods (meals : list Meal) (limit : Z)
  : result (list TopFood) :=
  let food_count := fold_left count_meal meals [] in
  let sorted_foods := sorted_reverse (fun x => fc_count (snd x)) food_count in
  comprehension
    (fun x : string * FoodCount =>
       let (food, data) := x in
       avg <- (if (0 <? fc_count data)%Z
               then truediv (fc_total_calories data) (inject_Z (fc_count data))
               else Ok 0) ;;
       Ok (mk_TopFood food (fc_count data) avg))
    (slice_to sorted_foods limit).

(** The two characters of the gauge, by code point. *)
Definition FULL_BLOCK : Z := 9608.
Definition LIGHT_SHADE : Z := 9617.

Definition _create_bar (percentage : Q) (width : Z) : list Z :=
  let filled := int ((percentage / 100) * inject_Z width) in
  repeat_char FULL_BLOCK filled ++ repeat_char LIGHT_SHADE (width - filled).

Definition LOW_CALORIES : string :=
  "Your average calorie intake is quite low. Consider increasing portion sizes.".
Definition HIGH_CALORIES : string :=
  "Your calorie intake is high. Consider reducing portion sizes if weight management is a goal.".
Definition LOW_PROTEIN : string :=
  "Consider increasing protein intake. Aim for lean meats, fish, eggs, or plant-based sources.".
Definition HIGH_PROTEIN : string :=
  "Protein intake is very high. Ensure you're balancing with other nutrients.".
Definition FEW_MEALS : string :=
  "Try to have at least 3 balanced meals per day for better nutrition.".
Definition PROTEIN_SHARE : string :=
  "Consider increasing protein-rich foods in your diet.".
Definition CARBS_SHARE : string :=
  "Your carbohydrate intake is high. Consider balancing with more protein and healthy fats.".
Definition BALANCED : string :=
  "Your nutrition looks balanced! Keep up the good work.".

(** [recommendations.append(s)] *)
Definition append (recommendations : list string) (s : string) : list string :=
  recommendations ++ [s].

Definition _generate_recommendations (totals : ReportTotals) (meals : list Meal)
  : result (list string) :=
  let recommendations := [] in
  avg_calories <- truediv (t_calories totals) 7 ;;
  avg_protein <- truediv (t_protein totals) 7 ;;
  let recommendations :=
    if Qltb avg_calories 1500 then append recommendations LOW_CALORIES
    else if Qltb 2500 avg_calories then append recommendations HIGH_CALORIES
    else recommendations in
  let recommendations :=
    if Qltb avg_protein 50 then append recommendations LOW_PROTEIN
    else if Qltb 150 avg_protein then append recommendations HIGH_PROTEIN
    else recommendations in
  avg_meals_per_day <- truediv (inject_Z (Z.of_nat (List.length meals))) 7 ;;
  let recommendations :=
    if Qltb avg_meals_per_day 2 then append recommendations FEW_MEALS
    else recommendations in
  let total_macros := t_protein totals + t_carbs totals + t_fat totals in
  recommendations <-
    (if Qltb 0 total_macros then
       p <- truediv (t_protein totals) total_macros ;;
       c <- truediv (t_carbs totals) total_macros ;;
       let protein_pct := p * 100 in
       let carbs_pct := c * 100 in
       let recommendations :=
         if Qltb protein_pct 15 then append recommendations PROTEIN_SHARE
         else recommendations in
       let recommendations :=
         if Qltb 60 carbs_pct then append recommendations CARBS_SHARE
         else recommendations in
       Ok recommendations
     else Ok recommendations) ;;
  let recommendations :=
    match recommendations with
    | [] => append recommendations BALANCED
    | _ => recommendations
    end in
  Ok recommendations.


(** One line of the weekly report: each constructor is one of the strings
    that [generate_weekly_report] appends to [report_lines], with the values
    the string formats. *)
Inductive line : Type :=
| Rule (c : ascii)                 (* "=" * 80 and "-" * 80 *)
| Title                            (* "WEEKLY NUTRITION REPORT".center(80) *)
| Generated (date time : string)   (* f"Generated: {now:%Y-%m-%d %H:%M:%S}" *)
| Blank                            (* "" *)
| NoMeals                          (* "No meals found in the last 7 days" *)
| Heading (title : string)         (* "OVERVIEW", "DAILY BREAKDOWN", ... *)
| TotalMeals (n : Z)               (* f"Total Meals: {n}" *)
| AverageMeals (x : Q)             (* f"Average Meals per Day: {x:.1f}" *)
| DayColumns                       (* the column titles of the breakdown *)
| DayRow (date_str : string) (data : DayData)
| TotalOf (nutrient : string) (x : Q)    (* f"Total Calories: {x:.0f} kcal", ... *)
| AverageOf (nutrient : string) (x : Q)  (* f"Average Calories: {x:.0f} kcal/day", ... *)
| Share (nutrient : string) (pct : Q) (bar : list Z)
                                   (* f"Protein: {pct:.1f}% {bar}", ... *)
| MealTypeRow (meal_type : string) (n : Z) (pct : Q)
                                   (* f"{meal_type.capitalize():<12}: {n:>3} meals ({pct:.1f}%)" *)
| TopFoodRow (i : Z) (food_data : TopFood)
                                   (* f"{i:2}. {food:<30} - {count} times (avg {avg:.0f} kcal)" *)
| Bullet (rec : string).           (* the recommendation after a bullet *)

(** The lines of [generate_weekly_report], which returns them joined by
    newlines.  [generated] is the first reading of [datetime.now()], for the
    header, and [now_micros] the second, for the cutoff. *)
Definition generate_weekly_report (generated : datetime) (now_micros : Z)
  (meals : list Meal) : result (list line) :=
  let report_lines :=
    [Rule "="; Title; Rule "=";
     Generated (strftime_ymd generated) (strftime_hms generated); Blank] in
  recent_meals <- recent_meals now_micros meals ;;
  match recent_meals with
  | [] => Ok (report_lines ++ [NoMeals])
  | _ =>
      let n := Z.of_nat (List.length recent_meals) in
      average_meals <- truediv (inject_Z n) 7 ;;
      let report_lines :=
        report_lines
        ++ [Heading "OVERVIEW"; Rule "-"; TotalMeals n;
            AverageMeals average_meals; Blank] in
      daily_data <- _group_by_day recent_meals ;;
      let report_lines :=
        report_lines
        ++ [Heading "DAILY BREAKDOWN"; Rule "-"; DayColumns; Rule "-"]
        ++ map (fun date_str =>
                  DayRow date_str (subscript daily_data date_str day_default))
             (sorted_strings_reverse (keys daily_data))
        ++ [Blank] in
      let weekly_totals := _calculate_totals recent_meals in
      let report_lines :=
        report_lines
        ++ [Heading "WEEKLY TOTALS"; Rule "-";
            TotalOf "Calories" (t_calories weekly_totals);
            TotalOf "Protein" (t_protein weekly_totals);
            TotalOf "Carbs" (t_carbs weekly_totals);
            TotalOf "Fat" (t_fat weekly_totals); Blank] in
      average_calories <- truediv (t_calories weekly_totals) 7 ;;
      average_protein <- truediv (t_protein weekly_totals) 7 ;;
      average_carbs <- truediv (t_carbs weekly_totals) 7 ;;
      average_fat <- truediv (t_fat weekly_totals) 7 ;;
      let report_lines :=
        report_lines
        ++ [Heading "DAILY AVERAGES"; Rule "-";
            AverageOf "Calories" average_calories;
            AverageOf "Protein" average_protein;
            AverageOf "Carbs" average_carbs;
            AverageOf "Fat" average_fat; Blank] in
      let total_macros :=
        t_protein weekly_totals + t_carbs weekly_totals
        + t_fat weekly_totals in
      report_lines <-
        (if Qltb 0 total_macros then
           p <- truediv (t_protein weekly_totals) total_macros ;;
           c <- truediv (t_carbs weekly_totals) total_macros ;;
           f <- truediv (t_fat weekly_totals) total_macros ;;
           let protein_pct := p * 100 in
           let carbs_pct := c * 100 in
           let fat_pct := f * 100 in
           Ok (report_lines
               ++ [Heading "MACRONUTRIENT DISTRIBUTION"; Rule "-";
                   Share "Protein" protein_pct (_create_bar protein_pct 40);
                   Share "Carbs" carbs_pct (_create_bar carbs_pct 40);
                   Share "Fat" fat_pct (_create_bar fat_pct 40); Blank])
         else Ok report_lines) ;;
      let meal_types :=
        fold_left
          (fun meal_types meal =>
             dict_update (get (mealType meal) "unknown"%string)
               (fun k => (k + 1)%Z) 0%Z meal_types)
          recent_meals [] in
      report_lines <-
        (match meal_types with
         | [] => Ok report_lines
         | _ =>
             rows <- comprehension
                       (fun meal_type =>
                          let k := subscript meal_types meal_type 0%Z in
                          share <- truediv (inject_Z k) (inject_Z n) ;;
                          Ok (MealTypeRow (capitalize meal_type) k (share * 100)))
                       (sorted_strings (keys meal_types)) ;;
             Ok (report_lines
                 ++ [Heading "MEAL TYPE DISTRIBUTION"; Rule "-"]
                 ++ rows ++ [Blank])
         end) ;;
      top_foods <- _get_top_foods recent_meals 10 ;;
      let report_lines :=
        match top_foods with
        | [] => report_lines
        | _ =>
            report_lines
            ++ [Heading "TOP 10 FOODS"; Rule "-"]
            ++ map (fun x => TopFoodRow (fst x) (snd x)) (enumerate top_foods 1)
            ++ [Blank]
        end in
      let report_lines :=
        report_lines ++ [Heading "RECOMMENDATIONS"; Rule "-"] in
      recommendations <- _generate_recommendations weekly_totals recent_meals ;;
      Ok (report_lines ++ map Bullet recommendations ++ [Blank; Rule "="])
  end.

End NutritionReport.

(** ** [scripts/nutrition_analyzer.py] *)

Module NutritionAnalyzer.

Record MacroSums : Type := mk_MacroSums {
  total_protein : Q;
  total_carbs : Q;
  total_fat : Q;
  total_calories : Q
}.

Record MacroAnalysis : Type := mk_MacroAnalysis {
  r_total_protein : Q;
  r_total_carbs : Q;
  r_total_fat : Q;
  r_total_calories : Q;
  protein_percentage : Q;
  carbs_percentage : Q;
  fat_percentage : Q
}.

Record Percentages : Type := mk_Percentages {
  protein_pct : Q;
  carbs_pct : Q;
  fat_pct : Q
}.

(** The body of the loop of [analyze_macros] (and of [get_daily_averages]). *)
Definition sum_step (acc : MacroSums) (meal : Meal) : MacroSums :=
  let analysis := get (analysisData meal) empty_AnalysisData in
  let totals := get (totals analysis) empty_Nutrients in
  let macros := get (macros totals) empty_Macros in
  mk_MacroSums
    (total_protein acc + get (protein_g macros) 0)
    (total_carbs acc + get (carbs_g macros) 0)
    (total_fat acc + get (fat_g macros) 0)
    (total_calories acc + get (calories_kcal totals) 0).

Definition macro_sums (meals : list Meal) : MacroSums :=
  fold_left sum_step meals (mk_MacroSums 0 0 0 0).

(** The "Calculate percentages" block of [analyze_macros]. *)
Definition percentages (s : MacroSums) : result Percentages :=
  let total_grams := total_protein s + total_carbs s + total_fat s in
  if Qltb 0 total_grams then
    p <- truediv (total_protein s) total_grams ;;
    c <- truediv (total_carbs s) total_grams ;;
    f <- truediv (total_fat s) total_grams ;;
    Ok (mk_Percentages (p * 100) (c * 100) (f * 100))
  else Ok (mk_Percentages 0 0 0).

Definition analyze_macros (meals : list Meal) : result MacroAnalysis :=
  let s := macro_sums meals in
  pct <- percentages s ;;
  Ok (mk_MacroAnalysis
        (round2 (total_protein s)) (round2 (total_carbs s))
        (round2 (total_fat s)) (round2 (total_calories s))
        (round2 (protein_pct pct)) (round2 (carbs_pct pct))
        (round2 (fat_pct pct))).

Record Averages : Type := mk_Averages {
  a_calories : Q;
  a_protein : Q;
  a_carbs : Q;
  a_fat : Q
}.

(** The first statements of [get_daily_averages]. *)
Definition recent_meals (now_micros : Z) (days : Z) (meals : list Meal)
  : result (list Meal) :=
  cutoff_date <- minus_days now_micros days ;;
  recent cutoff_date meals.

Definition get_daily_averages (now_micros : Z) (days : Z) (meals : list Meal)
  : result Averages :=
  recent_meals <- recent_meals now_micros days meals ;;
  match recent_meals with
  | [] => Ok (mk_Averages 0 0 0 0)
  | _ =>
      let s := macro_sums recent_meals in
      c <- truediv (total_calories s) (inject_Z days) ;;
      p <- truediv (total_protein s) (inject_Z days) ;;
      cb <- truediv (total_carbs s) (inject_Z days) ;;
      f <- truediv (total_fat s) (inject_Z days) ;;
      Ok (mk_Averages (round2 c) (round2 p) (round2 cb) (round2 f))
  end.

Record FoodCount : Type := mk_FoodCount {
  count : Z;
  total_calories_of : Q;
  total_protein_of : Q
}.

Record TopFood : Type := mk_TopFood {
  food : string;
  tf_count : Z;
  avg_calories : Q;
  avg_protein : Q
}.

(** The body of [for item in composition]; the entry is created with zeros
    when the label is new, then counted. *)
Definition count_item (food_count : dict FoodCount) (item : FoodItem)
  : dict FoodCount :=
  let label := get (label item) "unknown"%string in
  let nutrition := get (nutrition item) empty_Nutrients in
  dict_update label
    (fun d => mk_FoodCount
       (count d + 1)
       (total_calories_of d + get (calories_kcal nutrition) 0)
       (total_protein_of d
        + get (protein_g (get (macros nutrition) empty_Macros)) 0))
    (mk_FoodCount 0 0 0) food_count.

Definition count_meal (food_count : dict FoodCount) (meal : Meal)
  : dict FoodCount :=
  let analysis := get (analysisData meal) empty_AnalysisData in
  let composition := get (composition analysis) [] in
  fold_left count_item composition food_count.

(** [food_count] when the loop over the meals ends. *)
Definition food_counts (meals : list Meal) : dict FoodCount :=
  fold_left count_meal meals [].

Definition sorted_foods (meals : list Meal) : list (string * FoodCount) :=
  sorted_reverse (fun x => count (snd x)) (food_counts meals).

(** One element of the returned list. *)
Definition top_food (x : string * FoodCount) : result TopFood :=
  let (food, data) := x in
  c <- truediv (total_calories_of data) (inject_Z (count data)) ;;
  p <- truediv (total_protein_of data) (inject_Z (count data)) ;;
  Ok (mk_TopFood food (count data) (round2 c) (round2 p)).

Definition get_top_foods (meals : list Meal) (limit : Z)
  : result (list TopFood) :=
  comprehension top_food (slice_to (sorted_foods meals) limit).


Definition get_meal_frequency (meals : list Meal) : dict Z :=
  fold_left
    (fun frequency meal =>
       let meal_type := get (mealType meal) "unknown"%string in
       (* frequency[meal_type] = frequency.get(meal_type, 0) + 1 *)
       dict_update meal_type (fun n => (n + 1)%Z) 0%Z frequency)
    meals [].

(** What [print_summary] prints: each constructor is one of its [print]
    calls, with the values the string formats. *)
Inductive printed : Type :=
| Ruler                            (* "=" * 60 *)
| Heading                          (* "NUTRITION ANALYSIS SUMMARY" *)
| MealsAnalyzed (n : Z)            (* f"Total Meals Analyzed: {n}" *)
| Part (title : string)            (* "--- MACRONUTRIENT DISTRIBUTION ---", ... *)
| CaloriesTotal (kcal : Q)         (* f"Total Calories: {kcal} kcal" *)
| MacroTotal (nutrient : string) (grams pct : Q)
                                   (* f"Total Protein: {grams}g ({pct}%)", ... *)
| FrequencyRow (meal_type : string) (n : Z)
                                   (* f"{meal_type.capitalize()}: {n} meals" *)
| AverageLine (nutrient : string) (x : Q)
                                   (* f"Calories: {x} kcal/day", ... *)
| FoodRow (i : Z) (food : TopFood).
                                   (* f"{i}. {food}: {count} times (avg ...)" *)

(** [print_summary]: what has been printed when it ends, and the exception
    that ended it, if one did.  [now_micros] is the reading of
    [datetime.now()] in [get_daily_averages]. *)
Definition print_summary (now_micros : Z) (meals : list Meal)
  : list printed * option exn :=
  let out :=
    [Ruler; Heading; Ruler; MealsAnalyzed (Z.of_nat (List.length meals));
     Part "MACRONUTRIENT DISTRIBUTION"] in
  match analyze_macros meals with
  | Raise e => (out, Some e)
  | Ok macros =>
      let out :=
        out
        ++ [CaloriesTotal (r_total_calories macros);
            MacroTotal "Protein" (r_total_protein macros) (protein_percentage macros);
            MacroTotal "Carbs" (r_total_carbs macros) (carbs_percentage macros);
            MacroTotal "Fat" (r_total_fat macros) (fat_percentage macros);
            Part "MEAL TYPE FREQUENCY"] in
      let frequency := get_meal_frequency meals in
      let out :=
        out
        ++ map (fun x => FrequencyRow (capitalize (fst x)) (snd x))
             (sorted_reverse (fun x => snd x) frequency)
        ++ [Part "7-DAY DAILY AVERAGES"] in
      match get_daily_averages now_micros 7 meals with
      | Raise e => (out, Some e)
      | Ok averages =>
          let out :=
            out
            ++ [AverageLine "Calories" (a_calories averages);
                AverageLine "Protein" (a_protein averages);
                AverageLine "Carbs" (a_carbs averages);
                AverageLine "Fat" (a_fat averages);
                Part "TOP 10 FOODS"] in
          match get_top_foods meals 10 with
          | Raise e => (out, Some e)
          | Ok top_foods =>
              (out
               ++ map (fun x => FoodRow (fst x) (snd x)) (enumerate top_foods 1)
               ++ [Ruler],
               None)
          end
      end
  end.

End NutritionAnalyzer.

(** ** [scripts/data_export.py] *)

Module DataExport.

Record Totals : Type := mk_Totals {
  calories : Q;
  protein : Q;
  carbs : Q;
  fat : Q;
  fiber : Q;
  sugar : Q
}.

Definition sum_step (acc : Totals) (meal : Meal) : Totals :=
  let analysis := get (analysisData meal) empty_AnalysisData in
  let meal_totals := get (totals analysis) empty_Nutrients in
  let macros := get (macros meal_totals) empty_Macros in
  mk_Totals
    (calories acc + get (calories_kcal meal_totals) 0)
    (protein acc + get (protein_g macros) 0)
    (carbs acc + get (carbs_g macros) 0)
    (fat acc + get (fat_g macros) 0)
    (fiber acc + get (fiber_g macros) 0)
    (sugar acc + get (sugar_g macros) 0).

(** The dictionary [totals] when the loop of [_calculate_totals] ends. *)
Definition accumulated (meals : list Meal) : Totals :=
  fold_left sum_step meals (mk_Totals 0 0 0 0 0 0).

(** [{k: f(v) for k, v in totals.items()}] where [f] may raise. *)
Definition map_values (f : Q -> result Q) (t : Totals) : result Totals :=
  c <- f (calories t) ;;
  p <- f (protein t) ;;
  cb <- f (carbs t) ;;
  ft <- f (fat t) ;;
  fb <- f (fiber t) ;;
  sg <- f (sugar t) ;;
  Ok (mk_Totals c p cb ft fb sg).

Definition _calculate_totals (meals : list Meal) : result Totals :=
  map_values (fun v => Ok (round2 v)) (accumulated meals).

Definition date_eq_dec (a b : Z * Z * Z) : {a = b} + {a <> b}.
Proof. repeat decide equality. Defined.

(** [dates.add(d)] on a set kept as a duplicate-free list. *)
Fixpoint set_add (d : Z * Z * Z) (dates : list (Z * Z * Z))
  : list (Z * Z * Z) :=
  match dates with
  | [] => [d]
  | d' :: dates' =>
      if date_eq_dec d d' then dates else d' :: set_add d dates'
  end.

Definition collect_dates (meals : list Meal) : result (list (Z * Z * Z)) :=
  for_each
    (fun dates meal => dt <- consumed_at meal ;; Ok (set_add (date dt) dates))
    meals [].

(** [None] is the empty dictionary [{}] the function returns when there is
    no meal. *)
Definition _calculate_daily_averages (meals : list Meal)
  : result (option Totals) :=
  match meals with
  | [] => Ok None
  | _ =>
      dates <- collect_dates meals ;;
      let total_days := Z.of_nat (List.length dates) in
      if (total_days =? 0)%Z then Ok None else
      totals <- _calculate_totals meals ;;
      averages <-
        map_values
          (fun v => q <- truediv v (inject_Z total_days) ;; Ok (round2 q))
          totals ;;
      Ok (Some averages)
  end.


Definition _count_meal_types (meals : list Meal) : dict Z :=
  fold_left
    (fun counts meal =>
       let meal_type := get (mealType meal) "unknown"%string in
       (* counts[meal_type] = counts.get(meal_type, 0) + 1 *)
       dict_update meal_type (fun n => (n + 1)%Z) 0%Z counts)
    meals [].

(** [{'start': ..., 'end': ...}] *)
Definition _get_date_range (meals : list Meal)
  : result (option string * option string) :=
  match meals with
  | [] => Ok (None, None)
  | _ =>
      dates <- comprehension consumed_at meals ;;
      first <- builtin_min lt dates ;;
      last <- builtin_max gt dates ;;
      Ok (Some (strftime_ymd first), Some (strftime_ymd last))
  end.

(** A value handed to [csv.writer] for one cell. *)
Inductive cell : Type :=
| Str (s : string)
| Num (x : Q)
| Int (n : Z).

Definition row : Type := list cell.

Definition SUMMARY_HEADER : row :=
  map Str
    ["Date"; "Time"; "Meal Type"; "Meal Name";
     "Calories (kcal)"; "Protein (g)"; "Carbs (g)"; "Fat (g)";
     "Fiber (g)"; "Sugar (g)"; "Sodium (mg)"; "Items Count"]%string.

Definition DETAILED_HEADER : row :=
  map Str
    ["Date"; "Meal Type"; "Food Item"; "Confidence";
     "Weight (g)"; "Calories"; "Protein"; "Carbs"; "Fat";
     "Fiber"; "Sugar"; "Sodium"; "Allergens"]%string.

Definition empty_Micros : Micros :=
  mk_Micros None None None None None None None.

(** The outcome of an export: what the output file holds afterwards ([None]:
    no file) and whether the export reported success. *)
Record Exported (content : Type) : Type := mk_Exported {
  file_after : option content;
  succeeded : bool
}.

Arguments mk_Exported {content} file_after succeeded.
Arguments file_after {content} e.
Arguments succeeded {content} e.

(** The rows written inside [with open(...)]: [rows_of x] are the rows of
    one iteration; when an iteration raises, the rows written so far stay in
    the file. *)
Fixpoint write_rows {A : Type} (rows_of : A -> result (list row))
  (xs : list A) (written : list row) : list row * bool :=
  match xs with
  | [] => (written, true)
  | x :: xs' =>
      match rows_of x with
      | Ok rows => write_rows rows_of xs' (written ++ rows)
      | Raise _ => (written, false)
      end
  end.

(** [try: with open(output_file, 'w') as f: ... except Exception: ...]:
    the file is truncated when it can be opened, the header is written, then
    the rows. *)
Definition export_rows {A : Type} (header : row)
  (rows_of : A -> result (list row)) (can_open : bool) (xs : list A)
  (file_before : option (list row)) : Exported (list row) :=
  if can_open then
    let (rows, ok) := write_rows rows_of xs [header] in
    mk_Exported (Some rows) ok
  else mk_Exported file_before false.

(** The row of one meal in [export_to_csv]. *)
Definition summary_row (meal : Meal) : result (list row) :=
  consumed <- consumed_at meal ;;
  let analysis := get (analysisData meal) empty_AnalysisData in
  let totals := get (totals analysis) empty_Nutrients in
  let macros := get (macros totals) empty_Macros in
  let micros := get (micros totals) empty_Micros in
  let composition := get (composition analysis) [] in
  Ok [[Str (strftime_ymd consumed);
       Str (strftime_hms consumed);
       Str (get (mealType meal) ""%string);
       Str (get (name meal) ""%string);
       Num (get (calories_kcal totals) 0);
       Num (get (protein_g macros) 0);
       Num (get (carbs_g macros) 0);
       Num (get (fat_g macros) 0);
       Num (get (fiber_g macros) 0);
       Num (get (sugar_g macros) 0);
       Num (get (sodium_mg micros) 0);
       Int (Z.of_nat (List.length composition))]].

Definition export_to_csv (can_open : bool) (meals : list Meal)
  (file_before : option (list row)) : Exported (list row) :=
  export_rows SUMMARY_HEADER summary_row can_open meals file_before.

(** The row of one food item in [export_detailed_csv]. *)
Definition detailed_row (date_str meal_type : string) (item : FoodItem) : row :=
  let nutrition := get (nutrition item) empty_Nutrients in
  let macros := get (macros nutrition) empty_Macros in
  let micros := get (micros nutrition) empty_Micros in
  let allergens := String.concat ", " (get (allergens nutrition) []) in
  [Str date_str;
   Str meal_type;
   Str (get (label item) ""%string);
   Str (format_f 1 (get (confidence item) 0 * 100) ++ "%")%string;
   Num (get (serving_est_g item) 0);
   Num (get (calories_kcal nutrition) 0);
   Num (get (protein_g macros) 0);
   Num (get (carbs_g macros) 0);
   Num (get (fat_g macros) 0);
   Num (get (fiber_g macros) 0);
   Num (get (sugar_g macros) 0);
   Num (get (sodium_mg micros) 0);
   Str allergens].

(** The rows of one meal in [export_detailed_csv]: one for each item of its
    composition. *)
Definition detailed_rows (meal : Meal) : result (list row) :=
  consumed <- consumed_at meal ;;
  let date_str := strftime_ymd consumed in
  let meal_type := get (mealType meal) ""%string in
  let analysis := get (analysisData meal) empty_AnalysisData in
  let composition := get (composition analysis) [] in
  Ok (map (detailed_row date_str meal_type) composition).

Definition export_detailed_csv (can_open : bool) (meals : list Meal)
  (file_before : option (list row)) : Exported (list row) :=
  export_rows DETAILED_HEADER detailed_rows can_open meals file_before.

(** The object [export_summary_json] dumps. *)
Record Summary : Type := mk_Summary {
  generated_at : string;
  total_meals : Z;
  date_range : option string * option string;
  meal_types : dict Z;
  nutrition_totals : Totals;
  daily_averages : option Totals
}.

(** The summary is built first, inside the [try]; the file is opened only
    when that went through.  [now_iso] is [datetime.now().isoformat()]. *)
Definition export_summary_json (now_iso : string) (can_open : bool)
  (meals : list Meal) (file_before : option Summary) : Exported Summary :=
  match
    (range <- _get_date_range meals ;;
     let types := _count_meal_types meals in
     totals <- _calculate_totals meals ;;
     averages <- _calculate_daily_averages meals ;;
     Ok (mk_Summary now_iso (Z.of_nat (List.length meals)) range types
           totals averages))
  with
  | Ok summary =>
      if can_open then mk_Exported (Some summary) true
      else mk_Exported file_before false
  | Raise _ => mk_Exported file_before false
  end.

(** One step of [main]'s loop over the options: a call of an export with
    its output file, or the report of an unknown option. *)
Inductive Step : Type :=
| ExportToCsv (output_file : string)
| ExportDetailedCsv (output_file : string)
| ExportSummaryJson (output_file : string)
| UnknownOption (option : string).

(** The loop [while i < len(sys.argv)] of [main]; [args] is [sys.argv[i:]].
    An option is taken with the argument after it when there is one
    ([i + 1 < len(sys.argv)]); anything else is reported and skipped. *)
Fixpoint parse_arguments (args : list string) : list Step :=
  match args with
  | [] => []
  | arg :: args' =>
      match args' with
      | value :: rest =>
          if String.eqb arg "--csv" then
            ExportToCsv value :: parse_arguments rest
          else if String.eqb arg "--detailed-csv" then
            ExportDetailedCsv value :: parse_arguments rest
          else if String.eqb arg "--summary-json" then
            ExportSummaryJson value :: parse_arguments rest
          else if String.eqb arg "--all" then
            ExportToCsv (value ++ "_summary.csv")
            :: ExportDetailedCsv (value ++ "_detailed.csv")
            :: ExportSummaryJson (value ++ "_summary.json")
            :: parse_arguments rest
          else UnknownOption arg :: parse_arguments args'
      | [] => UnknownOption arg :: parse_arguments args'
      end
  end.

(** How [main] ends: [sys.exit(1)] after the usage, after the message that
    the input file is missing or after the error of [load_data], or the
    steps made on the input file. *)
Inductive MainEnding : Type :=
| ExitUsage
| ExitNotFound (input_file : string)
| ExitLoadError (input_file : string)
| Ran (input_file : string) (steps : list Step).

(** [path_exists] is [Path(...).exists()], and [loads] tells whether
    [load_data] can open the file and read a JSON document from it. *)
Definition main (path_exists loads : string -> bool) (argv : list string)
  : MainEnding :=
  match argv with
  | _ :: input_file :: args =>
      if path_exists input_file then
        if loads input_file then Ran input_file (parse_arguments args)
        else ExitLoadError input_file
      else ExitNotFound input_file
  | _ => ExitUsage
  end.

End DataExport.

(** ** [scripts/meal_tracker.py] *)

Module MealTracker.

(** The tracker and its data file: [file] is the list the JSON file holds,
    [None] when there is no readable file. *)
Record MealTrackerCLI : Type := mk_CLI {
  file : option (list Meal);
  meals : list Meal
}.

(** [load_data]: a missing or unreadable file gives no meals. *)
Definition load_data (file : option (list Meal)) : MealTrackerCLI :=
  mk_CLI file (get file []).

(** [save_data]: the whole list is written; [written] tells whether the
    write went through (a failure is reported and the file left as it was). *)
Definition save_data (written : bool) (self : MealTrackerCLI) : MealTrackerCLI :=
  if written then mk_CLI (Some (meals self)) (meals self) else self.

(** The three readings of the clock that [add_meal] takes. *)
Record Clock : Type := mk_Clock {
  timestamp : string;
  consumed_iso : string;
  created_iso : string
}.

Definition new_meal (clock : Clock) (meal_type : string)
  (calories protein carbs fat : Q) (notes : string) : Meal :=
  mk_Meal
    (Some (timestamp clock))
    (Some meal_type)
    (Some (if String.eqb notes "" then (capitalize meal_type ++ " meal")%string
           else notes))
    (Some notes)
    (Some (consumed_iso clock))
    (Some (created_iso clock))
    (Some (mk_AnalysisData
       (Some (mk_Nutrients
          (Some calories)
          (Some (mk_Macros (Some protein) (Some carbs) (Some fat)
                   (Some 0) (Some 0)))
          (Some (mk_Micros (Some 0) (Some 0) (Some 0) (Some 0)
                   (Some 0) (Some 0) (Some 0)))
          (Some [])
          (Some 0)))
       (Some [])
       (Some (mk_ImageMeta (Some 0%Z) (Some 0%Z))))).

Definition add_meal (clock : Clock) (written : bool) (meal_type : string)
  (calories protein carbs fat : Q) (notes : string) (self : MealTrackerCLI)
  : MealTrackerCLI :=
  let meal := new_meal clock meal_type calories protein carbs fat notes in
  (* self.meals.insert(0, meal) *)
  save_data written (mk_CLI (file self) (meal :: meals self)).

Definition delete_last_meal (written : bool) (self : MealTrackerCLI)
  : MealTrackerCLI :=
  match meals self with
  | [] => self
  | deleted :: rest =>
      (* self.meals.pop(0) *)
      save_data written (mk_CLI (file self) rest)
  end.

(** One run of the command line: the tracker is built from the data file,
    the command runs, and the file is what is left. *)
Definition run_add (clock : Clock) (written : bool) (meal_type : string)
  (calories protein carbs fat : Q) (notes : string)
  (data_file : option (list Meal)) : option (list Meal) :=
  file (add_meal clock written meal_type calories protein carbs fat notes
          (load_data data_file)).

Definition run_delete_last (written : bool) (data_file : option (list Meal))
  : option (list Meal) :=
  file (delete_last_meal written (load_data data_file)).


(** What [get_daily_summary] prints: the date, the number of meals of the
    day and the four totals, rounded to 2 places. *)
Record DailySummary : Type := mk_DailySummary {
  summary_date : string;
  total_meals : Z;
  total_calories : Q;
  total_protein : Q;
  total_carbs : Q;
  total_fat : Q
}.

(** [day_start <= fromisoformat(...) < day_end]: the second comparison is
    made only when the first holds. *)
Definition in_day (day_start day_end : point) (meal : Meal) : result bool :=
  consumed <- consumed_at meal ;;
  after <- point_le_dt day_start consumed ;;
  if after then dt_lt_point consumed day_end else Ok false.

(** The four accumulators of the loop of [get_daily_summary]. *)
Record DaySums : Type := mk_DaySums {
  sum_calories : Q;
  sum_protein : Q;
  sum_carbs : Q;
  sum_fat : Q
}.

Definition day_sums_step (acc : DaySums) (meal : Meal) : DaySums :=
  let analysis := get (analysisData meal) empty_AnalysisData in
  let totals := get (totals analysis) empty_Nutrients in
  let macros := get (macros totals) empty_Macros in
  mk_DaySums
    (sum_calories acc + get (calories_kcal totals) 0)
    (sum_protein acc + get (protein_g macros) 0)
    (sum_carbs acc + get (carbs_g macros) 0)
    (sum_fat acc + get (fat_g macros) 0).

(** [date] is the day asked for, [datetime.now()] by default. *)
Definition get_daily_summary (date : datetime) (meals : list Meal)
  : result DailySummary :=
  let day_start := point_of (midnight date) in
  day_end <- plus_days day_start 1 ;;
  day_meals <- comprehension_if (in_day day_start day_end) meals ;;
  let sums := fold_left day_sums_step day_meals (mk_DaySums 0 0 0 0) in
  Ok (mk_DailySummary
        (strftime_ymd date)
        (Z.of_nat (List.length day_meals))
        (round2 (sum_calories sums))
        (round2 (sum_protein sums))
        (round2 (sum_carbs sums))
        (round2 (sum_fat sums))).

(** What [main] goes on to do once it has read the command line. *)
Inductive Command : Type :=
| PrintHelp
| PrintUsage
| AddMeal (meal_type : string) (calories protein carbs fat : Q)
    (notes : string)
| ListMeals (days : Z)
| Today
| DeleteLast
| InteractiveAdd
| UnknownCommand (command : string).

(** How the reading of the command line ends: with a command to run, with
    the [ValueError] of [float] or [int], or with the [IndexError] of
    [sys.argv[i]]. *)
Inductive Ending : Type :=
| Runs (c : Command)
| FailsValueError
| FailsIndexError.

(** [sys.argv[i]] *)
Definition argv_at (argv : list string) (i : nat) (k : string -> Ending)
  : Ending :=
  match nth_error argv i with
  | Some s => k s
  | None => FailsIndexError
  end.

(** [float(s)] and [int(s)]: [None] stands for [ValueError]. *)
Definition parsed {A : Type} (r : option A) (k : A -> Ending) : Ending :=
  match r with
  | Some a => k a
  | None => FailsValueError
  end.

(** [main], up to the call it makes on the tracker.  [lower], [float] and
    [int] are Python's [str.lower], [float] and [int]. *)
Definition main (lower : string -> string) (float : string -> option Q)
  (int : string -> option Z) (argv : list string) : Ending :=
  if (List.length argv <? 2)%nat then Runs PrintHelp else
  argv_at argv 1 (fun command =>
  let command := lower command in
  if String.eqb command "add" then
    if (List.length argv <? 6)%nat then Runs PrintUsage else
    argv_at argv 2 (fun meal_type =>
    argv_at argv 3 (fun a3 => parsed (float a3) (fun calories =>
    argv_at argv 4 (fun a4 => parsed (float a4) (fun protein =>
    argv_at argv 5 (fun a5 => parsed (float a5) (fun carbs =>
    argv_at argv 6 (fun a6 => parsed (float a6) (fun fat =>
    let notes :=
      if (7 <? List.length argv)%nat then String.concat " " (skipn 7 argv)
      else ""%string in
    Runs (AddMeal meal_type calories protein carbs fat notes))))))))))
  else if String.eqb command "list" then
    if (2 <? List.length argv)%nat
    then argv_at argv 2 (fun a2 => parsed (int a2) (fun days =>
         Runs (ListMeals days)))
    else Runs (ListMeals 7)
  else if String.eqb command "today" then Runs Today
  else if String.eqb command "delete-last" then Runs DeleteLast
  else if String.eqb command "interactive" then Runs InteractiveAdd
  else if String.eqb command "help" then Runs PrintHelp
  else Runs (UnknownCommand command)).

(** How [interactive_add] ends: it returns, leaving the tracker [self], or
    an [input()] finds the input closed and raises [EOFError], which nothing
    catches. *)
Inductive Interaction : Type :=
| Returned (self : MealTrackerCLI)
| EndOfInput.

(** [input(...)]: the next answer. *)
Definition input (answers : list string)
  (k : string -> list string -> Interaction) : Interaction :=
  match answers with
  | [] => EndOfInput
  | answer :: answers' => k answer answers'
  end.

(** [float(...)] inside [try: ... except ValueError:], which prints a
    message and lets the function return. *)
Definition float_or_give_up (self : MealTrackerCLI) (r : option Q)
  (k : Q -> Interaction) : Interaction :=
  match r with
  | Some x => k x
  | None => Returned self
  end.

(** [answer or "0"] *)
Definition or_zero (answer : string) : string :=
  if String.eqb answer "" then "0"%string else answer.

Definition MEAL_TYPES : list string :=
  ["breakfast"; "lunch"; "dinner"; "snack"]%string.

(** [interactive_add]; [strip], [lower] and [float] are Python's
    [str.strip], [str.lower] and [float], [None] standing for the
    [ValueError] of the last. *)
Definition interactive_add (strip lower : string -> string)
  (float : string -> option Q) (clock : Clock) (written : bool)
  (answers : list string) (self : MealTrackerCLI) : Interaction :=
  input answers (fun answer answers =>
  let meal_type := lower (strip answer) in
  let meal_type :=
    if existsb (String.eqb meal_type) MEAL_TYPES then meal_type
    else "snack"%string in
  input answers (fun answer answers =>
  float_or_give_up self (float answer) (fun calories =>
  input answers (fun answer answers =>
  float_or_give_up self (float (or_zero answer)) (fun protein =>
  input answers (fun answer answers =>
  float_or_give_up self (float (or_zero answer)) (fun carbs =>
  input answers (fun answer answers =>
  float_or_give_up self (float (or_zero answer)) (fun fat =>
  input answers (fun answer answers =>
  let notes := strip answer in
  Returned
    (add_meal clock written meal_type calories protein carbs fat notes
       self))))))))))).

End MealTracker.

(** ** [scripts/image_preprocessor.py] *)

Module ImagePreprocessor.

(** What the option loop of [main] leaves: the settings of the preprocessor
    and the arguments that are not options. *)
Record Options : Type := mk_Options {
  max_size : Z * Z;
  quality : Z;
  filtered_args : list string
}.

(** [w, h = map(int, value.split('x'))]: exactly two pieces, both read by
    [int]; anything else raises. *)
Definition width_height (int : string -> option Z) (value : string)
  : option (Z * Z) :=
  match map int (split "x" value) with
  | [Some w; Some h] => Some (w, h)
  | _ => None
  end.

(** The loop [while i < len(args)] of [main]; [args] is what is left to
    read.  [None] is [sys.exit(1)], after a value that cannot be read. *)
Fixpoint parse_options (int : string -> option Z) (args : list string)
  (max_size : Z * Z) (quality : Z) (filtered_args : list string)
  : option Options :=
  match args with
  | [] => Some (mk_Options max_size quality filtered_args)
  | arg :: args' =>
      match args' with
      | value :: rest =>
          if String.eqb arg "--max-size" then
            match width_height int value with
            | Some max_size => parse_options int rest max_size quality filtered_args
            | None => None
            end
          else if String.eqb arg "--quality" then
            match int value with
            | Some quality => parse_options int rest max_size quality filtered_args
            | None => None
            end
          else parse_options int args' max_size quality (filtered_args ++ [arg])
      | [] => parse_options int args' max_size quality (filtered_args ++ [arg])
      end
  end.

(** The defaults and the loop. *)
Definition options (int : string -> option Z) (args : list string)
  : option Options :=
  parse_options int args (1920, 1920)%Z 85%Z [].

(** What [main] goes on to do with the command line. *)
Inductive Job : Type :=
| PrintHelp
| Exit1
| Usage (command : string)
| Process (input_file output_file : string) (max_size : Z * Z) (quality : Z)
| Base64 (input_file output_file : string) (max_size : Z * Z) (quality : Z)
| BatchProcess (input_dir output_dir : string) (max_size : Z * Z)
| UnknownCommand (command : string).

(** [filtered_args[1] if len(filtered_args) > 1 else f"{stem}<suffix>"] *)
Definition output_name (rest : list string) (stem suffix : string) : string :=
  match rest with
  | output_file :: _ => output_file
  | [] => (stem ++ suffix)%string
  end.

(** [main], up to the job it starts.  [lower] and [int] are Python's
    [str.lower] and [int], [stem] is [Path(...).stem].  [Exit1] is the
    [sys.exit(1)] of the option loop; [batch_process] is given the sizes
    only and builds its preprocessor with the default quality. *)
Definition main (lower : string -> string) (int : string -> option Z)
  (stem : string -> string) (argv : list string) : Job :=
  match argv with
  | _ :: command :: args =>
      let command := lower command in
      if String.eqb command "help" then PrintHelp else
      match options int args with
      | None => Exit1
      | Some o =>
          if String.eqb command "process" then
            match filtered_args o with
            | [] => Usage command
            | input_file :: rest =>
                Process input_file
                  (output_name rest (stem input_file) "_processed.jpg")
                  (max_size o) (quality o)
            end
          else if String.eqb command "base64" then
            match filtered_args o with
            | [] => Usage command
            | input_file :: rest =>
                Base64 input_file
                  (output_name rest (stem input_file) "_base64.txt")
                  (max_size o) (quality o)
            end
          else if String.eqb command "batch" then
            match filtered_args o with
            | input_dir :: output_dir :: _ =>
                BatchProcess input_dir output_dir (max_size o)
            | _ => Usage command
            end
          else UnknownCommand command
      end
  | _ => PrintHelp
  end.

End ImagePreprocessor.

(** * Vocabulary of the statements *)

Unset Implicit Arguments.

(** [sum(xs)]: Python adds from the left, starting at 0. *)
Definition Qsum (xs : list Q) : Q := fold_left Qplus xs 0.

Definition Zsum (xs : list Z) : Z := fold_left Z.add xs 0%Z.

(** The [consumedAt] of the meal is a timestamp [fromisoformat] accepts. *)
Definition timestamp_parses (meal : Meal) : Prop :=
  exists dt, consumed_at meal = Ok dt.

(** What a meal contributes to the calorie sums. *)
Definition meal_calories (meal : Meal) : Q :=
  get (calories_kcal
         (get (totals (get (analysisData meal) empty_AnalysisData))
            empty_Nutrients)) 0.

(** [sum(d['calories'] for d in daily.values())] and the same for the
    counts. *)
Definition sum_day_calories (daily : dict NutritionReport.DayData) : Q :=
  Qsum (map (fun kv => NutritionReport.calories (snd kv)) daily).

Definition sum_day_counts (daily : dict NutritionReport.DayData) : Z :=
  Zsum (map (fun kv => NutritionReport.count (snd kv)) daily).

(** The meal's timestamp is naive and strictly after [cutoff]. *)
Definition strictly_after (cutoff : Z) (meal : Meal) : bool :=
  match consumed_at meal with
  | Ok dt => (cutoff <? wall_micros dt)%Z
  | Raise _ => false
  end.

Definition timestamp_naive (meal : Meal) : Prop :=
  exists dt, consumed_at meal = Ok dt /\ tzinfo dt = None.

(** A record that holds a timestamp and nothing else. *)
Definition meal_at (stamp : string) : Meal :=
  mk_Meal None None None None (Some stamp) None None.

(** The reading of the clock at 2024-01-10T00:00:00. *)
Definition clock_2024_01_10 : Z := wall_micros (mk_datetime 2024 1 10 0 0 0 0 None).

(** The gauge as the specification words it: [round(percentage/100 * width)]
    filled characters, then unfilled ones up to [width]. *)
Definition spec_renderBar (percentage : Q) (width : Z) : list Z :=
  let filled := round ((percentage / 100) * inject_Z width) in
  repeat_char NutritionReport.FULL_BLOCK filled
  ++ repeat_char NutritionReport.LIGHT_SHADE (width - filled).

(** The number of filled characters of a gauge. *)
Definition filled_glyphs (bar : list Z) : nat :=
  count_occ Z.eq_dec bar NutritionReport.FULL_BLOCK.

(** The recommendations as the specification words them: a table of
    threshold rules, read in order, each giving at most one advisory. *)
Module SpecRecommendations.

Import NutritionReport.

(** A rule looks at the weekly totals and the number of meals. *)
Definition rule : Type := ReportTotals -> nat -> option string.

(** Average daily calories: the week's calories over 7. *)
Definition calorie_rule : rule := fun totals _ =>
  let avg := t_calories totals / 7 in
  if Qltb avg 1500 then Some LOW_CALORIES
  else if Qltb 2500 avg then Some HIGH_CALORIES
  else None.

(** Average daily protein. *)
Definition protein_rule : rule := fun totals _ =>
  let avg := t_protein totals / 7 in
  if Qltb avg 50 then Some LOW_PROTEIN
  else if Qltb 150 avg then Some HIGH_PROTEIN
  else None.

(** Average meals per day. *)
Definition meal_frequency_rule : rule := fun _ n =>
  if Qltb (inject_Z (Z.of_nat n) / 7) 2 then Some FEW_MEALS else None.

(** The share of a macro in the macro grams, in percent; there is a share
    only when there are macro grams at all. *)
Definition share (part : Q) (totals : ReportTotals) : option Q :=
  let total_macros := t_protein totals + t_carbs totals + t_fat totals in
  if Qltb 0 total_macros then Some (part / total_macros * 100) else None.

Definition protein_share_rule : rule := fun totals _ =>
  match share (t_protein totals) totals with
  | Some pct => if Qltb pct 15 then Some PROTEIN_SHARE else None
  | None => None
  end.

Definition carbs_share_rule : rule := fun totals _ =>
  match share (t_carbs totals) totals with
  | Some pct => if Qltb 60 pct then Some CARBS_SHARE else None
  | None => None
  end.

Definition rules : list rule :=
  [calorie_rule; protein_rule; meal_frequency_rule;
   protein_share_rule; carbs_share_rule].

(** The advisories of the rules that fire, in the order of the rules. *)
Definition fired (totals : ReportTotals) (n : nat) : list string :=
  flat_map (fun r : rule =>
              match r totals n with Some s => [s] | None => [] end) rules.

Definition recommendations (totals : ReportTotals) (n : nat) : list string :=
  match fired totals n with
  | [] => [BALANCED]
  | advisories => advisories
  end.

End SpecRecommendations.

(** The sum of the three macro gram totals. *)
Definition total_grams (s : NutritionAnalyzer.MacroSums) : Q :=
  NutritionAnalyzer.total_protein s + NutritionAnalyzer.total_carbs s
  + NutritionAnalyzer.total_fat s.

(** The data model: the macro grams of a meal are not negative. *)
Definition macros_nonneg (meal : Meal) : Prop :=
  let m := get (macros (get (totals (get (analysisData meal) empty_AnalysisData))
                          empty_Nutrients)) empty_Macros in
  0 <= get (protein_g m) 0 /\ 0 <= get (carbs_g m) 0 /\ 0 <= get (fat_g m) 0.

(** A meal that holds the four totals and nothing else. *)
Definition meal_of (calories protein carbs fat : Q) : Meal :=
  mk_Meal None None None None None None
    (Some (mk_AnalysisData
       (Some (mk_Nutrients (Some calories)
          (Some (mk_Macros (Some protein) (Some carbs) (Some fat) None None))
          None None None))
       None None)).

(** A list in descending order of [key], and the test "has key [c]". *)
Definition descending {A : Type} (key : A -> Z) : list A -> Prop :=
  StronglySorted (fun a b => (key b <= key a)%Z).

Definition with_key {A : Type} (key : A -> Z) (c : Z) (x : A) : bool :=
  (key x =? c)%Z.

(** The composition entries of all the meals, in the order the loops of the
    top-foods functions visit them. *)
Definition all_items (meals : list Meal) : list FoodItem :=
  flat_map (fun meal =>
              get (composition (get (analysisData meal) empty_AnalysisData)) [])
           meals.

Definition item_label (item : FoodItem) : string :=
  get (label item) "unknown"%string.

Definition item_calories (item : FoodItem) : Q :=
  get (calories_kcal (get (nutrition item) empty_Nutrients)) 0.

Definition item_protein (item : FoodItem) : Q :=
  get (protein_g (get (macros (get (nutrition item) empty_Nutrients))
                    empty_Macros)) 0.

Definition labelled (l : string) (item : FoodItem) : bool :=
  String.eqb (item_label item) l.

(** How often a label occurs among the items, and the calories and the
    protein of the items that bear it. *)
Definition occurrences (items : list FoodItem) (l : string) : Z :=
  Z.of_nat (List.length (filter (labelled l) items)).

Definition calories_of (items : list FoodItem) (l : string) : Q :=
  Qsum (map item_calories (filter (labelled l) items)).

Definition protein_of (items : list FoodItem) (l : string) : Q :=
  Qsum (map item_protein (filter (labelled l) items)).

(** The labels in the order of their first occurrence. *)
Fixpoint first_seen (ls : list string) : list string :=
  match ls with
  | [] => []
  | l :: ls' => l :: filter (fun x => negb (String.eqb x l)) (first_seen ls')
  end.

(** The loop invariant of the food counters: [d] holds one entry for each
    label among the items [seen] so far, with its number of occurrences and
    its sums. *)
Definition aggregates (d : dict NutritionAnalyzer.FoodCount)
  (seen : list FoodItem) : Prop :=
  NoDup (map fst d) /\
  (forall item, In item seen -> In (item_label item) (map fst d)) /\
  (forall l fc, In (l, fc) d ->
     NutritionAnalyzer.count fc = occurrences seen l /\
     (1 <= NutritionAnalyzer.count fc)%Z /\
     NutritionAnalyzer.total_calories_of fc == calories_of seen l /\
     NutritionAnalyzer.total_protein_of fc == protein_of seen l).

(** [sum(d['count'] for d in food_count.values())] *)
Definition sum_food_counts (d : list (string * NutritionAnalyzer.FoodCount)) : Z :=
  Zsum (map (fun kv => NutritionAnalyzer.count (snd kv)) d).

(** The labels the analyzer ranks, best first. *)
Definition ranking (meals : list Meal) : list string :=
  map fst (NutritionAnalyzer.sorted_foods meals).

(** The entry [get_top_foods] builds from a counter. *)
Definition entry_of (kv : string * NutritionAnalyzer.FoodCount)
  : NutritionAnalyzer.TopFood :=
  NutritionAnalyzer.mk_TopFood (fst kv)
    (NutritionAnalyzer.count (snd kv))
    (round2 (NutritionAnalyzer.total_calories_of (snd kv)
             / inject_Z (NutritionAnalyzer.count (snd kv))))
    (round2 (NutritionAnalyzer.total_protein_of (snd kv)
             / inject_Z (NutritionAnalyzer.count (snd kv)))).

(** An entry holds what the items say of its label: the number of
    occurrences, and the averages rounded to 2 places. *)
Definition entry_correct (items : list FoodItem)
  (e : NutritionAnalyzer.TopFood) : Prop :=
  let l := NutritionAnalyzer.food e in
  NutritionAnalyzer.tf_count e = occurrences items l /\
  (1 <= NutritionAnalyzer.tf_count e)%Z /\
  NutritionAnalyzer.avg_calories e
  = round2 (calories_of items l / inject_Z (occurrences items l)) /\
  NutritionAnalyzer.avg_protein e
  = round2 (protein_of items l / inject_Z (occurrences items l)).

(** A food item with a label and calories, and a meal made of such items. *)
Definition food_item (l : string) (kcal : Q) : FoodItem :=
  mk_FoodItem (Some l) None None
    (Some (mk_Nutrients (Some kcal) None None None None)).

Definition meal_with (items : list FoodItem) : Meal :=
  mk_Meal None None None None None None
    (Some (mk_AnalysisData None (Some items) None)).

(** The same record with the leaves the aggregation reads written out:
    an absent number as 0, an absent object as an object of zeros, an absent
    composition as the empty list. *)
Definition explicit_macros (m : option Macros) : Macros :=
  let m := get m empty_Macros in
  mk_Macros (Some (get (protein_g m) 0)) (Some (get (carbs_g m) 0))
    (Some (get (fat_g m) 0)) (Some (get (fiber_g m) 0))
    (Some (get (sugar_g m) 0)).

Definition explicit_nutrients (n : option Nutrients) : Nutrients :=
  let n := get n empty_Nutrients in
  mk_Nutrients (Some (get (calories_kcal n) 0))
    (Some (explicit_macros (macros n)))
    (micros n) (allergens n) (serving_total_g n).

Definition explicit_item (item : FoodItem) : FoodItem :=
  mk_FoodItem (label item) (confidence item) (serving_est_g item)
    (Some (explicit_nutrients (nutrition item))).

Definition explicit_analysis (a : option AnalysisData) : AnalysisData :=
  let a := get a empty_AnalysisData in
  mk_AnalysisData (Some (explicit_nutrients (totals a)))
    (Some (map explicit_item (get (composition a) [])))
    (image_meta a).

Definition explicit_defaults (meal : Meal) : Meal :=
  mk_Meal (id meal) (mealType meal) (name meal) (notes meal)
    (consumedAt meal) (createdAt meal)
    (Some (explicit_analysis (analysisData meal))).

(** No leaf that the aggregation reads is absent. *)
Definition present {A : Type} (field : option A) : Prop := field <> None.

Definition nutrients_explicit (n : option Nutrients) : Prop :=
  exists v m,
    n = Some v /\ present (calories_kcal v) /\ macros v = Some m /\
    present (protein_g m) /\ present (carbs_g m) /\ present (fat_g m) /\
    present (fiber_g m) /\ present (sugar_g m).

Definition fully_explicit (meal : Meal) : Prop :=
  exists a items,
    analysisData meal = Some a /\ nutrients_explicit (totals a) /\
    composition a = Some items /\
    Forall (fun item => nutrients_explicit (nutrition item)) items.

(** What a meal contributes to the sum of a macro. *)
Definition meal_macro (field : Macros -> option Q) (meal : Meal) : Q :=
  get (field
         (get (macros
                 (get (totals (get (analysisData meal) empty_AnalysisData))
                    empty_Nutrients)) empty_Macros)) 0.

(** The calendar date of a meal is [d]. *)
Definition eaten_on (d : Z * Z * Z) (meal : Meal) : Prop :=
  exists dt, consumed_at meal = Ok dt /\ date dt = d.

(** The average as the specification words it: the full-precision sum over
    the number of days, rounded once, for display. *)
Definition spec_daily_average (sum : Q) (days : Z) : Q :=
  round2 (sum / inject_Z days).

(** The average as [_calculate_daily_averages] computes it: the sum is
    rounded by [_calculate_totals] before the division. *)
Definition twice_rounded (sum : Q) (days : Z) : Q :=
  round2 (round2 sum / inject_Z days).

(** A meal with a timestamp and calories, and nothing else. *)
Definition meal_on (stamp : string) (kcal : Q) : Meal :=
  mk_Meal None None None None (Some stamp) None
    (Some (mk_AnalysisData
       (Some (mk_Nutrients (Some kcal) None None None None)) None None)).

(** The counters of the report are those of the analyzer without the
    protein sum. *)
Definition report_counter (kv : string * NutritionAnalyzer.FoodCount)
  : string * NutritionReport.FoodCount :=
  (fst kv,
   NutritionReport.mk_FoodCount (NutritionAnalyzer.count (snd kv))
     (NutritionAnalyzer.total_calories_of (snd kv))).

(** An entry of the report's top foods holds the number of occurrences of
    its label and the average of its calories, not rounded. *)
Definition report_entry_correct (items : list FoodItem)
  (e : NutritionReport.TopFood) : Prop :=
  let l := NutritionReport.food e in
  NutritionReport.tf_count e = occurrences items l /\
  NutritionReport.avg_calories e
  == calories_of items l / inject_Z (occurrences items l).

(** ** Grouping by a key *)

(** The item has the key [l]. *)
Definition keyed {A : Type} (key : A -> string) (l : string) (x : A) : bool :=
  String.eqb (key x) l.

(** What a group holds after the items [xs]: the updates of the items of
    key [l], applied in order to the default. *)
Definition group_value {A V : Type} (key : A -> string) (upd : A -> V -> V)
  (dflt : V) (xs : list A) (l : string) : V :=
  fold_left (fun v x => upd x v) (filter (keyed key l) xs) dflt.

(** The loop invariant of a dictionary of groups: one entry for each key
    among the items [seen] so far, holding the value of its group. *)
Definition grouped {A V : Type} (key : A -> string) (upd : A -> V -> V)
  (dflt : V) (d : dict V) (seen : list A) : Prop :=
  NoDup (map fst d) /\
  (forall x, In x seen -> In (key x) (map fst d)) /\
  (forall l v, In (l, v) d ->
     v = group_value key upd dflt seen l /\ filter (keyed key l) seen <> []).

(** The meal type the counters file a meal under. *)
Definition meal_type_of (meal : Meal) : string :=
  get (mealType meal) "unknown"%string.

(** The date string [_group_by_day] files a meal under. *)
Definition day_of (meal : Meal) : string :=
  match consumed_at meal with
  | Ok dt => strftime_ymd dt
  | Raise _ => ""%string
  end.

(** What [_group_by_day] adds to the entry of a meal's day. *)
Definition day_update (meal : Meal) (d : NutritionReport.DayData)
  : NutritionReport.DayData :=
  NutritionReport.mk_DayData
    (NutritionReport.count d + 1)
    (NutritionReport.calories d + meal_calories meal)
    (NutritionReport.protein d + meal_macro protein_g meal)
    (NutritionReport.carbs d + meal_macro carbs_g meal)
    (NutritionReport.fat d + meal_macro fat_g meal).

(** [a] and [b] differ by at most [eps]. *)
Definition within (eps a b : Q) : Prop := b - eps <= a /\ a <= b + eps.

(** ** Sequences of tracker commands *)

(** The arguments of one call of [add_meal], with the readings of the clock
    and the fate of the write. *)
Record Addition : Type := mk_Addition {
  add_clock : MealTracker.Clock;
  add_written : bool;
  add_type : string;
  add_calories : Q;
  add_protein : Q;
  add_carbs : Q;
  add_fat : Q;
  add_notes : string
}.

Definition added_meal (a : Addition) : Meal :=
  MealTracker.new_meal (add_clock a) (add_type a) (add_calories a)
    (add_protein a) (add_carbs a) (add_fat a) (add_notes a).

(** The calls of [add_meal] of the list, one after the other. *)
Definition add_all (adds : list Addition) (self : MealTracker.MealTrackerCLI)
  : MealTracker.MealTrackerCLI :=
  fold_left
    (fun t a =>
       MealTracker.add_meal (add_clock a) (add_written a) (add_type a)
         (add_calories a) (add_protein a) (add_carbs a) (add_fat a)
         (add_notes a) t)
    adds self.

(** As many calls of [delete_last_meal] as the list is long. *)
Definition delete_times (writes : list bool) (self : MealTracker.MealTrackerCLI)
  : MealTracker.MealTrackerCLI :=
  fold_left (fun t w => MealTracker.delete_last_meal w t) writes self.

(** ** Timestamps *)

Definition aware (dt : datetime) : bool :=
  match tzinfo dt with Some _ => true | None => false end.

Definition timestamp_aware (meal : Meal) : Prop :=
  exists dt, consumed_at meal = Ok dt /\ aware dt = true.

(** The meal's timestamp parses to [dt]. *)
Definition stamped (meal : Meal) (dt : datetime) : Prop :=
  consumed_at meal = Ok dt.

(** ** Exports *)

(** The list is empty, or starts with a meal whose timestamp does not
    parse. *)
Definition stops_at_bad_stamp (rest : list Meal) : Prop :=
  match rest with
  | [] => True
  | bad :: _ => ~ timestamp_parses bad
  end.

Definition is_nil {A : Type} (xs : list A) : bool :=
  match xs with [] => true | _ => false end.

(** The rows of the detailed CSV that one meal gives. *)
Definition detailed_rows_of (meal : Meal) : list DataExport.row :=
  map (DataExport.detailed_row (day_of meal) (get (mealType meal) ""%string))
    (all_items [meal]).

(** ** Calendar dates *)

(** The fields pass the checks of the [datetime] constructor, as those of
    every [datetime] object do. *)
Definition valid (dt : datetime) : Prop :=
  check_fields (year dt) (month dt) (day dt) (hour dt) (minute dt)
    (second dt) (microsecond dt) = true.

(** The meal's timestamp is naive and has the calendar date of [date]. *)
Definition on_date_of (date : datetime) (meal : Meal) : bool :=
  match consumed_at meal with
  | Ok dt =>
      match tzinfo dt with
      | None =>
          ((year dt =? year date) && (month dt =? month date)
           && (day dt =? day date))%Z
      | Some _ => false
      end
  | Raise _ => false
  end.

(** ** Command lines *)

(** A reader of unsigned decimal numbers: what [int] and [float] return on
    strings of digits. *)
Definition decimal (s : string) : option Z :=
  match int_of (list_ascii_of_string s) with
  | Ok n => Some n
  | Raise _ => None
  end.

Definition decimal_float (s : string) : option Q :=
  option_map inject_Z (decimal s).

(** The argument is read by the conversion. *)
Definition reads {A : Type} (conv : string -> option A) (s : string) : Prop :=
  exists x, conv s = Some x.

(** What is asked of the export script: one of its four options with a
    value, or an argument that is none of the options. *)
Inductive Request : Type :=
| WantCsv (output_file : string)
| WantDetailedCsv (output_file : string)
| WantSummaryJson (output_file : string)
| WantAll (prefix : string)
| Stray (argument : string).

Definition is_export_option (s : string) : bool :=
  existsb (String.eqb s) ["--csv"; "--detailed-csv"; "--summary-json"; "--all"]%string.

Definition arguments_of (r : Request) : list string :=
  match r with
  | WantCsv f => ["--csv"; f]
  | WantDetailedCsv f => ["--detailed-csv"; f]
  | WantSummaryJson f => ["--summary-json"; f]
  | WantAll p => ["--all"; p]
  | Stray s => [s]
  end%string.

Definition steps_of (r : Request) : list DataExport.Step :=
  match r with
  | WantCsv f => [DataExport.ExportToCsv f]
  | WantDetailedCsv f => [DataExport.ExportDetailedCsv f]
  | WantSummaryJson f => [DataExport.ExportSummaryJson f]
  | WantAll p =>
      [DataExport.ExportToCsv (p ++ "_summary.csv");
       DataExport.ExportDetailedCsv (p ++ "_detailed.csv");
       DataExport.ExportSummaryJson (p ++ "_summary.json")]
  | Stray s => [DataExport.UnknownOption s]
  end%string.

Definition stray_is_no_option (r : Request) : Prop :=
  match r with
  | Stray s => is_export_option s = false
  | _ => True
  end.

(** The character does not occur in the string. *)
Fixpoint free_of (c : ascii) (s : string) : bool :=
  match s with
  | EmptyString => true
  | String c' s' => negb (Ascii.eqb c' c) && free_of c s'
  end.

(** What is written on the command line of the image script after the
    command: an argument, or one of the two options with its value. *)
Inductive Token : Type :=
| Positional (argument : string)
| SetMaxSize (width height : string)
| SetQuality (value : string).

Definition words_of (t : Token) : list string :=
  match t with
  | Positional s => [s]
  | SetMaxSize w h => ["--max-size"; w ++ "x" ++ h]
  | SetQuality q => ["--quality"; q]
  end%string.

(** The values of the options can be read, and an argument is not the name
    of an option. *)
Definition readable (int : string -> option Z) (t : Token) : Prop :=
  match t with
  | Positional s =>
      String.eqb s "--max-size" = false /\ String.eqb s "--quality" = false
  | SetMaxSize w h =>
      free_of "x" w = true /\ free_of "x" h = true /\
      reads int w /\ reads int h
  | SetQuality q => reads int q
  end.

Definition positionals (tokens : list Token) : list string :=
  flat_map (fun t => match t with Positional s => [s] | _ => [] end) tokens.

(** The value of the last [--quality] of the tokens, [dflt] without one. *)
Definition last_quality (int : string -> option Z) (tokens : list Token)
  (dflt : Z) : Z :=
  fold_left
    (fun q t => match t with SetQuality s => get (int s) q | _ => q end)
    tokens dflt.

(** The sizes of the last [--max-size] of the tokens, [dflt] without one. *)
Definition last_max_size (int : string -> option Z) (tokens : list Token)
  (dflt : Z * Z) : Z * Z :=
  fold_left
    (fun wh t =>
       match t with
       | SetMaxSize w h => (get (int w) (fst wh), get (int h) (snd wh))
       | _ => wh
       end)
    tokens dflt.

(** ** The weekly report *)

(** The five lines every report starts with. *)
Definition header_lines (generated : datetime) : list NutritionReport.line :=
  [NutritionReport.Rule "="; NutritionReport.Title; NutritionReport.Rule "=";
   NutritionReport.Generated (strftime_ymd generated) (strftime_hms generated);
   NutritionReport.Blank].

(** The section titles of a report, in order. *)
Definition headings (lines : list NutritionReport.line) : list string :=
  flat_map (fun l => match l with NutritionReport.Heading t => [t] | _ => [] end)
    lines.

(** The numbers of the [Total Meals] lines. *)
Definition total_meals_of (lines : list NutritionReport.line) : list Z :=
  flat_map (fun l => match l with NutritionReport.TotalMeals n => [n] | _ => [] end)
    lines.

(** The rows of the daily breakdown. *)
Definition day_rows (lines : list NutritionReport.line)
  : list (string * NutritionReport.DayData) :=
  flat_map
    (fun l => match l with NutritionReport.DayRow d data => [(d, data)] | _ => [] end)
    lines.

(** The lines of the weekly totals: the nutrient and the number. *)
Definition totals_of (lines : list NutritionReport.line) : list (string * Q) :=
  flat_map
    (fun l => match l with NutritionReport.TotalOf s x => [(s, x)] | _ => [] end)
    lines.

(** The rows of the meal type distribution: label, count, percentage. *)
Definition meal_type_rows (lines : list NutritionReport.line)
  : list (string * Z * Q) :=
  flat_map
    (fun l =>
       match l with
       | NutritionReport.MealTypeRow t k pct => [(t, k, pct)]
       | _ => []
       end)
    lines.

(** The rows of the top foods, with their numbers. *)
Definition top_food_rows (lines : list NutritionReport.line)
  : list (Z * NutritionReport.TopFood) :=
  flat_map
    (fun l => match l with NutritionReport.TopFoodRow i f => [(i, f)] | _ => [] end)
    lines.

(** The recommendations of a report. *)
Definition bullets (lines : list NutritionReport.line) : list string :=
  flat_map (fun l => match l with NutritionReport.Bullet r => [r] | _ => [] end)
    lines.

(** The meals of the list filed under the date string [d], and those of
    the meal type [t]. *)
Definition meals_of_day (meals : list Meal) (d : string) : list Meal :=
  filter (keyed day_of d) meals.

Definition meals_of_type (meals : list Meal) (t : string) : list Meal :=
  filter (keyed meal_type_of t) meals.

(** [a] comes before [b] in the order of Python's strings. *)
Definition string_lt (a b : string) : Prop := String.ltb a b = true.

(** The macronutrient grams of the meals: protein, carbohydrates and fat. *)
Definition macro_grams (meals : list Meal) : Q :=
  Qsum (map (meal_macro protein_g) meals)
  + Qsum (map (meal_macro carbs_g) meals)
  + Qsum (map (meal_macro fat_g) meals).

(** A meal with a timestamp, a meal type and a composition. *)
Definition meal_served (stamp meal_type : string) (items : list FoodItem)
  : Meal :=
  mk_Meal None (Some meal_type) None None (Some stamp) None
    (Some (mk_AnalysisData None (Some items) None)).

(** ** The summary of the analyzer *)

(** The rows of the meal type frequency: label and count. *)
Definition frequency_rows (out : list NutritionAnalyzer.printed)
  : list (string * Z) :=
  flat_map
    (fun l => match l with NutritionAnalyzer.FrequencyRow t k => [(t, k)] | _ => [] end)
    out.

(** The lines of the daily averages. *)
Definition average_lines (out : list NutritionAnalyzer.printed)
  : list (string * Q) :=
  flat_map
    (fun l => match l with NutritionAnalyzer.AverageLine s x => [(s, x)] | _ => [] end)
    out.

(** The rows of the top foods. *)
Definition food_rows (out : list NutritionAnalyzer.printed)
  : list (Z * NutritionAnalyzer.TopFood) :=
  flat_map
    (fun l => match l with NutritionAnalyzer.FoodRow i f => [(i, f)] | _ => [] end)
    out.

(** The section titles printed. *)
Definition parts (out : list NutritionAnalyzer.printed) : list string :=
  flat_map
    (fun l => match l with NutritionAnalyzer.Part t => [t] | _ => [] end)
    out.

(** * Verification *)

(** ** Arithmetic on the rationals *)

Lemma Qltb_lt (a b : Q) : Qltb a b = true <-> a < b.
Proof.
  unfold Qltb. rewrite negb_true_iff. split; intro H.
  - apply Qnot_le_lt. intro Hle. apply Qle_bool_iff in Hle. congruence.
  - destruct (Qle_bool b a) eqn:E; [|reflexivity].
    apply Qle_bool_iff in E. exfalso. exact (Qlt_not_le _ _ H E).
Qed.

Lemma Qltb_ge (a b : Q) : Qltb a b = false <-> b <= a.
Proof.
  unfold Qltb. rewrite negb_false_iff. apply Qle_bool_iff.
Qed.

Lemma Qplus_nonneg (a b : Q) : 0 <= a -> 0 <= b -> 0 <= a + b.
Proof.
  intros Ha Hb. exact (Qplus_le_compat 0 a 0 b Ha Hb).
Qed.

Lemma fold_left_Qplus (xs : list Q) (a : Q) :
  fold_left Qplus xs a == a + Qsum xs.
Proof.
  unfold Qsum. revert a. induction xs as [|x xs IH]; intro a; simpl.
  - ring.
  - rewrite (IH (a + x)), (IH (0 + x)). ring.
Qed.

Lemma Qsum_cons (x : Q) (xs : list Q) : Qsum (x :: xs) == x + Qsum xs.
Proof.
  unfold Qsum at 1. simpl. rewrite fold_left_Qplus. ring.
Qed.

Lemma Qsum_app (xs ys : list Q) : Qsum (xs ++ ys) == Qsum xs + Qsum ys.
Proof.
  induction xs as [|x xs IH]; simpl.
  - unfold Qsum at 2. simpl. ring.
  - rewrite !Qsum_cons, IH. ring.
Qed.

Lemma fold_left_Zadd (xs : list Z) (a : Z) :
  fold_left Z.add xs a = (a + Zsum xs)%Z.
Proof.
  unfold Zsum. revert a. induction xs as [|x xs IH]; intro a; simpl.
  - lia.
  - rewrite (IH (a + x)%Z), (IH x). lia.
Qed.

Lemma Zsum_cons (x : Z) (xs : list Z) : Zsum (x :: xs) = (x + Zsum xs)%Z.
Proof.
  unfold Zsum at 1. simpl. apply fold_left_Zadd.
Qed.

Lemma Zsum_app (xs ys : list Z) : Zsum (xs ++ ys) = (Zsum xs + Zsum ys)%Z.
Proof.
  induction xs as [|x xs IH]; simpl; [reflexivity|].
  rewrite !Zsum_cons, IH. lia.
Qed.

Lemma Zsum_perm (xs ys : list Z) : Permutation xs ys -> Zsum xs = Zsum ys.
Proof.
  induction 1; rewrite ?Zsum_cons in *; lia.
Qed.

(** ** Dictionaries *)

Section DictUpdate.

Variable V : Type.
Variables (f : V -> V) (dflt : V).

(** A quantity that [f] raises by [c] and that is 0 on a fresh entry grows
    by [c] in total, whichever key is updated. *)
Lemma dict_update_Qsum (g : V -> Q) (c : Q) (k : string) (d : dict V) :
  (forall v, g (f v) == g v + c) -> g dflt == 0 ->
  Qsum (map (fun kv => g (snd kv)) (dict_update k f dflt d))
  == Qsum (map (fun kv => g (snd kv)) d) + c.
Proof.
  intros Hf H0. induction d as [|[k' v] d IH]; simpl.
  - rewrite Qsum_cons. simpl. rewrite Hf, H0. unfold Qsum. simpl. ring.
  - destruct (String.eqb k k'); simpl; rewrite !Qsum_cons; simpl.
    + rewrite Hf. ring.
    + rewrite IH. ring.
Qed.

Lemma dict_update_Zsum (g : V -> Z) (c : Z) (k : string) (d : dict V) :
  (forall v, g (f v) = g v + c)%Z -> g dflt = 0%Z ->
  Zsum (map (fun kv => g (snd kv)) (dict_update k f dflt d))
  = (Zsum (map (fun kv => g (snd kv)) d) + c)%Z.
Proof.
  intros Hf H0. induction d as [|[k' v] d IH]; simpl.
  - rewrite Zsum_cons. simpl. rewrite Hf, H0. unfold Zsum. simpl. lia.
  - destruct (String.eqb k k'); simpl; rewrite !Zsum_cons; simpl.
    + rewrite Hf. lia.
    + rewrite IH. lia.
Qed.

(** An invariant of the values that [f] keeps, and establishes on a fresh
    entry, holds of every value after an update. *)
Lemma dict_update_Forall (P : V -> Prop) (k : string) (d : dict V) :
  (forall v, P v -> P (f v)) -> P (f dflt) ->
  Forall (fun kv => P (snd kv)) d ->
  Forall (fun kv => P (snd kv)) (dict_update k f dflt d).
Proof.
  intros Hf H0. induction 1 as [|[k' v] d Hv Hd IH]; simpl.
  - constructor; [exact H0 | constructor].
  - destruct (String.eqb k k'); constructor; simpl; auto.
Qed.

(** The keys after an update: unchanged when [k] was a key, [k] added at the
    end otherwise. *)
Lemma dict_update_keys (k : string) (d : dict V) :
  map fst (dict_update k f dflt d)
  = if existsb (String.eqb k) (map fst d) then map fst d
    else map fst d ++ [k].
Proof.
  induction d as [|[k' v] d IH]; simpl; [reflexivity|].
  destruct (String.eqb k k'); simpl; [reflexivity|].
  rewrite IH. destruct (existsb (String.eqb k) (map fst d)); reflexivity.
Qed.

Lemma existsb_eqb_In (k : string) (ks : list string) :
  existsb (String.eqb k) ks = true <-> In k ks.
Proof.
  rewrite existsb_exists. split.
  - intros (x & Hin & E). apply String.eqb_eq in E. now subst.
  - intro Hin. exists k. split; [exact Hin | apply String.eqb_refl].
Qed.

Lemma dict_update_NoDup (k : string) (d : dict V) :
  NoDup (map fst d) -> NoDup (map fst (dict_update k f dflt d)).
Proof.
  intro Hnd. rewrite dict_update_keys.
  destruct (existsb (String.eqb k) (map fst d)) eqn:E; [exact Hnd|].
  apply NoDup_app; [exact Hnd | repeat constructor; intros [] |].
  intros x Hx [<-|[]].
  apply existsb_eqb_In in Hx. congruence.
Qed.

(** Where an entry of the updated dictionary comes from. *)
Lemma dict_update_In (k : string) (d : dict V) (l : string) (v : V) :
  NoDup (map fst d) ->
  In (l, v) (dict_update k f dflt d) ->
  (l <> k /\ In (l, v) d) \/
  (l = k /\ exists v0, In (k, v0) d /\ v = f v0) \/
  (l = k /\ ~ In k (map fst d) /\ v = f dflt).
Proof.
  induction d as [|[k' v'] d IH]; simpl; intro Hnd.
  - intros [H|[]]. inversion H; subst. right. right. auto.
  - inversion Hnd as [|? ? Hk' Hnd']; subst.
    destruct (String.eqb k k') eqn:E.
    + apply String.eqb_eq in E. subst k'. intros [H|H].
      * inversion H; subst. right. left. split; [reflexivity|].
        exists v'. auto.
      * destruct (string_dec l k) as [->|Hne].
        -- exfalso. apply Hk'. apply (in_map fst) in H. exact H.
        -- left. auto.
    + apply String.eqb_neq in E. intros [H|H].
      * inversion H; subst. left. split; [congruence | auto].
      * destruct (IH Hnd' H) as [[Hne Hin]|[[-> (v0 & Hin & ->)]|[-> [Hnin ->]]]].
        -- left. auto.
        -- right. left. split; [reflexivity|]. exists v0. auto.
        -- right. right. split; [reflexivity|]. split; [|reflexivity].
           intros [Heq|Hin]; [congruence | contradiction].
Qed.

End DictUpdate.

(** ** Grouping by day against the totals (nutrition_report.py) *)

Lemma report_totals_calories (meals : list Meal) (acc : NutritionReport.ReportTotals) :
  NutritionReport.t_calories
    (fold_left NutritionReport._calculate_totals_step meals acc)
  == NutritionReport.t_calories acc + Qsum (map meal_calories meals).
Proof.
  revert acc. induction meals as [|m meals IH]; intro acc; simpl.
  - unfold Qsum. simpl. ring.
  - rewrite IH, Qsum_cons. simpl. unfold meal_calories. ring.
Qed.

Lemma group_by_day_from (meals : list Meal) (d0 : dict NutritionReport.DayData) :
  Forall timestamp_parses meals ->
  exists daily,
    for_each NutritionReport._group_by_day_step meals d0 = Ok daily /\
    sum_day_calories daily
    == sum_day_calories d0 + Qsum (map meal_calories meals) /\
    sum_day_counts daily = (sum_day_counts d0 + Z.of_nat (List.length meals))%Z.
Proof.
  intro Hall. revert d0. induction Hall as [|m meals [dt Hdt] _ IH]; intro d0.
  - exists d0. split; [reflexivity|]. split.
    + change (Qsum (map meal_calories [])) with 0. ring.
    + cbn [List.length Z.of_nat]. lia.
  - cbn [for_each]. unfold NutritionReport._group_by_day_step at 1.
    rewrite Hdt. cbn [bind].
    match goal with |- context [for_each _ meals ?d] => destruct (IH d) as (daily & Hrun & Hcal & Hcnt) end.
    exists daily. split; [exact Hrun|]. split.
    + rewrite Hcal. unfold sum_day_calories at 1.
      rewrite dict_update_Qsum
        with (c := meal_calories m); [| intro v; reflexivity | reflexivity].
      cbn [map]. rewrite Qsum_cons. unfold sum_day_calories. ring.
    + rewrite Hcnt. unfold sum_day_counts at 1.
      rewrite dict_update_Zsum with (c := 1%Z);
        [| intro v; reflexivity | reflexivity].
      unfold sum_day_counts. cbn [List.length]. lia.
Qed.


(** ** The recency filter *)

Lemma recent_naive (cutoff : Z) (meals : list Meal) :
  Forall timestamp_naive meals ->
  recent cutoff meals = Ok (filter (strictly_after cutoff) meals).
Proof.
  induction 1 as [|m meals (dt & Hdt & Htz) _ IH]; [reflexivity|].
  unfold recent in *. cbn [comprehension_if filter].
  unfold strictly_after at 1. rewrite Hdt. cbn [bind].
  unfold gt_naive at 1. rewrite Htz. cbn [bind]. rewrite IH. cbn [bind].
  reflexivity.
Qed.

(** On naive timestamps both callers keep, in order, exactly the meals
    strictly after [now - days]. *)
Lemma recent_meals_naive (now_micros days : Z) (meals : list Meal) :
  Forall timestamp_naive meals ->
  forall cutoff, minus_days now_micros days = Ok cutoff ->
  cutoff = (now_micros - days * 86400000000)%Z /\
  NutritionAnalyzer.recent_meals now_micros days meals
  = Ok (filter (strictly_after cutoff) meals) /\
  (days = 7%Z ->
   NutritionReport.recent_meals now_micros meals
   = Ok (filter (strictly_after cutoff) meals)).
Proof.
  intros Hall cutoff Hc. split; [|split].
  - unfold minus_days in Hc.
    destruct (999999999 <? Z.abs days)%Z; [discriminate|].
    match type of Hc with (if ?b then _ else _) = _ => destruct b end;
      congruence.
  - unfold NutritionAnalyzer.recent_meals. rewrite Hc. cbn [bind].
    apply recent_naive, Hall.
  - intros ->. unfold NutritionReport.recent_meals. rewrite Hc. cbn [bind].
    apply recent_naive, Hall.
Qed.

(** A timestamp with an offset ends the filter with [TypeError], whatever the
    cutoff and the meals after it. *)
Lemma recent_aware_raises (cutoff : Z) (meal : Meal) (meals : list Meal)
  (dt : datetime) (offset : Z) :
  consumed_at meal = Ok dt -> tzinfo dt = Some offset ->
  recent cutoff (meal :: meals) = Raise TypeError.
Proof.
  intros Hdt Htz. unfold recent. cbn [comprehension_if].
  rewrite Hdt. cbn [bind]. unfold gt_naive at 1. rewrite Htz. reflexivity.
Qed.

Example recent_boundary_naive :
  NutritionReport.recent_meals clock_2024_01_10
    [meal_at "2024-01-03T00:00:00"; meal_at "2024-01-03T00:00:01"]
  = Ok [meal_at "2024-01-03T00:00:01"].
Proof. vm_compute. reflexivity. Qed.

(** C2.  At the clock reading 2024-01-10T00:00:00 the filter of the weekly
    report and of [get_daily_averages 7] does not return the meal stamped
    2024-01-03T00:00:01Z: the stamp parses to an offset-aware value, the
    cutoff is naive, and the comparison raises [TypeError]. *)
Theorem C2_recency_filter_raises_on_utc_stamp :
  NutritionReport.recent_meals clock_2024_01_10
    [meal_at "2024-01-03T00:00:01Z"] = Raise TypeError /\
  NutritionAnalyzer.recent_meals clock_2024_01_10 7
    [meal_at "2024-01-03T00:00:01Z"] = Raise TypeError /\
  NutritionAnalyzer.get_daily_averages clock_2024_01_10 7
    [meal_at "2024-01-03T00:00:01Z"] = Raise TypeError /\
  consumed_at (meal_at "2024-01-03T00:00:01Z")
  = Ok (mk_datetime 2024 1 3 0 0 1 0 (Some 0%Z)).
Proof. vm_compute. repeat split. Qed.

(** ** The gauge *)

Lemma int_nonneg_floor (x : Q) : 0 <= x -> int x = Qfloor x.
Proof.
  intro Hx. unfold int, Qfloor. destruct x as [n d]. cbn [Qnum Qden].
  apply Z.quot_div_nonneg; [|lia].
  unfold Qle in Hx. cbn in Hx. lia.
Qed.

Lemma int_nonpos_floor (x : Q) : x <= 0 -> int x = (- Qfloor (- x))%Z.
Proof.
  intro Hx. unfold int, Qfloor. destruct x as [n d]. cbn [Qnum Qden Qopp].
  unfold Qle in Hx. cbn in Hx.
  rewrite <- (Z.opp_involutive n) at 1.
  rewrite Z.quot_opp_l by lia. f_equal.
  apply Z.quot_div_nonneg; lia.
Qed.

Lemma count_occ_repeat_same (c : Z) (n : nat) :
  count_occ Z.eq_dec (repeat c n) c = n.
Proof.
  induction n as [|n IH]; simpl; [reflexivity|].
  destruct (Z.eq_dec c c); [now rewrite IH | contradiction].
Qed.

Lemma count_occ_repeat_other (c c' : Z) (n : nat) :
  c <> c' -> count_occ Z.eq_dec (repeat c n) c' = 0%nat.
Proof.
  intro Hne. induction n as [|n IH]; simpl; [reflexivity|].
  destruct (Z.eq_dec c c'); [contradiction | exact IH].
Qed.




Example create_bar_examples :
  NutritionReport._create_bar 50 40
  = repeat NutritionReport.FULL_BLOCK 20 ++ repeat NutritionReport.LIGHT_SHADE 20 /\
  NutritionReport._create_bar 0 40 = repeat NutritionReport.LIGHT_SHADE 40 /\
  NutritionReport._create_bar 100 40 = repeat NutritionReport.FULL_BLOCK 40.
Proof. vm_compute. repeat split. Qed.

(** ** The recommendations *)

Lemma truediv_nonzero (a b : Q) : ~ b == 0 -> truediv a b = Ok (a / b).
Proof.
  intro Hb. unfold truediv. destruct (Qeq_bool b 0) eqn:E; [|reflexivity].
  apply Qeq_bool_eq in E. contradiction.
Qed.

Lemma truediv_positive (a b : Q) : Qltb 0 b = true -> truediv a b = Ok (a / b).
Proof.
  intro Hb. apply truediv_nonzero. apply Qltb_lt in Hb.
  intro H0. rewrite H0 in Hb. exact (Qlt_irrefl 0 Hb).
Qed.

Lemma truediv_7 (a : Q) : truediv a 7 = Ok (a / 7).
Proof. reflexivity. Qed.

Lemma rules_never_say_balanced (totals : NutritionReport.ReportTotals) (n : nat) :
  ~ In NutritionReport.BALANCED (SpecRecommendations.fired totals n).
Proof.
  unfold SpecRecommendations.fired, SpecRecommendations.rules. cbn [flat_map].
  unfold SpecRecommendations.calorie_rule, SpecRecommendations.protein_rule,
    SpecRecommendations.meal_frequency_rule,
    SpecRecommendations.protein_share_rule,
    SpecRecommendations.carbs_share_rule.
  rewrite !in_app_iff.
  repeat match goal with
         | |- context [match ?o with Some _ => _ | None => _ end] =>
             match o with
             | SpecRecommendations.share _ _ => destruct o
             end
         | |- context [Qltb ?a ?b] => destruct (Qltb a b)
         end;
  cbn; intuition discriminate.
Qed.


(** ** The macro percentages (nutrition_analyzer.py) *)

Lemma macro_sums_nonneg_from (meals : list Meal) (acc : NutritionAnalyzer.MacroSums) :
  Forall macros_nonneg meals ->
  0 <= NutritionAnalyzer.total_protein acc ->
  0 <= NutritionAnalyzer.total_carbs acc ->
  0 <= NutritionAnalyzer.total_fat acc ->
  0 <= total_grams (fold_left NutritionAnalyzer.sum_step meals acc).
Proof.
  intro Hall. revert acc.
  induction Hall as [|m meals (Hp & Hc & Hf) _ IH]; intros acc Ap Ac Af.
  - unfold total_grams. cbn [fold_left].
    apply Qplus_nonneg; [apply Qplus_nonneg|]; assumption.
  - cbn [fold_left]. unfold macros_nonneg in Hp, Hc, Hf. cbv zeta in Hp, Hc, Hf.
    apply IH; unfold NutritionAnalyzer.sum_step;
      cbn [NutritionAnalyzer.total_protein NutritionAnalyzer.total_carbs
           NutritionAnalyzer.total_fat];
      apply Qplus_nonneg; assumption.
Qed.

Lemma percentages_positive (s : NutritionAnalyzer.MacroSums) :
  0 < total_grams s ->
  NutritionAnalyzer.percentages s
  = Ok (NutritionAnalyzer.mk_Percentages
          (NutritionAnalyzer.total_protein s / total_grams s * 100)
          (NutritionAnalyzer.total_carbs s / total_grams s * 100)
          (NutritionAnalyzer.total_fat s / total_grams s * 100)).
Proof.
  intro Hpos. apply Qltb_lt in Hpos.
  unfold NutritionAnalyzer.percentages. fold (total_grams s). rewrite Hpos.
  rewrite !(fun a => truediv_positive a _ Hpos). reflexivity.
Qed.

Lemma percentages_not_positive (s : NutritionAnalyzer.MacroSums) :
  total_grams s <= 0 ->
  NutritionAnalyzer.percentages s = Ok (NutritionAnalyzer.mk_Percentages 0 0 0).
Proof.
  intro Hle. apply Qltb_ge in Hle.
  unfold NutritionAnalyzer.percentages. fold (total_grams s). rewrite Hle.
  reflexivity.
Qed.



Example analyze_macros_empty :
  exists r, NutritionAnalyzer.analyze_macros [] = Ok r /\
    NutritionAnalyzer.protein_percentage r == 0 /\
    NutritionAnalyzer.carbs_percentage r == 0 /\
    NutritionAnalyzer.fat_percentage r == 0.
Proof. eexists. split; [reflexivity|]. repeat split. Qed.

(** ** Python's stable sort, descending *)

Section StableSort.

Variable A : Type.
Variable key : A -> Z.

Lemma insert_desc_perm (x : A) (l : list A) :
  Permutation (insert_desc key x l) (x :: l).
Proof.
  induction l as [|y l IH]; simpl; [reflexivity|].
  destruct (key x <? key y)%Z; [|reflexivity].
  rewrite IH. apply perm_swap.
Qed.

Lemma sorted_reverse_perm (l : list A) : Permutation (sorted_reverse key l) l.
Proof.
  induction l as [|x l IH]; simpl; [reflexivity|].
  rewrite insert_desc_perm. now constructor.
Qed.

Lemma insert_desc_descending (x : A) (l : list A) :
  descending key l -> descending key (insert_desc key x l).
Proof.
  unfold descending. induction 1 as [|y l Hl IH Hy]; simpl.
  - repeat constructor.
  - destruct (key x <? key y)%Z eqn:E.
    + apply Z.ltb_lt in E. constructor; [exact IH|].
      apply Permutation_Forall with (x :: l).
      * symmetry. apply insert_desc_perm.
      * constructor; [lia | exact Hy].
    + apply Z.ltb_ge in E. constructor.
      * constructor; assumption.
      * constructor; [exact E|].
        eapply Forall_impl; [|exact Hy]. simpl. intros a Ha. lia.
Qed.

Lemma sorted_reverse_descending (l : list A) :
  descending key (sorted_reverse key l).
Proof.
  induction l as [|x l IH]; simpl.
  - constructor.
  - apply insert_desc_descending, IH.
Qed.

(** Stability: the items of one key keep the order they came in. *)
Lemma insert_desc_stable (c : Z) (x : A) (l : list A) :
  filter (with_key key c) (insert_desc key x l)
  = filter (with_key key c) (x :: l).
Proof.
  induction l as [|y l IH]; [reflexivity|].
  cbn [insert_desc]. destruct (key x <? key y)%Z eqn:E; [|reflexivity].
  apply Z.ltb_lt in E. cbn [filter] in *. rewrite IH.
  unfold with_key.
  destruct (key x =? c)%Z eqn:Ex, (key y =? c)%Z eqn:Ey; try reflexivity.
  apply Z.eqb_eq in Ex, Ey. lia.
Qed.

Lemma sorted_reverse_stable (c : Z) (l : list A) :
  filter (with_key key c) (sorted_reverse key l) = filter (with_key key c) l.
Proof.
  induction l as [|x l IH]; [reflexivity|].
  cbn [sorted_reverse]. rewrite insert_desc_stable. cbn [filter].
  rewrite IH. reflexivity.
Qed.

End StableSort.

(** ** The food counters (nutrition_analyzer.py) *)

Lemma filter_snoc {A : Type} (p : A -> bool) (l : list A) (x : A) :
  filter p (l ++ [x]) = filter p l ++ (if p x then [x] else []).
Proof.
  rewrite filter_app. simpl. destruct (p x); reflexivity.
Qed.

Lemma occurrences_snoc (seen : list FoodItem) (x : FoodItem) (l : string) :
  occurrences (seen ++ [x]) l
  = (occurrences seen l + (if labelled l x then 1 else 0))%Z.
Proof.
  unfold occurrences. rewrite filter_snoc, length_app.
  destruct (labelled l x); simpl; lia.
Qed.

Lemma calories_of_snoc (seen : list FoodItem) (x : FoodItem) (l : string) :
  calories_of (seen ++ [x]) l
  == calories_of seen l + (if labelled l x then item_calories x else 0).
Proof.
  unfold calories_of. rewrite filter_snoc, map_app, Qsum_app.
  destruct (labelled l x); simpl; unfold Qsum; simpl; ring.
Qed.

Lemma protein_of_snoc (seen : list FoodItem) (x : FoodItem) (l : string) :
  protein_of (seen ++ [x]) l
  == protein_of seen l + (if labelled l x then item_protein x else 0).
Proof.
  unfold protein_of. rewrite filter_snoc, map_app, Qsum_app.
  destruct (labelled l x); simpl; unfold Qsum; simpl; ring.
Qed.

Lemma unseen_label (d : dict NutritionAnalyzer.FoodCount)
  (seen : list FoodItem) (k : string) :
  (forall item, In item seen -> In (item_label item) (map fst d)) ->
  ~ In k (map fst d) ->
  filter (labelled k) seen = [].
Proof.
  intros Hkeys Hk. induction seen as [|x seen IH]; [reflexivity|].
  cbn [filter]. destruct (labelled k x) eqn:E.
  - exfalso. apply Hk. unfold labelled in E. apply String.eqb_eq in E.
    rewrite <- E. apply Hkeys. left. reflexivity.
  - apply IH. intros item Hin. apply Hkeys. right. exact Hin.
Qed.

Lemma aggregates_step (d : dict NutritionAnalyzer.FoodCount)
  (seen : list FoodItem) (x : FoodItem) :
  aggregates d seen ->
  aggregates (NutritionAnalyzer.count_item d x) (seen ++ [x]).
Proof.
  intros (Hnd & Hkeys & Hent). unfold NutritionAnalyzer.count_item.
  fold (item_label x). set (k := item_label x).
  split; [apply dict_update_NoDup; exact Hnd|]. split.
  - intros item Hin. rewrite dict_update_keys.
    apply in_app_or in Hin.
    destruct (existsb (String.eqb k) (map fst d)) eqn:E.
    + destruct Hin as [Hin|[<-|[]]]; [apply Hkeys; exact Hin|].
      apply existsb_eqb_In. exact E.
    + apply in_or_app. destruct Hin as [Hin|[<-|[]]].
      * left. apply Hkeys. exact Hin.
      * right. left. reflexivity.
  - intros l fc Hin.
    rewrite occurrences_snoc, calories_of_snoc, protein_of_snoc.
    unfold labelled at 1 2 3. fold k.
    apply dict_update_In in Hin; [|exact Hnd].
    destruct Hin as [[Hne Hin]|[[-> (v0 & Hin & ->)]|[-> [Hnin ->]]]].
    + apply Hent in Hin. destruct Hin as (Hc & H1 & Hcal & Hprot).
      assert (E : String.eqb k l = false) by (apply String.eqb_neq; congruence).
      rewrite E. repeat split; [lia | exact H1 | |].
      * rewrite Hcal. ring.
      * rewrite Hprot. ring.
    + apply Hent in Hin. destruct Hin as (Hc & H1 & Hcal & Hprot).
      rewrite String.eqb_refl. cbn. repeat split; [lia | lia | |].
      * rewrite Hcal. reflexivity.
      * rewrite Hprot. reflexivity.
    + rewrite String.eqb_refl.
      unfold occurrences, calories_of, protein_of.
      rewrite (unseen_label d seen k Hkeys Hnin). cbn.
      repeat split; try lia; unfold Qsum; simpl; ring.
Qed.

Lemma aggregates_fold (items : list FoodItem) :
  forall (d : dict NutritionAnalyzer.FoodCount) (seen : list FoodItem),
  aggregates d seen ->
  aggregates (fold_left NutritionAnalyzer.count_item items d) (seen ++ items).
Proof.
  induction items as [|x items IH]; intros d seen Hagg; simpl.
  - rewrite app_nil_r. exact Hagg.
  - replace (seen ++ x :: items) with ((seen ++ [x]) ++ items)
      by (rewrite <- app_assoc; reflexivity).
    apply IH, aggregates_step, Hagg.
Qed.

Lemma food_counts_from (meals : list Meal) (d : dict NutritionAnalyzer.FoodCount) :
  fold_left NutritionAnalyzer.count_meal meals d
  = fold_left NutritionAnalyzer.count_item (all_items meals) d.
Proof.
  revert d. induction meals as [|m meals IH]; intro d; [reflexivity|].
  cbn [fold_left all_items flat_map]. rewrite fold_left_app, IH.
  reflexivity.
Qed.

Lemma food_counts_aggregate (meals : list Meal) :
  aggregates (NutritionAnalyzer.food_counts meals) (all_items meals).
Proof.
  unfold NutritionAnalyzer.food_counts. rewrite food_counts_from.
  apply (aggregates_fold (all_items meals) [] []).
  split; [constructor|]. split; [intros ? []|intros ? ? []].
Qed.

Lemma sum_food_counts_fold (items : list FoodItem)
  (d : dict NutritionAnalyzer.FoodCount) :
  sum_food_counts (fold_left NutritionAnalyzer.count_item items d)
  = (sum_food_counts d + Z.of_nat (List.length items))%Z.
Proof.
  revert d. induction items as [|x items IH]; intro d.
  - cbn [fold_left List.length Z.of_nat]. lia.
  - cbn [fold_left]. rewrite IH. unfold NutritionAnalyzer.count_item.
    unfold sum_food_counts at 1.
    rewrite dict_update_Zsum with (c := 1%Z);
      [| intro v; reflexivity | reflexivity].
    fold (sum_food_counts d). cbn [List.length]. lia.
Qed.

Lemma sum_food_counts_total (meals : list Meal) :
  sum_food_counts (NutritionAnalyzer.food_counts meals)
  = Z.of_nat (List.length (all_items meals)).
Proof.
  unfold NutritionAnalyzer.food_counts.
  rewrite food_counts_from, sum_food_counts_fold. reflexivity.
Qed.

Lemma filter_filter_and {A : Type} (p q : A -> bool) (l : list A) :
  filter p (filter q l) = filter (fun x => q x && p x) l.
Proof.
  induction l as [|x l IH]; [reflexivity|].
  cbn [filter]. destruct (q x); cbn [filter andb]; rewrite IH; reflexivity.
Qed.

(** The keys of the counters are the labels in first-seen order. *)
Lemma food_count_keys_from (items : list FoodItem) :
  forall d : dict NutritionAnalyzer.FoodCount,
  map fst (fold_left NutritionAnalyzer.count_item items d)
  = map fst d
    ++ filter (fun l => negb (existsb (String.eqb l) (map fst d)))
         (first_seen (map item_label items)).
Proof.
  induction items as [|x items IH]; intro d.
  - cbn. rewrite app_nil_r. reflexivity.
  - cbn [fold_left map first_seen filter]. rewrite IH.
    unfold NutritionAnalyzer.count_item at 1 2. fold (item_label x).
    set (k := item_label x). rewrite dict_update_keys.
    destruct (existsb (String.eqb k) (map fst d)) eqn:E; cbn [negb].
    + f_equal. rewrite filter_filter_and. apply filter_ext_in.
      intros y _. destruct (String.eqb y k) eqn:Ey; [|reflexivity].
      apply String.eqb_eq in Ey. subst y. rewrite E. reflexivity.
    + rewrite <- app_assoc. cbn [app]. do 2 f_equal.
      rewrite filter_filter_and. apply filter_ext.
      intro y. rewrite existsb_app. cbn [existsb].
      rewrite orb_false_r, negb_orb, andb_comm. reflexivity.
Qed.

Lemma food_count_keys (meals : list Meal) :
  map fst (NutritionAnalyzer.food_counts meals)
  = first_seen (map item_label (all_items meals)).
Proof.
  unfold NutritionAnalyzer.food_counts.
  rewrite food_counts_from, food_count_keys_from. cbn [map app existsb negb].
  induction (first_seen (map item_label (all_items meals))) as [|y l IH];
    [reflexivity|].
  cbn [filter]. rewrite IH. reflexivity.
Qed.

(** ** Rounding respects equality of rationals *)

Lemma round_comp (x y : Q) : x == y -> round x = round y.
Proof.
  intro H. unfold round.
  assert (Hf : Qfloor x = Qfloor y) by (apply Qfloor_comp; exact H).
  rewrite Hf.
  assert (Hc : (x - inject_Z (Qfloor y) ?= 1 # 2) = (y - inject_Z (Qfloor y) ?= 1 # 2)).
  { apply Qcompare_comp; [rewrite H; reflexivity | reflexivity]. }
  rewrite Hc. reflexivity.
Qed.

Lemma round2_comp (x y : Q) : x == y -> round2 x = round2 y.
Proof.
  intro H. unfold round2. f_equal. f_equal. apply round_comp.
  rewrite H. reflexivity.
Qed.

(** ** [get_top_foods] returns *)

Lemma Forall_firstn {A : Type} (P : A -> Prop) (n : nat) (l : list A) :
  Forall P l -> Forall P (firstn n l).
Proof.
  intro H. revert n. induction H as [|x l Hx Hl IH]; intros [|n]; cbn;
    constructor; auto.
Qed.

Lemma slice_to_firstn {A : Type} (l : list A) (n : Z) :
  exists k, slice_to l n = firstn k l.
Proof.
  unfold slice_to. destruct (n <? 0)%Z; eexists; reflexivity.
Qed.

Lemma slice_to_map {A B : Type} (f : A -> B) (l : list A) (n : Z) :
  slice_to (map f l) n = map f (slice_to l n).
Proof.
  unfold slice_to. rewrite length_map. destruct (n <? 0)%Z; apply firstn_map.
Qed.

Lemma slice_to_length {A : Type} (l : list A) (n : Z) :
  (0 <= n)%Z -> (Z.of_nat (List.length (slice_to l n)) <= n)%Z.
Proof.
  intro Hn. unfold slice_to.
  destruct (n <? 0)%Z eqn:E; [apply Z.ltb_lt in E; lia|].
  pose proof (firstn_le_length (Z.to_nat n) l) as H.
  rewrite length_firstn. lia.
Qed.

Lemma firstn_skipn_length {A : Type} (k : nat) (l : list A) :
  firstn k l ++ skipn (List.length (firstn k l)) l = l.
Proof.
  revert l. induction k as [|k IH]; intros [|x l]; cbn; try reflexivity.
  rewrite IH. reflexivity.
Qed.

Lemma top_food_value (kv : string * NutritionAnalyzer.FoodCount) :
  (1 <= NutritionAnalyzer.count (snd kv))%Z ->
  NutritionAnalyzer.top_food kv = Ok (entry_of kv).
Proof.
  destruct kv as [l fc]. cbn [snd]. intro H1.
  assert (Hpos : Qltb 0 (inject_Z (NutritionAnalyzer.count fc)) = true).
  { apply Qltb_lt. change 0 with (inject_Z 0). rewrite <- Zlt_Qlt. lia. }
  unfold NutritionAnalyzer.top_food.
  rewrite !(fun a => truediv_positive a _ Hpos). reflexivity.
Qed.

Lemma comprehension_top_food (l : list (string * NutritionAnalyzer.FoodCount)) :
  Forall (fun kv => (1 <= NutritionAnalyzer.count (snd kv))%Z) l ->
  comprehension NutritionAnalyzer.top_food l = Ok (map entry_of l).
Proof.
  induction 1 as [|kv l Hkv _ IH]; [reflexivity|].
  cbn [comprehension map]. rewrite (top_food_value kv Hkv). cbn [bind].
  rewrite IH. reflexivity.
Qed.

Lemma food_counts_positive (meals : list Meal) :
  Forall (fun kv => (1 <= NutritionAnalyzer.count (snd kv))%Z)
    (NutritionAnalyzer.food_counts meals).
Proof.
  apply Forall_forall. intros [l fc] Hin.
  destruct (food_counts_aggregate meals) as (_ & _ & Hent).
  apply Hent in Hin. cbn [snd]. tauto.
Qed.

Lemma sorted_foods_positive (meals : list Meal) :
  Forall (fun kv => (1 <= NutritionAnalyzer.count (snd kv))%Z)
    (NutritionAnalyzer.sorted_foods meals).
Proof.
  apply Permutation_Forall with (NutritionAnalyzer.food_counts meals).
  - symmetry. apply sorted_reverse_perm.
  - apply food_counts_positive.
Qed.

Lemma get_top_foods_value (meals : list Meal) (limit : Z) :
  NutritionAnalyzer.get_top_foods meals limit
  = Ok (map entry_of (slice_to (NutritionAnalyzer.sorted_foods meals) limit)).
Proof.
  unfold NutritionAnalyzer.get_top_foods. apply comprehension_top_food.
  destruct (slice_to_firstn (NutritionAnalyzer.sorted_foods meals) limit)
    as [k ->].
  apply Forall_firstn, sorted_foods_positive.
Qed.

(** C10.  Every label [get_top_foods] has aggregated has a count of at least
    1, whatever the meals, so neither division by the count divides by zero:
    the function returns, with one entry for each counter it kept. *)
Theorem C10_top_food_counts_positive (meals : list Meal) (limit : Z) :
  Forall (fun kv => (1 <= NutritionAnalyzer.count (snd kv))%Z)
    (NutritionAnalyzer.food_counts meals) /\
  Forall (fun kv =>
            exists c p,
              truediv (NutritionAnalyzer.total_calories_of (snd kv))
                (inject_Z (NutritionAnalyzer.count (snd kv))) = Ok c /\
              truediv (NutritionAnalyzer.total_protein_of (snd kv))
                (inject_Z (NutritionAnalyzer.count (snd kv))) = Ok p)
    (NutritionAnalyzer.food_counts meals) /\
  exists entries,
    NutritionAnalyzer.get_top_foods meals limit = Ok entries /\
    List.length entries
    = List.length (slice_to (NutritionAnalyzer.sorted_foods meals) limit).
Proof.
  split; [apply food_counts_positive|]. split.
  - eapply Forall_impl; [|apply food_counts_positive].
    intros [l fc] H1. cbn [snd] in *.
    assert (Hpos : Qltb 0 (inject_Z (NutritionAnalyzer.count fc)) = true).
    { apply Qltb_lt. change 0 with (inject_Z 0). rewrite <- Zlt_Qlt. lia. }
    eexists. eexists. split; apply truediv_positive; exact Hpos.
  - eexists. split; [apply get_top_foods_value|].
    apply length_map.
Qed.

(** ** The ranking of the foods *)

Lemma descending_map {A B : Type} (f : A -> B) (key : A -> Z) (key' : B -> Z)
  (l : list A) :
  (forall x, In x l -> key x = key' (f x)) ->
  descending key l -> descending key' (map f l).
Proof.
  unfold descending. intros Hk Hs. induction Hs as [|x l Hl IH Hx]; cbn.
  - constructor.
  - constructor.
    + apply IH. intros y Hy. apply Hk. right. exact Hy.
    + apply Forall_map. apply Forall_forall. intros y Hy.
      rewrite Forall_forall in Hx. specialize (Hx y Hy).
      rewrite <- (Hk x), <- (Hk y); [exact Hx | right; exact Hy | left; reflexivity].
Qed.

Lemma filter_map_agree {A B : Type} (f : A -> B) (p : B -> bool)
  (q : A -> bool) (l : list A) :
  (forall x, In x l -> p (f x) = q x) ->
  filter p (map f l) = map f (filter q l).
Proof.
  induction l as [|x l IH]; intro H; [reflexivity|].
  cbn [map filter]. rewrite (H x) by (left; reflexivity).
  rewrite IH by (intros y Hy; apply H; right; exact Hy).
  destruct (q x); reflexivity.
Qed.

Lemma sorted_foods_perm (meals : list Meal) :
  Permutation (NutritionAnalyzer.sorted_foods meals)
    (NutritionAnalyzer.food_counts meals).
Proof. apply sorted_reverse_perm. Qed.

(** What a counter of the dictionary holds, in terms of the items. *)
Lemma counter_correct (meals : list Meal) (kv : string * NutritionAnalyzer.FoodCount) :
  In kv (NutritionAnalyzer.food_counts meals) ->
  NutritionAnalyzer.count (snd kv) = occurrences (all_items meals) (fst kv) /\
  (1 <= NutritionAnalyzer.count (snd kv))%Z /\
  NutritionAnalyzer.total_calories_of (snd kv)
  == calories_of (all_items meals) (fst kv) /\
  NutritionAnalyzer.total_protein_of (snd kv)
  == protein_of (all_items meals) (fst kv).
Proof.
  destruct kv as [l fc]. intro Hin.
  destruct (food_counts_aggregate meals) as (_ & _ & Hent).
  exact (Hent l fc Hin).
Qed.

Lemma entry_of_correct (meals : list Meal) (kv : string * NutritionAnalyzer.FoodCount) :
  In kv (NutritionAnalyzer.food_counts meals) ->
  entry_correct (all_items meals) (entry_of kv).
Proof.
  intro Hin. destruct (counter_correct meals kv Hin) as (Hc & H1 & Hcal & Hp).
  unfold entry_correct, entry_of.
  cbn [NutritionAnalyzer.food NutritionAnalyzer.tf_count
       NutritionAnalyzer.avg_calories NutritionAnalyzer.avg_protein].
  repeat split; [exact Hc | exact H1 | |].
  - rewrite <- Hc. apply round2_comp. rewrite Hcal. reflexivity.
  - rewrite <- Hc. apply round2_comp. rewrite Hp. reflexivity.
Qed.

Lemma ranking_counts (meals : list Meal) :
  map (fun kv => NutritionAnalyzer.count (snd kv))
    (NutritionAnalyzer.sorted_foods meals)
  = map (occurrences (all_items meals)) (ranking meals).
Proof.
  unfold ranking. rewrite map_map. apply map_ext_in. intros kv Hin.
  apply counter_correct.
  apply (Permutation_in kv (sorted_foods_perm meals)). exact Hin.
Qed.


(** *** The report's variant, [_get_top_foods] *)

Lemma dict_update_map {V W : Type} (g : V -> W) (f : V -> V) (f' : W -> W)
  (dflt : V) (dflt' : W) (k : string) (d : dict V) :
  (forall v, g (f v) = f' (g v)) -> g dflt = dflt' ->
  map (fun kv => (fst kv, g (snd kv))) (dict_update k f dflt d)
  = dict_update k f' dflt' (map (fun kv => (fst kv, g (snd kv))) d).
Proof.
  intros Hf H0. induction d as [|[k' v] d IH]; cbn.
  - rewrite Hf, H0. reflexivity.
  - destruct (String.eqb k k'); cbn; [rewrite Hf | rewrite IH]; reflexivity.
Qed.

Lemma insert_desc_map {A B : Type} (h : A -> B) (key : A -> Z) (key' : B -> Z)
  (x : A) (l : list A) :
  (forall a, key' (h a) = key a) ->
  insert_desc key' (h x) (map h l) = map h (insert_desc key x l).
Proof.
  intro Hk. induction l as [|y l IH]; [reflexivity|].
  cbn [map insert_desc]. rewrite !Hk.
  destruct (key x <? key y)%Z; cbn [map]; [rewrite IH|]; reflexivity.
Qed.

Lemma sorted_reverse_map {A B : Type} (h : A -> B) (key : A -> Z)
  (key' : B -> Z) (l : list A) :
  (forall a, key' (h a) = key a) ->
  sorted_reverse key' (map h l) = map h (sorted_reverse key l).
Proof.
  intro Hk. induction l as [|x l IH]; [reflexivity|].
  cbn [map sorted_reverse]. rewrite IH. apply insert_desc_map, Hk.
Qed.

Lemma report_count_item (d : dict NutritionAnalyzer.FoodCount) (item : FoodItem) :
  map report_counter (NutritionAnalyzer.count_item d item)
  = NutritionReport.count_item (map report_counter d) item.
Proof.
  unfold NutritionAnalyzer.count_item, NutritionReport.count_item.
  apply (dict_update_map
           (fun fc => NutritionReport.mk_FoodCount (NutritionAnalyzer.count fc)
                        (NutritionAnalyzer.total_calories_of fc)));
    reflexivity.
Qed.

Lemma report_count_items (items : list FoodItem) :
  forall d : dict NutritionAnalyzer.FoodCount,
  map report_counter (fold_left NutritionAnalyzer.count_item items d)
  = fold_left NutritionReport.count_item items (map report_counter d).
Proof.
  induction items as [|x items IH]; intro d; [reflexivity|].
  cbn [fold_left]. rewrite IH, report_count_item. reflexivity.
Qed.

Lemma report_food_counts (meals : list Meal) :
  forall d : dict NutritionAnalyzer.FoodCount,
  fold_left NutritionReport.count_meal meals (map report_counter d)
  = map report_counter (fold_left NutritionAnalyzer.count_meal meals d).
Proof.
  induction meals as [|m meals IH]; intro d; [reflexivity|].
  cbn [fold_left].
  unfold NutritionReport.count_meal at 2, NutritionAnalyzer.count_meal at 2.
  rewrite <- report_count_items. apply IH.
Qed.

(** The entry the report builds from a counter. *)
Lemma report_entries (l : list (string * NutritionAnalyzer.FoodCount)) :
  Forall (fun kv => (1 <= NutritionAnalyzer.count (snd kv))%Z) l ->
  comprehension
    (fun x : string * NutritionReport.FoodCount =>
       let (food, data) := x in
       avg <- (if (0 <? NutritionReport.fc_count data)%Z
               then truediv (NutritionReport.fc_total_calories data)
                      (inject_Z (NutritionReport.fc_count data))
               else Ok 0) ;;
       Ok (NutritionReport.mk_TopFood food (NutritionReport.fc_count data) avg))
    (map report_counter l)
  = Ok (map (fun kv =>
               NutritionReport.mk_TopFood (fst kv)
                 (NutritionAnalyzer.count (snd kv))
                 (NutritionAnalyzer.total_calories_of (snd kv)
                  / inject_Z (NutritionAnalyzer.count (snd kv)))) l).
Proof.
  induction 1 as [|[l0 fc] rest H1 _ IH]; [reflexivity|].
  cbn [map comprehension report_counter fst snd
       NutritionReport.fc_count NutritionReport.fc_total_calories] in *.
  assert (Hlt : (0 <? NutritionAnalyzer.count fc)%Z = true)
    by (apply Z.ltb_lt; lia).
  assert (Hq : Qltb 0 (inject_Z (NutritionAnalyzer.count fc)) = true).
  { apply Qltb_lt. change 0 with (inject_Z 0). rewrite <- Zlt_Qlt. lia. }
  rewrite Hlt, (truediv_positive _ _ Hq). cbn [bind].
  rewrite IH. reflexivity.
Qed.

Lemma report_top_foods_value (meals : list Meal) (limit : Z) :
  NutritionReport._get_top_foods meals limit
  = Ok (map (fun kv =>
               NutritionReport.mk_TopFood (fst kv)
                 (NutritionAnalyzer.count (snd kv))
                 (NutritionAnalyzer.total_calories_of (snd kv)
                  / inject_Z (NutritionAnalyzer.count (snd kv))))
          (slice_to (NutritionAnalyzer.sorted_foods meals) limit)).
Proof.
  unfold NutritionReport._get_top_foods.
  change (@nil (string * NutritionReport.FoodCount))
    with (map report_counter []).
  rewrite report_food_counts.
  rewrite (sorted_reverse_map report_counter
             (fun kv => NutritionAnalyzer.count (snd kv)))
    by reflexivity.
  fold (NutritionAnalyzer.food_counts meals).
  fold (NutritionAnalyzer.sorted_foods meals).
  rewrite (slice_to_map report_counter).
  apply report_entries.
  destruct (slice_to_firstn (NutritionAnalyzer.sorted_foods meals) limit)
    as [k ->].
  apply Forall_firstn, sorted_foods_positive.
Qed.


Example top_foods_ties :
  exists entries,
    NutritionAnalyzer.get_top_foods
      [meal_with [food_item "tea" 2; food_item "rice" 50];
       meal_with [food_item "egg" 70; food_item "rice" 60; food_item "egg" 80]]
      10 = Ok entries /\
    map NutritionAnalyzer.food entries = ["rice"; "egg"; "tea"]%string /\
    map NutritionAnalyzer.tf_count entries = [2; 2; 1]%Z.
Proof. eexists. split; [vm_compute; reflexivity|]. split; reflexivity. Qed.

(** ** Absent fields *)

Lemma fold_left_map_same {A St : Type} (step : St -> A -> St) (g : A -> A)
  (l : list A) :
  (forall acc x, step acc (g x) = step acc x) ->
  forall acc, fold_left step (map g l) acc = fold_left step l acc.
Proof.
  intro H. induction l as [|x l IH]; intro acc; [reflexivity|].
  cbn [map fold_left]. rewrite H. apply IH.
Qed.

Lemma nutrients_explicit_intro (n : option Nutrients) :
  nutrients_explicit (Some (explicit_nutrients n)).
Proof.
  unfold nutrients_explicit, explicit_nutrients, explicit_macros, present.
  eexists. eexists. cbn.
  repeat split; try reflexivity; discriminate.
Qed.

Lemma explicit_defaults_explicit (meal : Meal) :
  fully_explicit (explicit_defaults meal).
Proof.
  unfold fully_explicit, explicit_defaults, explicit_analysis.
  eexists. eexists. cbn.
  split; [reflexivity|]. split; [apply nutrients_explicit_intro|].
  split; [reflexivity|].
  apply Forall_map. apply Forall_forall. intros item _.
  apply nutrients_explicit_intro.
Qed.

Lemma count_meal_explicit (d : dict NutritionAnalyzer.FoodCount) (meal : Meal) :
  NutritionAnalyzer.count_meal d (explicit_defaults meal)
  = NutritionAnalyzer.count_meal d meal.
Proof.
  unfold NutritionAnalyzer.count_meal. cbn.
  apply fold_left_map_same. intros acc item. reflexivity.
Qed.

(** C7.  The totals of the report and the top foods of the analyzer are the
    same on a list of meals and on the list with every absent
    [analysisData], [totals], [macros], [nutrition] and numeric leaf written
    out as zeros and every absent [composition] as the empty list; the top
    foods are returned (nothing raises), and a meal without [analysisData]
    leaves the totals and the food counters as they are. *)
Theorem C7_absent_fields_default (meals : list Meal) (limit : Z) :
  Forall fully_explicit (map explicit_defaults meals) /\
  NutritionReport._calculate_totals (map explicit_defaults meals)
  = NutritionReport._calculate_totals meals /\
  NutritionAnalyzer.get_top_foods (map explicit_defaults meals) limit
  = NutritionAnalyzer.get_top_foods meals limit /\
  (exists entries, NutritionAnalyzer.get_top_foods meals limit = Ok entries) /\
  (forall meal acc d,
     analysisData meal = None ->
     NutritionReport.t_calories (NutritionReport._calculate_totals_step acc meal)
     == NutritionReport.t_calories acc /\
     NutritionReport.t_protein (NutritionReport._calculate_totals_step acc meal)
     == NutritionReport.t_protein acc /\
     NutritionReport.t_carbs (NutritionReport._calculate_totals_step acc meal)
     == NutritionReport.t_carbs acc /\
     NutritionReport.t_fat (NutritionReport._calculate_totals_step acc meal)
     == NutritionReport.t_fat acc /\
     NutritionReport.t_fiber (NutritionReport._calculate_totals_step acc meal)
     == NutritionReport.t_fiber acc /\
     NutritionAnalyzer.count_meal d meal = d).
Proof.
  split.
  { apply Forall_map. apply Forall_forall. intros m _.
    apply explicit_defaults_explicit. }
  split.
  { unfold NutritionReport._calculate_totals. apply fold_left_map_same.
    intros acc m. reflexivity. }
  split.
  { unfold NutritionAnalyzer.get_top_foods, NutritionAnalyzer.sorted_foods,
      NutritionAnalyzer.food_counts.
    rewrite (fold_left_map_same NutritionAnalyzer.count_meal explicit_defaults
               meals count_meal_explicit).
    reflexivity. }
  split.
  { eexists. apply get_top_foods_value. }
  intros meal acc d Hnone.
  unfold NutritionReport._calculate_totals_step, NutritionAnalyzer.count_meal.
  rewrite Hnone. cbn. repeat split; ring.
Qed.

(** A meal that holds nothing at all. *)
Lemma C7_absent_fields_default_witness :
  NutritionAnalyzer.count_meal [] (mk_Meal None None None None None None None) = [] /\
  NutritionReport.t_calories
    (NutritionReport._calculate_totals_step
       (NutritionReport.mk_ReportTotals 1 2 3 4 5)
       (mk_Meal None None None None None None None)) == 1.
Proof.
  destruct (C7_absent_fields_default [] 10) as (_ & _ & _ & _ & H).
  destruct (H (mk_Meal None None None None None None None)
              (NutritionReport.mk_ReportTotals 1 2 3 4 5) [] eq_refl)
    as (Hc & _ & _ & _ & _ & Hd).
  split; [exact Hd | exact Hc].
Defined.

(** ** The daily averages of the export (data_export.py) *)

Lemma set_add_In (d d' : Z * Z * Z) (dates : list (Z * Z * Z)) :
  In d' (DataExport.set_add d dates) <-> d' = d \/ In d' dates.
Proof.
  induction dates as [|e dates IH]; cbn.
  - intuition congruence.
  - destruct (DataExport.date_eq_dec d e) as [->|Hne]; cbn.
    + intuition congruence.
    + rewrite IH. intuition congruence.
Qed.

Lemma set_add_NoDup (d : Z * Z * Z) (dates : list (Z * Z * Z)) :
  NoDup dates -> NoDup (DataExport.set_add d dates).
Proof.
  induction 1 as [|e dates He Hnd IH]; cbn.
  - repeat constructor. intros [].
  - destruct (DataExport.date_eq_dec d e) as [->|Hne].
    + constructor; assumption.
    + constructor; [|exact IH].
      rewrite set_add_In. intros [->|H]; [congruence | contradiction].
Qed.

Lemma collect_dates_from (meals : list Meal) :
  Forall timestamp_parses meals ->
  forall dates0, NoDup dates0 ->
  exists dates,
    for_each
      (fun dates meal =>
         dt <- consumed_at meal ;; Ok (DataExport.set_add (date dt) dates))
      meals dates0 = Ok dates /\
    NoDup dates /\
    (forall d, In d dates <-> In d dates0 \/ exists m, In m meals /\ eaten_on d m).
Proof.
  induction 1 as [|m meals [dt Hdt] _ IH]; intros dates0 Hnd.
  - exists dates0. split; [reflexivity|]. split; [exact Hnd|].
    intro d. split; [auto|]. intros [H|(m & [] & _)]. exact H.
  - cbn [for_each]. rewrite Hdt. cbn [bind].
    destruct (IH (DataExport.set_add (date dt) dates0)
                 (set_add_NoDup (date dt) dates0 Hnd))
      as (dates & Hrun & Hnd' & Hin).
    exists dates. split; [exact Hrun|]. split; [exact Hnd'|].
    intro d. rewrite Hin, set_add_In. split.
    + intros [[->|H]|(m' & Hm' & He)].
      * right. exists m. split; [left; reflexivity|]. exists dt. auto.
      * left. exact H.
      * right. exists m'. split; [right; exact Hm' | exact He].
    + intros [H|(m' & [<-|Hm'] & He)].
      * left. right. exact H.
      * destruct He as (dt' & Hdt' & <-). left. left.
        rewrite Hdt in Hdt'. inversion Hdt'. reflexivity.
      * right. exists m'. auto.
Qed.

Lemma accumulated_sums (meals : list Meal) (acc : DataExport.Totals) :
  let r := fold_left DataExport.sum_step meals acc in
  DataExport.calories r == DataExport.calories acc + Qsum (map meal_calories meals) /\
  DataExport.protein r == DataExport.protein acc + Qsum (map (meal_macro protein_g) meals) /\
  DataExport.carbs r == DataExport.carbs acc + Qsum (map (meal_macro carbs_g) meals) /\
  DataExport.fat r == DataExport.fat acc + Qsum (map (meal_macro fat_g) meals) /\
  DataExport.fiber r == DataExport.fiber acc + Qsum (map (meal_macro fiber_g) meals) /\
  DataExport.sugar r == DataExport.sugar acc + Qsum (map (meal_macro sugar_g) meals).
Proof.
  revert acc. induction meals as [|m meals IH]; intro acc; cbn [fold_left map].
  - cbv zeta. unfold Qsum. cbn. repeat split; ring.
  - specialize (IH (DataExport.sum_step acc m)). cbv zeta in *.
    destruct IH as (H1 & H2 & H3 & H4 & H5 & H6).
    rewrite H1, H2, H3, H4, H5, H6, !Qsum_cons.
    unfold DataExport.sum_step, meal_calories, meal_macro. cbn.
    repeat split; ring.
Qed.




Example daily_averages_empty :
  DataExport._calculate_daily_averages [] = Ok None.
Proof. reflexivity. Qed.

(** ** The meal tracker (meal_tracker.py) *)

(** C9.  [add_meal] followed by [delete_last_meal] leaves the tracker with
    the sequence of meals it started with, whatever the new meal and the
    readings of the clock, and whether or not the writes went through; when
    the last write goes through, the data file holds that sequence.  Run as
    two commands, [add] then [delete-last], the data file ends with the
    sequence it started with (the empty one when there was no file). *)
Theorem C9_add_then_delete_last_restores
  (self : MealTracker.MealTrackerCLI) (data_file : option (list Meal))
  (clock : MealTracker.Clock) (written written' : bool)
  (meal_type : string) (calories protein carbs fat : Q) (notes : string) :
  MealTracker.meals
    (MealTracker.delete_last_meal written'
       (MealTracker.add_meal clock written meal_type calories protein carbs
          fat notes self))
  = MealTracker.meals self /\
  MealTracker.meals
    (MealTracker.add_meal clock written meal_type calories protein carbs
       fat notes self)
  = MealTracker.new_meal clock meal_type calories protein carbs fat notes
    :: MealTracker.meals self /\
  MealTracker.file
    (MealTracker.delete_last_meal true
       (MealTracker.add_meal clock written meal_type calories protein carbs
          fat notes self))
  = Some (MealTracker.meals self) /\
  MealTracker.run_delete_last true
    (MealTracker.run_add clock true meal_type calories protein carbs fat
       notes data_file)
  = Some (get data_file []).
Proof.
  unfold MealTracker.run_delete_last, MealTracker.run_add,
    MealTracker.delete_last_meal, MealTracker.add_meal,
    MealTracker.save_data, MealTracker.load_data.
  destruct written, written'; cbn; repeat split; reflexivity.
Qed.

(** ** The statements at concrete inputs *)




Example totals_of_two_meals :
  let t := NutritionReport._calculate_totals
             [meal_of 500 30 50 15; meal_of 650 35 60 25] in
  NutritionReport.t_calories t == 1150 /\ NutritionReport.t_protein t == 65 /\
  NutritionReport.t_carbs t == 110 /\ NutritionReport.t_fat t == 40.
Proof. cbv zeta. repeat split; vm_compute; reflexivity. Qed.

Example group_by_day_example :
  NutritionReport._group_by_day
    [meal_on "2024-01-01T08:00:00Z" 500; meal_on "2024-01-01T19:30:00Z" 700;
     meal_on "2024-01-02T08:00:00Z" 650]
  = Ok [("2024-01-01"%string, NutritionReport.mk_DayData 2 (0 + 500 + 700) (0 + 0 + 0) (0 + 0 + 0) (0 + 0 + 0));
        ("2024-01-02"%string, NutritionReport.mk_DayData 1 (0 + 650) (0 + 0) (0 + 0) (0 + 0))].
Proof. vm_compute. reflexivity. Qed.

Example group_by_day_bad_stamp :
  NutritionReport._group_by_day [meal_on "yesterday" 500] = Raise ValueError.
Proof. reflexivity. Qed.
Example fromisoformat_utc :
  fromisoformat (replace_Z "2024-01-03T00:00:01Z")
  = Ok (mk_datetime 2024 1 3 0 0 1 0 (Some 0%Z)).
Proof. reflexivity. Qed.

Example fromisoformat_naive :
  fromisoformat (replace_Z "2024-01-03T08:30:00.250")
  = Ok (mk_datetime 2024 1 3 8 30 0 250000 None).
Proof. reflexivity. Qed.

Example fromisoformat_empty : fromisoformat (replace_Z "") = Raise ValueError.
Proof. reflexivity. Qed.

Example strftime_example :
  strftime_ymd (mk_datetime 2024 1 3 8 30 0 0 None) = "2024-01-03"%string.
Proof. reflexivity. Qed.


(** * Further properties of the scripts *)

(** ** Grouping by a key *)

Section GroupBy.

Variables A V : Type.
Variable key : A -> string.
Variable upd : A -> V -> V.
Variable dflt : V.

Lemma unseen_key (d : dict V) (seen : list A) (k : string) :
  (forall x, In x seen -> In (key x) (map fst d)) ->
  ~ In k (map fst d) ->
  filter (keyed key k) seen = [].
Proof.
  intros Hkeys Hk. induction seen as [|x seen IH]; [reflexivity|].
  cbn [filter]. destruct (keyed key k x) eqn:E.
  - exfalso. apply Hk. unfold keyed in E. apply String.eqb_eq in E.
    rewrite <- E. apply Hkeys. left. reflexivity.
  - apply IH. intros y Hy. apply Hkeys. right. exact Hy.
Qed.

Lemma group_value_snoc (seen : list A) (x : A) (l : string) :
  group_value key upd dflt (seen ++ [x]) l
  = if keyed key l x then upd x (group_value key upd dflt seen l)
    else group_value key upd dflt seen l.
Proof.
  unfold group_value. rewrite filter_snoc.
  destruct (keyed key l x).
  - rewrite fold_left_app. reflexivity.
  - rewrite app_nil_r. reflexivity.
Qed.

Lemma grouped_step (d : dict V) (seen : list A) (x : A) :
  grouped key upd dflt d seen ->
  grouped key upd dflt (dict_update (key x) (upd x) dflt d) (seen ++ [x]).
Proof.
  intros (Hnd & Hkeys & Hent).
  split; [apply dict_update_NoDup; exact Hnd|]. split.
  - intros y Hy. rewrite dict_update_keys. apply in_app_or in Hy.
    destruct (existsb (String.eqb (key x)) (map fst d)) eqn:E.
    + destruct Hy as [Hy|[<-|[]]]; [apply Hkeys; exact Hy|].
      apply existsb_eqb_In. exact E.
    + apply in_or_app. destruct Hy as [Hy|[<-|[]]].
      * left. apply Hkeys. exact Hy.
      * right. left. reflexivity.
  - intros l v Hin. rewrite group_value_snoc, filter_snoc.
    apply dict_update_In in Hin; [|exact Hnd].
    destruct Hin as [[Hne Hin]|[[-> (v0 & Hin & ->)]|[-> [Hnin ->]]]].
    + destruct (Hent l v Hin) as [Hv Hnon].
      assert (E : keyed key l x = false).
      { unfold keyed. apply String.eqb_neq. congruence. }
      rewrite E, app_nil_r. split; assumption.
    + destruct (Hent _ v0 Hin) as [Hv Hnon].
      unfold keyed at 1 3. rewrite String.eqb_refl. split.
      * rewrite <- Hv. reflexivity.
      * intro H. apply app_eq_nil in H. destruct H as [_ H]. discriminate.
    + unfold keyed at 1 3. rewrite String.eqb_refl. split.
      * unfold group_value. rewrite (unseen_key d seen (key x) Hkeys Hnin).
        reflexivity.
      * intro H. apply app_eq_nil in H. destruct H as [_ H]. discriminate.
Qed.

Lemma grouped_fold (xs : list A) :
  forall (d : dict V) (seen : list A),
  grouped key upd dflt d seen ->
  grouped key upd dflt
    (fold_left (fun d x => dict_update (key x) (upd x) dflt d) xs d)
    (seen ++ xs).
Proof.
  induction xs as [|x xs IH]; intros d seen Hg; cbn [fold_left].
  - rewrite app_nil_r. exact Hg.
  - replace (seen ++ x :: xs) with ((seen ++ [x]) ++ xs)
      by (rewrite <- app_assoc; reflexivity).
    apply IH, grouped_step, Hg.
Qed.

Lemma grouped_from_empty (xs : list A) :
  grouped key upd dflt
    (fold_left (fun d x => dict_update (key x) (upd x) dflt d) xs []) xs.
Proof.
  apply (grouped_fold xs [] []).
  split; [constructor|]. split; [intros ? []|intros ? ? []].
Qed.

Lemma group_keys_from (xs : list A) :
  forall d : dict V,
  map fst (fold_left (fun d x => dict_update (key x) (upd x) dflt d) xs d)
  = map fst d
    ++ filter (fun l => negb (existsb (String.eqb l) (map fst d)))
         (first_seen (map key xs)).
Proof.
  induction xs as [|x xs IH]; intro d.
  - cbn. rewrite app_nil_r. reflexivity.
  - cbn [fold_left map first_seen filter]. rewrite IH, dict_update_keys.
    destruct (existsb (String.eqb (key x)) (map fst d)) eqn:E; cbn [negb].
    + f_equal. rewrite filter_filter_and. apply filter_ext_in.
      intros y _. destruct (String.eqb y (key x)) eqn:Ey; [|reflexivity].
      apply String.eqb_eq in Ey. subst y. rewrite E. reflexivity.
    + rewrite <- app_assoc. cbn [app]. do 2 f_equal.
      rewrite filter_filter_and. apply filter_ext.
      intro y. rewrite existsb_app. cbn [existsb].
      rewrite orb_false_r, negb_orb, andb_comm. reflexivity.
Qed.

Lemma group_keys (xs : list A) :
  map fst (fold_left (fun d x => dict_update (key x) (upd x) dflt d) xs [])
  = first_seen (map key xs).
Proof.
  rewrite group_keys_from. cbn [map app existsb negb].
  induction (first_seen (map key xs)) as [|y l IH]; [reflexivity|].
  cbn [filter]. rewrite IH. reflexivity.
Qed.

End GroupBy.

(** ** The meal type counters *)

Lemma count_fold {A : Type} (xs : list A) (a : Z) :
  fold_left (fun (v : Z) (_ : A) => (v + 1)%Z) xs a
  = (a + Z.of_nat (List.length xs))%Z.
Proof.
  revert a. induction xs as [|x xs IH]; intro a; cbn [fold_left List.length].
  - lia.
  - rewrite IH. lia.
Qed.

Lemma meal_frequency_sum (meals : list Meal) (d : dict Z) :
  Zsum (map snd
          (fold_left
             (fun frequency meal =>
                dict_update (get (mealType meal) "unknown"%string)
                  (fun n => (n + 1)%Z) 0%Z frequency) meals d))
  = (Zsum (map snd d) + Z.of_nat (List.length meals))%Z.
Proof.
  revert d. induction meals as [|m meals IH]; intro d.
  - cbn [fold_left List.length Z.of_nat]. lia.
  - cbn [fold_left]. rewrite IH.
    rewrite (dict_update_Zsum Z (fun n => (n + 1)%Z) 0%Z (fun n => n) 1%Z);
      [| intro v; reflexivity | reflexivity].
    change (map (fun kv : string * Z => snd kv) d) with (map snd d).
    cbn [List.length]. lia.
Qed.

(** X1.  [get_meal_frequency] holds one counter for each meal type among the
    meals (a meal without a type counts as "unknown"), in the order the
    types are first met; each counter is the number of meals of its type, at
    least 1, and the counters add up to the number of meals.  The export's
    [_count_meal_types] returns the same dictionary. *)
Theorem X1_meal_frequency_counts (meals : list Meal) :
  let frequency := NutritionAnalyzer.get_meal_frequency meals in
  map fst frequency = first_seen (map meal_type_of meals) /\
  NoDup (map fst frequency) /\
  (forall t n, In (t, n) frequency ->
     n = Z.of_nat (List.length (filter (keyed meal_type_of t) meals)) /\
     (1 <= n)%Z) /\
  Zsum (map snd frequency) = Z.of_nat (List.length meals) /\
  DataExport._count_meal_types meals = frequency.
Proof.
  intro frequency.
  pose proof (grouped_from_empty Meal Z meal_type_of
                (fun _ n => (n + 1)%Z) 0%Z meals) as (Hnd & _ & Hent).
  split; [apply (group_keys Meal Z meal_type_of (fun _ n => (n + 1)%Z))|].
  split; [exact Hnd|]. split.
  - intros t n Hin. destruct (Hent t n Hin) as [Hv Hnon].
    unfold group_value in Hv. rewrite count_fold in Hv. split; [lia|].
    destruct (filter (keyed meal_type_of t) meals); [contradiction|].
    cbn [List.length] in Hv. lia.
  - split; [|reflexivity].
    apply (meal_frequency_sum meals []).
Qed.

(** ** The days of [_group_by_day] *)

Lemma group_by_day_as_fold (meals : list Meal) :
  Forall timestamp_parses meals ->
  forall d,
  for_each NutritionReport._group_by_day_step meals d
  = Ok (fold_left
          (fun d m => dict_update (day_of m) (day_update m)
                        NutritionReport.day_default d) meals d).
Proof.
  induction 1 as [|m meals [dt Hdt] _ IH]; intro d; [reflexivity|].
  cbn [for_each fold_left]. unfold NutritionReport._group_by_day_step at 1.
  unfold day_of at 2. rewrite Hdt. cbn [bind]. apply IH.
Qed.

Lemma day_fold (ms : list Meal) (v0 : NutritionReport.DayData) :
  let v := fold_left (fun v m => day_update m v) ms v0 in
  NutritionReport.count v
  = (NutritionReport.count v0 + Z.of_nat (List.length ms))%Z /\
  NutritionReport.calories v
  == NutritionReport.calories v0 + Qsum (map meal_calories ms) /\
  NutritionReport.protein v
  == NutritionReport.protein v0 + Qsum (map (meal_macro protein_g) ms) /\
  NutritionReport.carbs v
  == NutritionReport.carbs v0 + Qsum (map (meal_macro carbs_g) ms) /\
  NutritionReport.fat v
  == NutritionReport.fat v0 + Qsum (map (meal_macro fat_g) ms).
Proof.
  revert v0. induction ms as [|m ms IH]; intro v0; cbn [fold_left map].
  - cbv zeta. unfold Qsum. cbn. repeat split; first [ring | lia].
  - specialize (IH (day_update m v0)). cbv zeta in *.
    destruct IH as (H0 & H1 & H2 & H3 & H4).
    rewrite H0, H1, H2, H3, H4, !Qsum_cons. unfold day_update.
    cbn [NutritionReport.count NutritionReport.calories
         NutritionReport.protein NutritionReport.carbs NutritionReport.fat
         List.length].
    repeat split; first [ring | lia].
Qed.

(** X2.  When every timestamp parses, [_group_by_day] returns one entry for
    each calendar date among the meals, in the order the dates are first
    met; the entry of a date holds the number of meals of that date, at
    least 1, and the sums of their calories, protein, carbohydrates and
    fat. *)
Theorem X2_group_by_day_groups_by_date (meals : list Meal) :
  Forall timestamp_parses meals ->
  exists daily,
    NutritionReport._group_by_day meals = Ok daily /\
    map fst daily = first_seen (map day_of meals) /\
    NoDup (map fst daily) /\
    forall date data, In (date, data) daily ->
      let of_day := filter (keyed day_of date) meals in
      NutritionReport.count data = Z.of_nat (List.length of_day) /\
      (1 <= NutritionReport.count data)%Z /\
      NutritionReport.calories data == Qsum (map meal_calories of_day) /\
      NutritionReport.protein data == Qsum (map (meal_macro protein_g) of_day) /\
      NutritionReport.carbs data == Qsum (map (meal_macro carbs_g) of_day) /\
      NutritionReport.fat data == Qsum (map (meal_macro fat_g) of_day).
Proof.
  intro Hall. eexists.
  split; [apply (group_by_day_as_fold meals Hall [])|].
  pose proof (grouped_from_empty Meal NutritionReport.DayData day_of
                day_update NutritionReport.day_default meals)
    as (Hnd & _ & Hent).
  split; [apply group_keys|]. split; [exact Hnd|].
  intros date data Hin of_day. destruct (Hent date data Hin) as [Hv Hnon].
  fold of_day in Hnon. unfold group_value in Hv. fold of_day in Hv.
  pose proof (day_fold of_day NutritionReport.day_default) as H.
  cbv zeta in H. rewrite <- Hv in H.
  cbn [NutritionReport.day_default NutritionReport.count
       NutritionReport.calories NutritionReport.protein NutritionReport.carbs
       NutritionReport.fat] in H.
  destruct H as (H0 & H1 & H2 & H3 & H4).
  split; [lia|]. split.
  - destruct of_day; [contradiction|]. cbn [List.length] in H0. lia.
  - rewrite H1, H2, H3, H4. repeat split; ring.
Qed.

(** Two meals on one day and one on the next. *)
Lemma X2_group_by_day_groups_by_date_witness :
  exists daily,
    NutritionReport._group_by_day
      [meal_on "2024-01-01T08:00:00Z" 500; meal_on "2024-01-02T08:00:00Z" 650;
       meal_on "2024-01-01T19:30:00Z" 700] = Ok daily /\
    map fst daily = ["2024-01-01"; "2024-01-02"]%string.
Proof.
  destruct (X2_group_by_day_groups_by_date
              [meal_on "2024-01-01T08:00:00Z" 500;
               meal_on "2024-01-02T08:00:00Z" 650;
               meal_on "2024-01-01T19:30:00Z" 700])
    as (daily & Hrun & Hkeys & _).
  - repeat constructor; eexists; vm_compute; reflexivity.
  - exists daily. split; [exact Hrun|]. rewrite Hkeys. vm_compute. reflexivity.
Defined.

(** ** The recency filter returns or raises *)

(** X3.  The recency filter of the weekly report, of [get_daily_averages]
    and of [list_meals] returns exactly when every meal of the list, old or
    recent, has a timestamp that parses to a naive value; one meal without a
    timestamp, with an unreadable one or with one that carries an offset
    makes it raise.  When it returns, it returns the meals strictly after
    the cutoff, in their order. *)
Theorem X3_recent_returns_iff_all_naive (cutoff : Z) (meals : list Meal) :
  ((exists kept, recent cutoff meals = Ok kept) <->
   Forall timestamp_naive meals) /\
  (forall kept, recent cutoff meals = Ok kept ->
     kept = filter (strictly_after cutoff) meals).
Proof.
  assert (Hback : forall kept, recent cutoff meals = Ok kept ->
                               Forall timestamp_naive meals).
  { induction meals as [|m meals IH]; intros kept H; [constructor|].
    unfold recent in *. cbn [comprehension_if] in H.
    destruct (consumed_at m) as [dt|e] eqn:Hdt; [|discriminate].
    cbn [bind] in H. unfold gt_naive in H at 1.
    destruct (tzinfo dt) as [off|] eqn:Htz; [discriminate|].
    cbn [bind] in H.
    destruct (comprehension_if
                (fun meal => dt0 <- consumed_at meal ;; gt_naive dt0 cutoff)
                meals) as [rest|e] eqn:Hrest; [|discriminate].
    constructor; [exists dt; auto | apply (IH rest); reflexivity]. }
  split; [split|].
  - intros [kept H]. exact (Hback kept H).
  - intro Hall. eexists. apply recent_naive, Hall.
  - intros kept H. pose proof (recent_naive cutoff meals (Hback kept H)) as H'.
    congruence.
Qed.

(** ** The three scripts add up the same numbers *)

Lemma sums_agree_from (meals : list Meal) :
  forall (r : NutritionReport.ReportTotals) (a : NutritionAnalyzer.MacroSums)
         (e : DataExport.Totals),
  NutritionReport.t_calories r = NutritionAnalyzer.total_calories a ->
  NutritionReport.t_protein r = NutritionAnalyzer.total_protein a ->
  NutritionReport.t_carbs r = NutritionAnalyzer.total_carbs a ->
  NutritionReport.t_fat r = NutritionAnalyzer.total_fat a ->
  NutritionReport.t_calories r = DataExport.calories e ->
  NutritionReport.t_protein r = DataExport.protein e ->
  NutritionReport.t_carbs r = DataExport.carbs e ->
  NutritionReport.t_fat r = DataExport.fat e ->
  NutritionReport.t_fiber r = DataExport.fiber e ->
  let r' := fold_left NutritionReport._calculate_totals_step meals r in
  let a' := fold_left NutritionAnalyzer.sum_step meals a in
  let e' := fold_left DataExport.sum_step meals e in
  NutritionReport.t_calories r' = NutritionAnalyzer.total_calories a' /\
  NutritionReport.t_protein r' = NutritionAnalyzer.total_protein a' /\
  NutritionReport.t_carbs r' = NutritionAnalyzer.total_carbs a' /\
  NutritionReport.t_fat r' = NutritionAnalyzer.total_fat a' /\
  NutritionReport.t_calories r' = DataExport.calories e' /\
  NutritionReport.t_protein r' = DataExport.protein e' /\
  NutritionReport.t_carbs r' = DataExport.carbs e' /\
  NutritionReport.t_fat r' = DataExport.fat e' /\
  NutritionReport.t_fiber r' = DataExport.fiber e'.
Proof.
  induction meals as [|m meals IH]; intros r a e H1 H2 H3 H4 H5 H6 H7 H8 H9.
  - cbn. repeat split; assumption.
  - cbn [fold_left]. apply IH;
      unfold NutritionReport._calculate_totals_step,
        NutritionAnalyzer.sum_step, DataExport.sum_step; cbn;
      congruence.
Qed.

(** X4.  The report, the analyzer and the export add up the same numbers:
    over one list of meals the calories, protein, carbohydrates and fat of
    [_calculate_totals] (report), of the loop of [analyze_macros] and of
    [_calculate_totals] (export, before it rounds) are equal, as is the
    fibre of the report and the export; the export returns these sums
    rounded to 2 places. *)
Theorem X4_scripts_agree_on_totals (meals : list Meal) :
  let r := NutritionReport._calculate_totals meals in
  let a := NutritionAnalyzer.macro_sums meals in
  let e := DataExport.accumulated meals in
  (NutritionReport.t_calories r = NutritionAnalyzer.total_calories a /\
   NutritionReport.t_protein r = NutritionAnalyzer.total_protein a /\
   NutritionReport.t_carbs r = NutritionAnalyzer.total_carbs a /\
   NutritionReport.t_fat r = NutritionAnalyzer.total_fat a) /\
  (NutritionReport.t_calories r = DataExport.calories e /\
   NutritionReport.t_protein r = DataExport.protein e /\
   NutritionReport.t_carbs r = DataExport.carbs e /\
   NutritionReport.t_fat r = DataExport.fat e /\
   NutritionReport.t_fiber r = DataExport.fiber e) /\
  DataExport._calculate_totals meals
  = Ok (DataExport.mk_Totals
          (round2 (NutritionReport.t_calories r))
          (round2 (NutritionReport.t_protein r))
          (round2 (NutritionReport.t_carbs r))
          (round2 (NutritionReport.t_fat r))
          (round2 (NutritionReport.t_fiber r))
          (round2 (DataExport.sugar e))).
Proof.
  intros r a e.
  destruct (sums_agree_from meals
              (NutritionReport.mk_ReportTotals 0 0 0 0 0)
              (NutritionAnalyzer.mk_MacroSums 0 0 0 0)
              (DataExport.mk_Totals 0 0 0 0 0 0)
              eq_refl eq_refl eq_refl eq_refl eq_refl eq_refl eq_refl
              eq_refl eq_refl)
    as (H1 & H2 & H3 & H4 & H5 & H6 & H7 & H8 & H9).
  fold (NutritionReport._calculate_totals meals) in *.
  fold (NutritionAnalyzer.macro_sums meals) in *.
  fold (DataExport.accumulated meals) in *.
  fold r in H1, H2, H3, H4, H5, H6, H7, H8, H9. fold a in H1, H2, H3, H4.
  fold e in H5, H6, H7, H8, H9.
  split; [repeat split; assumption|]. split; [repeat split; assumption|].
  unfold DataExport._calculate_totals, DataExport.map_values. cbn [bind].
  fold e. rewrite H5, H6, H7, H8, H9. reflexivity.
Qed.

(** ** Rounding to 2 places *)

Lemma round_error (y : Q) :
  y - (1 # 2) <= inject_Z (round y) /\ inject_Z (round y) <= y + (1 # 2).
Proof.
  unfold round.
  pose proof (Qfloor_le y) as Hlo. pose proof (Qlt_floor y) as Hhi.
  rewrite inject_Z_plus in Hhi. change (inject_Z 1) with 1 in Hhi.
  set (f := Qfloor y) in *.
  destruct (y - inject_Z f ?= 1 # 2) eqn:E.
  - apply Qeq_alt in E.
    assert (Hy : y == inject_Z f + (1 # 2)) by (rewrite <- E; ring).
    destruct (Z.even f).
    + split; [rewrite Hy; apply Qle_lteq; right; ring|].
      rewrite Hy. apply Qle_lteq. left.
      rewrite <- (Qplus_0_r (inject_Z f)) at 1. rewrite <- Qplus_assoc.
      apply Qplus_lt_r. reflexivity.
    + rewrite inject_Z_plus. change (inject_Z 1) with 1. split.
      * rewrite Hy. apply Qle_lteq. left.
        setoid_replace (inject_Z f + (1 # 2) - (1 # 2)) with (inject_Z f + 0)
          by ring.
        apply Qplus_lt_r. reflexivity.
      * rewrite Hy. apply Qle_lteq. right. ring.
  - apply Qlt_alt in E. split.
    + apply Qle_lteq. left. apply Qplus_lt_l with (z := 1 # 2).
      setoid_replace (y - (1 # 2) + (1 # 2)) with y by ring.
      apply Qplus_lt_l with (z := - inject_Z f).
      setoid_replace (inject_Z f + (1 # 2) + - inject_Z f) with (1 # 2) by ring.
      exact E.
    + eapply Qle_trans; [exact Hlo|].
      rewrite <- (Qplus_0_r y) at 1. apply Qplus_le_r. discriminate.
  - apply Qgt_alt in E. rewrite inject_Z_plus. change (inject_Z 1) with 1.
    split.
    + eapply Qle_trans; [|apply Qle_lteq; left; exact Hhi].
      apply Qle_minus_iff. setoid_replace (y + - (y - (1 # 2))) with (1 # 2) by ring.
      discriminate.
    + apply Qle_lteq. left.
      apply Qplus_lt_l with (z := - inject_Z f - (1 # 2)).
      setoid_replace (inject_Z f + 1 + (- inject_Z f - (1 # 2))) with (1 # 2)
        by ring.
      setoid_replace (y + (1 # 2) + (- inject_Z f - (1 # 2)))
        with (y - inject_Z f) by ring.
      exact E.
Qed.

Lemma round2_error (x : Q) :
  x - (1 # 200) <= round2 x /\ round2 x <= x + (1 # 200).
Proof.
  destruct (round_error (x * 100)) as [Hlo Hhi]. unfold round2. split.
  - apply Qle_shift_div_l; [reflexivity|].
    eapply Qle_trans; [|exact Hlo]. apply Qle_lteq. right. ring.
  - apply Qle_shift_div_r; [reflexivity|].
    eapply Qle_trans; [exact Hhi|]. apply Qle_lteq. right. ring.
Qed.


(** ** The percentages of [analyze_macros] *)

Lemma macro_sums_each_nonneg (meals : list Meal) (acc : NutritionAnalyzer.MacroSums) :
  Forall macros_nonneg meals ->
  0 <= NutritionAnalyzer.total_protein acc ->
  0 <= NutritionAnalyzer.total_carbs acc ->
  0 <= NutritionAnalyzer.total_fat acc ->
  let s := fold_left NutritionAnalyzer.sum_step meals acc in
  0 <= NutritionAnalyzer.total_protein s /\
  0 <= NutritionAnalyzer.total_carbs s /\
  0 <= NutritionAnalyzer.total_fat s.
Proof.
  intro Hall. revert acc.
  induction Hall as [|m meals (Hp & Hc & Hf) _ IH]; intros acc Ap Ac Af.
  - cbn. auto.
  - cbn [fold_left]. unfold macros_nonneg in Hp, Hc, Hf.
    cbv zeta in Hp, Hc, Hf.
    apply IH; unfold NutritionAnalyzer.sum_step;
      cbn [NutritionAnalyzer.total_protein NutritionAnalyzer.total_carbs
           NutritionAnalyzer.total_fat];
      apply Qplus_nonneg; assumption.
Qed.

Lemma share_bounds (part total : Q) :
  0 < total -> 0 <= part -> part <= total ->
  0 <= part / total * 100 /\ part / total * 100 <= 100.
Proof.
  intros Ht Hp Hle. split.
  - apply Qmult_le_0_compat; [|discriminate].
    apply Qle_shift_div_l; [exact Ht|]. rewrite Qmult_0_l. exact Hp.
  - setoid_replace 100 with (1 * 100) at 2 by ring.
    apply Qmult_le_compat_r; [|discriminate].
    apply Qle_shift_div_r; [exact Ht|]. rewrite Qmult_1_l. exact Hle.
Qed.



(** ** [get_daily_averages] *)

Lemma truediv_zero (a b : Q) : b == 0 -> truediv a b = Raise ZeroDivisionError.
Proof.
  intro Hb. unfold truediv. apply Qeq_eq_bool in Hb. rewrite Hb. reflexivity.
Qed.



(** ** The top foods for two limits *)

(** X8.  The entries [get_top_foods] returns for a limit are the first
    entries of what it returns for any larger limit, and a limit that is not
    below the number of labels returns an entry for every label. *)
Theorem X8_top_foods_prefix (meals : list Meal) (a b : Z) :
  (0 <= a <= b)%Z ->
  exists ea eb,
    NutritionAnalyzer.get_top_foods meals a = Ok ea /\
    NutritionAnalyzer.get_top_foods meals b = Ok eb /\
    ea = firstn (Z.to_nat a) eb /\
    (Z.of_nat (List.length (first_seen (map item_label (all_items meals))))
     <= b ->
     map NutritionAnalyzer.food eb = ranking meals)%Z.
Proof.
  intros [Ha Hab].
  eexists. eexists.
  split; [apply get_top_foods_value|]. split; [apply get_top_foods_value|].
  unfold slice_to.
  destruct (a <? 0)%Z eqn:Ea; [apply Z.ltb_lt in Ea; lia|].
  destruct (b <? 0)%Z eqn:Eb; [apply Z.ltb_lt in Eb; lia|].
  split.
  - rewrite <- firstn_map. rewrite <- firstn_map.
    rewrite firstn_firstn. f_equal. lia.
  - intro Hlen. rewrite map_map. cbn [entry_of NutritionAnalyzer.food].
    unfold ranking. rewrite <- firstn_map. apply firstn_all2.
    rewrite length_map.
    assert (Hl : List.length (NutritionAnalyzer.sorted_foods meals)
                 = List.length (first_seen (map item_label (all_items meals)))).
    { rewrite <- food_count_keys, length_map.
      apply Permutation_length, sorted_foods_perm. }
    lia.
Qed.

(** Three labels, limits 1 and 2. *)
Lemma X8_top_foods_prefix_witness :
  exists ea eb,
    NutritionAnalyzer.get_top_foods
      [meal_with [food_item "tea" 2; food_item "rice" 50; food_item "rice" 60;
                  food_item "egg" 70]] 1 = Ok ea /\
    NutritionAnalyzer.get_top_foods
      [meal_with [food_item "tea" 2; food_item "rice" 50; food_item "rice" 60;
                  food_item "egg" 70]] 2 = Ok eb /\
    ea = firstn 1 eb.
Proof.
  destruct (X8_top_foods_prefix
              [meal_with [food_item "tea" 2; food_item "rice" 50;
                          food_item "rice" 60; food_item "egg" 70]] 1 2)
    as (ea & eb & Ha & Hb & Hpre & _); [lia|].
  exists ea, eb. auto.
Defined.

(** ** The gauge outside 0 to 100 *)

Lemma int_monotone (x y : Q) : x <= y -> (int x <= int y)%Z.
Proof.
  intro Hxy.
  destruct (Qlt_le_dec x 0) as [Hx|Hx]; destruct (Qlt_le_dec y 0) as [Hy|Hy].
  - rewrite (int_nonpos_floor x), (int_nonpos_floor y)
      by (apply Qlt_le_weak; assumption).
    apply Z.opp_le_mono. rewrite !Z.opp_involutive.
    apply Qfloor_resp_le. apply Qopp_le_compat. exact Hxy.
  - rewrite (int_nonpos_floor x) by (apply Qlt_le_weak; assumption).
    rewrite (int_nonneg_floor y Hy).
    assert (0 <= Qfloor (- x))%Z.
    { change 0%Z with (Qfloor 0). apply Qfloor_resp_le.
      apply Qlt_le_weak in Hx. apply Qopp_le_compat in Hx. exact Hx. }
    assert (0 <= Qfloor y)%Z.
    { change 0%Z with (Qfloor 0). apply Qfloor_resp_le. exact Hy. }
    lia.
  - exfalso. apply (Qlt_irrefl 0).
    eapply Qle_lt_trans; [exact Hx|]. eapply Qle_lt_trans; [exact Hxy|exact Hy].
  - rewrite (int_nonneg_floor x Hx), (int_nonneg_floor y Hy).
    apply Qfloor_resp_le. exact Hxy.
Qed.

(** X9.  For a width that is not negative the gauge is never narrower than
    the width, and no percentage is clamped: above 100 percent it consists
    of filled characters only, at least [width] of them, and below 0 percent
    of unfilled characters only, at least [width] of them.  The number of
    filled characters never decreases when the percentage grows. *)
Theorem X9_create_bar_out_of_range (percentage : Q) (width : Z) :
  (0 <= width)%Z ->
  let bar := NutritionReport._create_bar percentage width in
  (width <= Z.of_nat (List.length bar))%Z /\
  (100 <= percentage ->
   exists n, bar = repeat NutritionReport.FULL_BLOCK n /\ (width <= Z.of_nat n)%Z) /\
  (percentage <= 0 ->
   exists n, bar = repeat NutritionReport.LIGHT_SHADE n /\ (width <= Z.of_nat n)%Z) /\
  (forall larger, percentage <= larger ->
     (filled_glyphs bar
      <= filled_glyphs (NutritionReport._create_bar larger width))%nat).
Proof.
  intros Hw bar.
  assert (Hw' : 0 <= inject_Z width).
  { change 0 with (inject_Z 0). rewrite <- Zle_Qle. exact Hw. }
  set (k := int (percentage / 100 * inject_Z width)).
  assert (Hbar : bar = repeat NutritionReport.FULL_BLOCK (Z.to_nat k)
                       ++ repeat NutritionReport.LIGHT_SHADE (Z.to_nat (width - k)))
    by reflexivity.
  assert (Hfilled : forall p, filled_glyphs (NutritionReport._create_bar p width)
                              = Z.to_nat (int (p / 100 * inject_Z width))).
  { intro p. unfold NutritionReport._create_bar, repeat_char, filled_glyphs.
    rewrite count_occ_app, count_occ_repeat_same.
    rewrite count_occ_repeat_other; [lia | discriminate]. }
  assert (Hiw : int (inject_Z width) = width).
  { rewrite (int_nonneg_floor _ Hw'). apply Qfloor_Z. }
  split; [|split; [|split]].
  - rewrite Hbar, length_app, !repeat_length. lia.
  - intro Hp. exists (Z.to_nat k).
    assert (Hk : (width <= k)%Z).
    { rewrite <- Hiw at 1. apply int_monotone.
      rewrite <- (Qmult_1_l (inject_Z width)) at 1.
      apply Qmult_le_compat_r; [|exact Hw'].
      apply Qle_shift_div_l; [reflexivity|]. rewrite Qmult_1_l. exact Hp. }
    split; [|lia]. rewrite Hbar.
    replace (Z.to_nat (width - k)) with 0%nat by lia.
    cbn [repeat]. apply app_nil_r.
  - intro Hp. exists (Z.to_nat (width - k)).
    assert (Hk : (k <= 0)%Z).
    { change 0%Z with (int 0). apply int_monotone.
      setoid_replace 0 with (0 * inject_Z width) by ring.
      apply Qmult_le_compat_r; [|exact Hw'].
      apply Qle_shift_div_r; [reflexivity|]. rewrite Qmult_0_l. exact Hp. }
    split; [|lia]. rewrite Hbar.
    replace (Z.to_nat k) with 0%nat by lia. reflexivity.
  - intros larger Hle. unfold bar. rewrite !Hfilled.
    assert (Hm : (int (percentage / 100 * inject_Z width)
                  <= int (larger / 100 * inject_Z width))%Z).
    { apply int_monotone. apply Qmult_le_compat_r; [|exact Hw'].
      unfold Qdiv. apply Qmult_le_compat_r; [exact Hle | discriminate]. }
    lia.
Qed.

(** 150 percent of 40 columns. *)
Lemma X9_create_bar_out_of_range_witness :
  (40 <= Z.of_nat (List.length (NutritionReport._create_bar 150 40)))%Z /\
  exists n, NutritionReport._create_bar 150 40
            = repeat NutritionReport.FULL_BLOCK n /\ (40 <= Z.of_nat n)%Z.
Proof.
  destruct (X9_create_bar_out_of_range 150 40) as (Hlen & Hover & _); [lia|].
  split; [exact Hlen|]. apply Hover. unfold Qle; simpl; lia.
Defined.

(** ** The tracker as a stack *)

Lemma add_all_meals (adds : list Addition) :
  forall self,
  MealTracker.meals (add_all adds self)
  = rev (map added_meal adds) ++ MealTracker.meals self.
Proof.
  induction adds as [|a adds IH]; intro self; [reflexivity|].
  unfold add_all in *. cbn [fold_left map rev]. rewrite IH.
  rewrite <- app_assoc. cbn [app]. f_equal.
  unfold MealTracker.add_meal, MealTracker.save_data.
  destruct (add_written a); reflexivity.
Qed.

Lemma delete_times_meals (writes : list bool) :
  forall self,
  MealTracker.meals (delete_times writes self)
  = skipn (List.length writes) (MealTracker.meals self).
Proof.
  induction writes as [|w writes IH]; intro self; [reflexivity|].
  unfold delete_times in *. cbn [fold_left List.length]. rewrite IH.
  unfold MealTracker.delete_last_meal, MealTracker.save_data.
  destruct (MealTracker.meals self) as [|m ms] eqn:E.
  - rewrite E. destruct (List.length writes); reflexivity.
  - destruct w; reflexivity.
Qed.

(** X10.  The tracker is a stack: after any calls of [add_meal] the list
    holds the new meals, the last added first, before the old ones; [k]
    calls of [delete_last_meal] drop the first [k] meals (all of them when
    there are fewer); so as many deletions as additions leave the list the
    tracker started with, whether or not the writes went through. *)
Theorem X10_tracker_is_a_stack (adds : list Addition) (writes : list bool)
  (self : MealTracker.MealTrackerCLI) :
  MealTracker.meals (add_all adds self)
  = rev (map added_meal adds) ++ MealTracker.meals self /\
  MealTracker.meals (delete_times writes self)
  = skipn (List.length writes) (MealTracker.meals self) /\
  (List.length writes = List.length adds ->
   MealTracker.meals (delete_times writes (add_all adds self))
   = MealTracker.meals self).
Proof.
  split; [apply add_all_meals|]. split; [apply delete_times_meals|].
  intro Hlen. rewrite delete_times_meals, add_all_meals, Hlen.
  rewrite skipn_app, length_rev, length_map, Nat.sub_diag.
  rewrite skipn_all2 by (rewrite length_rev, length_map; lia).
  reflexivity.
Qed.

(** Two additions and two deletions on a tracker that holds one meal. *)
Lemma X10_tracker_is_a_stack_witness :
  MealTracker.meals
    (delete_times [true; false]
       (add_all
          [mk_Addition (MealTracker.mk_Clock "1" "2024-01-01T08:00:00" "2024-01-01T08:00:00")
             true "lunch" 650 35 60 25 "";
           mk_Addition (MealTracker.mk_Clock "2" "2024-01-01T19:00:00" "2024-01-01T19:00:00")
             true "dinner" 700 40 70 20 "soup"]
          (MealTracker.load_data (Some [meal_of 500 30 50 15]))))
  = [meal_of 500 30 50 15].
Proof.
  apply (X10_tracker_is_a_stack _ [true; false]). reflexivity.
Defined.

(** ** What [add_meal] does to the aggregates *)

Lemma report_totals_sums (meals : list Meal) (acc : NutritionReport.ReportTotals) :
  let r := fold_left NutritionReport._calculate_totals_step meals acc in
  NutritionReport.t_calories r
  == NutritionReport.t_calories acc + Qsum (map meal_calories meals) /\
  NutritionReport.t_protein r
  == NutritionReport.t_protein acc + Qsum (map (meal_macro protein_g) meals) /\
  NutritionReport.t_carbs r
  == NutritionReport.t_carbs acc + Qsum (map (meal_macro carbs_g) meals) /\
  NutritionReport.t_fat r
  == NutritionReport.t_fat acc + Qsum (map (meal_macro fat_g) meals) /\
  NutritionReport.t_fiber r
  == NutritionReport.t_fiber acc + Qsum (map (meal_macro fiber_g) meals).
Proof.
  revert acc. induction meals as [|m meals IH]; intro acc; cbn [fold_left map].
  - cbv zeta. unfold Qsum. cbn. repeat split; ring.
  - specialize (IH (NutritionReport._calculate_totals_step acc m)).
    cbv zeta in *. destruct IH as (H1 & H2 & H3 & H4 & H5).
    rewrite H1, H2, H3, H4, H5, !Qsum_cons.
    unfold NutritionReport._calculate_totals_step, meal_calories, meal_macro.
    cbn. repeat split; ring.
Qed.


(** ** [min] and [max] over timestamps *)

Lemma comprehension_consumed_at (meals : list Meal) :
  Forall timestamp_parses meals ->
  exists dates,
    comprehension consumed_at meals = Ok dates /\
    Forall2 stamped meals dates.
Proof.
  induction 1 as [|m meals [dt Hdt] _ (dates & Hrun & Hall)].
  - exists []. split; [reflexivity | constructor].
  - exists (dt :: dates). cbn [comprehension]. rewrite Hdt. cbn [bind].
    rewrite Hrun. cbn [bind]. split; [reflexivity|].
    constructor; assumption.
Qed.

Lemma scan_lt_same (rest : list datetime) :
  forall cur,
  Forall (fun x => aware x = aware cur) rest ->
  exists lo,
    scan lt cur rest = Ok lo /\ In lo (cur :: rest) /\
    aware lo = aware cur /\
    Forall (fun x => (instant lo <= instant x)%Z) (cur :: rest).
Proof.
  induction rest as [|x rest IH]; intros cur Hall.
  - exists cur. cbn. repeat split; auto. constructor; [lia|constructor].
  - inversion Hall as [|? ? Hx Hrest]; subst. cbn [scan].
    assert (Hlt : lt x cur = Ok (instant x <? instant cur)%Z).
    { unfold lt. unfold aware in Hx.
      destruct (tzinfo x), (tzinfo cur); try discriminate; reflexivity. }
    rewrite Hlt. cbn [bind].
    destruct (instant x <? instant cur)%Z eqn:E.
    + apply Z.ltb_lt in E.
      destruct (IH x) as (lo & Hrun & Hin & Haw & Hle).
      { eapply Forall_impl; [|exact Hrest]. cbn. intros a Ha. congruence. }
      exists lo. split; [exact Hrun|]. split; [right; exact Hin|].
      split; [congruence|].
      inversion Hle as [|? ? Hlx Hlr]; subst.
      constructor; [lia|]. constructor; assumption.
    + apply Z.ltb_ge in E.
      destruct (IH cur Hrest) as (lo & Hrun & Hin & Haw & Hle).
      exists lo. split; [exact Hrun|]. split.
      * destruct Hin as [<-|Hin]; [left; reflexivity | right; right; exact Hin].
      * split; [exact Haw|].
        inversion Hle as [|? ? Hlc Hlr]; subst.
        constructor; [exact Hlc|]. constructor; [lia | exact Hlr].
Qed.

Lemma scan_gt_same (rest : list datetime) :
  forall cur,
  Forall (fun x => aware x = aware cur) rest ->
  exists hi,
    scan gt cur rest = Ok hi /\ In hi (cur :: rest) /\
    aware hi = aware cur /\
    Forall (fun x => (instant x <= instant hi)%Z) (cur :: rest).
Proof.
  induction rest as [|x rest IH]; intros cur Hall.
  - exists cur. cbn. repeat split; auto. constructor; [lia|constructor].
  - inversion Hall as [|? ? Hx Hrest]; subst. cbn [scan].
    assert (Hgt : gt x cur = Ok (instant cur <? instant x)%Z).
    { unfold gt. unfold aware in Hx.
      destruct (tzinfo x), (tzinfo cur); try discriminate; reflexivity. }
    rewrite Hgt. cbn [bind].
    destruct (instant cur <? instant x)%Z eqn:E.
    + apply Z.ltb_lt in E.
      destruct (IH x) as (hi & Hrun & Hin & Haw & Hle).
      { eapply Forall_impl; [|exact Hrest]. cbn. intros a Ha. congruence. }
      exists hi. split; [exact Hrun|]. split; [right; exact Hin|].
      split; [congruence|].
      inversion Hle as [|? ? Hlx Hlr]; subst.
      constructor; [lia|]. constructor; assumption.
    + apply Z.ltb_ge in E.
      destruct (IH cur Hrest) as (hi & Hrun & Hin & Haw & Hle).
      exists hi. split; [exact Hrun|]. split.
      * destruct Hin as [<-|Hin]; [left; reflexivity | right; right; exact Hin].
      * split; [exact Haw|].
        inversion Hle as [|? ? Hlc Hlr]; subst.
        constructor; [exact Hlc|]. constructor; [lia | exact Hlr].
Qed.

Lemma scan_lt_mixed (rest : list datetime) :
  forall cur,
  Exists (fun x => aware x <> aware cur) rest ->
  scan lt cur rest = Raise TypeError.
Proof.
  induction rest as [|x rest IH]; intros cur Hex; [inversion Hex|].
  cbn [scan]. destruct (Bool.bool_dec (aware x) (aware cur)) as [Heq|Hne].
  - assert (Hlt : lt x cur = Ok (instant x <? instant cur)%Z).
    { unfold lt. unfold aware in Heq.
      destruct (tzinfo x), (tzinfo cur); try discriminate; reflexivity. }
    rewrite Hlt. cbn [bind]. apply IH.
    inversion Hex as [? ? H|? ? H]; subst; [contradiction|].
    destruct (instant x <? instant cur)%Z; [|exact H].
    eapply Exists_impl; [|exact H]. cbn. intros a Ha. congruence.
  - assert (Hlt : lt x cur = Raise TypeError).
    { unfold lt. unfold aware in Hne.
      destruct (tzinfo x), (tzinfo cur); try reflexivity; contradiction. }
    rewrite Hlt. reflexivity.
Qed.

Lemma Forall2_stamped_In_r (meals : list Meal) (dates : list datetime) :
  Forall2 stamped meals dates ->
  forall dt, In dt dates -> exists m, In m meals /\ stamped m dt.
Proof.
  induction 1 as [|m d meals dates Hmd _ IH]; intros dt Hin; [destruct Hin|].
  destruct Hin as [<-|Hin].
  - exists m. split; [left; reflexivity | exact Hmd].
  - destruct (IH dt Hin) as (m' & Hm' & Hs). exists m'. split; [right|]; auto.
Qed.

Lemma Forall2_stamped_In_l (meals : list Meal) (dates : list datetime) :
  Forall2 stamped meals dates ->
  forall m dt, In m meals -> stamped m dt -> In dt dates.
Proof.
  induction 1 as [|m0 d meals dates Hmd _ IH]; intros m dt Hin Hs;
    [destruct Hin|].
  destruct Hin as [<-|Hin].
  - left. unfold stamped in *. congruence.
  - right. exact (IH m dt Hin Hs).
Qed.

Lemma dates_same_awareness (b : bool) (meals : list Meal) (dates : list datetime) :
  Forall2 stamped meals dates ->
  Forall (fun m => exists dt, consumed_at m = Ok dt /\ aware dt = b) meals ->
  Forall (fun dt => aware dt = b) dates.
Proof.
  induction 1 as [|m d meals dates Hmd _ IH]; intro Hall; [constructor|].
  inversion Hall as [|? ? (dt & Hdt & Hb) Hrest]; subst.
  constructor; [|exact (IH Hrest)].
  unfold stamped in Hmd. congruence.
Qed.

(** X12.  For a list of meals that is not empty and whose timestamps are all
    naive or all offset-aware, [_get_date_range] returns the dates of two
    meals of the list, the start from a meal no other meal is earlier than
    and the end from a meal no other meal is later than (aware timestamps
    are compared as instants, and each date is printed in the timestamp's
    own offset). *)
Theorem X12_date_range_bounds (meals : list Meal) :
  meals <> [] ->
  Forall timestamp_naive meals \/ Forall timestamp_aware meals ->
  exists first last,
    DataExport._get_date_range meals
    = Ok (Some (strftime_ymd first), Some (strftime_ymd last)) /\
    (exists m, In m meals /\ stamped m first) /\
    (exists m, In m meals /\ stamped m last) /\
    forall m dt, In m meals -> stamped m dt ->
      (instant first <= instant dt <= instant last)%Z.
Proof.
  intros Hne Hkind.
  assert (Hsame : exists b,
            Forall (fun m => exists dt, consumed_at m = Ok dt /\ aware dt = b)
              meals).
  { destruct Hkind as [H|H]; [exists false | exists true];
      (eapply Forall_impl; [|exact H]); intros m (dt & Hdt & Hk);
      exists dt; split; auto.
    unfold aware. rewrite Hk. reflexivity. }
  destruct Hsame as [b Hsame].
  assert (Hparse : Forall timestamp_parses meals).
  { eapply Forall_impl; [|exact Hsame]. intros m (dt & Hdt & _).
    exists dt. exact Hdt. }
  destruct (comprehension_consumed_at meals Hparse) as (dates & Hrun & Hst).
  pose proof (dates_same_awareness b meals dates Hst Hsame) as Hb.
  destruct dates as [|d dates].
  { inversion Hst; subst. contradiction. }
  inversion Hb as [|? ? Hd Hrest]; subst.
  assert (Hrest' : Forall (fun x => aware x = aware d) dates).
  { eapply Forall_impl; [|exact Hrest]. cbn. intros a Ha. congruence. }
  destruct (scan_lt_same dates d Hrest') as (lo & Hlo & Hloin & _ & Hlole).
  destruct (scan_gt_same dates d Hrest') as (hi & Hhi & Hhiin & _ & Hhile).
  exists lo, hi. split.
  { unfold DataExport._get_date_range.
    destruct meals as [|m ms]; [contradiction|].
    rewrite Hrun. cbn [bind builtin_min builtin_max].
    rewrite Hlo. cbn [bind]. rewrite Hhi. reflexivity. }
  split; [exact (Forall2_stamped_In_r meals (d :: dates) Hst lo Hloin)|].
  split; [exact (Forall2_stamped_In_r meals (d :: dates) Hst hi Hhiin)|].
  intros m dt Hin Hs.
  pose proof (Forall2_stamped_In_l meals (d :: dates) Hst m dt Hin Hs) as Hdt.
  rewrite Forall_forall in Hlole, Hhile.
  split; [apply Hlole | apply Hhile]; exact Hdt.
Qed.

(** Three meals with offsets. *)
Lemma X12_date_range_bounds_witness :
  exists first last,
    DataExport._get_date_range
      [meal_at "2024-01-02T08:00:00Z"; meal_at "2024-01-01T08:00:00Z";
       meal_at "2024-01-03T08:00:00Z"]
    = Ok (Some (strftime_ymd first), Some (strftime_ymd last)) /\
    (instant first <= instant last)%Z.
Proof.
  destruct (X12_date_range_bounds
              [meal_at "2024-01-02T08:00:00Z"; meal_at "2024-01-01T08:00:00Z";
               meal_at "2024-01-03T08:00:00Z"])
    as (first & last & Hrun & (m & Hm & Hs) & _ & Hle).
  - discriminate.
  - right. repeat constructor; eexists; vm_compute; split; reflexivity.
  - exists first, last. split; [exact Hrun|].
    destruct (Hle m first Hm Hs) as [_ H]. exact H.
Defined.

Example date_range_example :
  DataExport._get_date_range
    [meal_at "2024-01-02T08:00:00Z"; meal_at "2024-01-01T08:00:00Z";
     meal_at "2024-01-03T08:00:00Z"]
  = Ok (Some "2024-01-01"%string, Some "2024-01-03"%string) /\
  DataExport._get_date_range [] = Ok (None, None).
Proof. split; vm_compute; reflexivity. Qed.

(** X13.  When the timestamps all parse but some are naive and some are
    offset-aware, [_get_date_range] raises [TypeError]: the scan for the
    earliest date compares two of them.  The meals that [add_meal] stamps
    with [datetime.now().isoformat()] are naive, those with a Z suffix are
    aware. *)
Theorem X13_date_range_mixed_raises (meals : list Meal) :
  Forall timestamp_parses meals ->
  Exists timestamp_naive meals ->
  Exists timestamp_aware meals ->
  DataExport._get_date_range meals = Raise TypeError.
Proof.
  intros Hparse Hn Ha.
  destruct (comprehension_consumed_at meals Hparse) as (dates & Hrun & Hst).
  assert (Hdn : Exists (fun dt => aware dt = false) dates).
  { clear Ha Hrun Hparse. induction Hst as [|m d meals dates Hmd _ IH].
    - inversion Hn.
    - inversion Hn as [? ? (dt & Hdt & Htz)|? ? H]; subst.
      + left. unfold stamped in Hmd. unfold aware.
        replace d with dt by congruence. rewrite Htz. reflexivity.
      + right. exact (IH H). }
  assert (Hda : Exists (fun dt => aware dt = true) dates).
  { clear Hn Hdn Hrun Hparse. induction Hst as [|m d meals dates Hmd _ IH].
    - inversion Ha.
    - inversion Ha as [? ? (dt & Hdt & Haw)|? ? H]; subst.
      + left. unfold stamped in Hmd. congruence.
      + right. exact (IH H). }
  unfold DataExport._get_date_range.
  destruct meals as [|m ms]; [inversion Hn|].
  rewrite Hrun. cbn [bind]. destruct dates as [|d dates]; [inversion Hdn|].
  cbn [builtin_min]. rewrite scan_lt_mixed; [reflexivity|].
  destruct (aware d) eqn:Ed.
  - inversion Hdn as [? ? H|? ? H]; subst; [congruence|].
    eapply Exists_impl; [|exact H]. cbn. intros a Hx. congruence.
  - inversion Hda as [? ? H|? ? H]; subst; [congruence|].
    eapply Exists_impl; [|exact H]. cbn. intros a Hx. congruence.
Qed.

(** A meal from the application and one added by the tracker. *)
Lemma X13_date_range_mixed_raises_witness :
  DataExport._get_date_range
    [meal_at "2024-01-02T08:00:00.123456"; meal_at "2024-01-01T08:00:00.000Z"]
  = Raise TypeError.
Proof.
  apply X13_date_range_mixed_raises.
  - repeat constructor; eexists; vm_compute; reflexivity.
  - left. eexists. vm_compute. split; reflexivity.
  - right. left. eexists. vm_compute. split; reflexivity.
Defined.

(** ** The CSV exports *)

Lemma write_rows_prefix {A : Type} (rows_of : A -> result (list DataExport.row))
  (good : list A) (rs : list (list DataExport.row)) :
  Forall2 (fun x r => rows_of x = Ok r) good rs ->
  forall (rest : list A) (written : list DataExport.row),
  match rest with
  | [] => True
  | bad :: _ => exists e, rows_of bad = Raise e
  end ->
  DataExport.write_rows rows_of (good ++ rest) written
  = (written ++ List.concat rs, is_nil rest).
Proof.
  induction 1 as [|x r good rs Hx _ IH]; intros rest written Hrest.
  - cbn [app List.concat]. rewrite app_nil_r.
    destruct rest as [|bad tl]; [reflexivity|].
    destruct Hrest as [e He]. cbn [DataExport.write_rows]. rewrite He. reflexivity.
  - cbn [app DataExport.write_rows List.concat]. rewrite Hx, (IH rest _ Hrest).
    rewrite <- app_assoc. reflexivity.
Qed.

Lemma Forall2_Forall_r {A B : Type} (R : A -> B -> Prop) (P : B -> Prop)
  (xs : list A) (ys : list B) :
  Forall2 R xs ys -> (forall a b, R a b -> P b) -> Forall P ys.
Proof.
  intros H HR. induction H as [|a b xs ys Hab _ IH]; constructor; eauto.
Qed.

Lemma not_parses_raises (meal : Meal) :
  ~ timestamp_parses meal -> exists e, consumed_at meal = Raise e.
Proof.
  intro H. destruct (consumed_at meal) as [dt|e] eqn:E.
  - exfalso. apply H. exists dt. exact E.
  - exists e. reflexivity.
Qed.

(** X14.  [export_to_csv] truncates the output file, writes the header and
    then one row of 12 cells for each meal, in order, up to the first meal
    whose timestamp does not parse; the rows written before that meal stay
    in the file, and success is reported only when every meal was written.
    A row holds the date and the calories of its meal (0 when absent) and
    the length of its composition.  When the file cannot be opened it is
    left as it was. *)
Theorem X14_export_to_csv_rows (good rest : list Meal)
  (file_before : option (list DataExport.row)) :
  Forall timestamp_parses good ->
  stops_at_bad_stamp rest ->
  exists rows,
    DataExport.export_to_csv true (good ++ rest) file_before
    = DataExport.mk_Exported (Some (DataExport.SUMMARY_HEADER :: rows))
        (is_nil rest) /\
    List.length rows = List.length good /\
    Forall (fun r => List.length r = 12%nat)
      (DataExport.SUMMARY_HEADER :: rows) /\
    Forall2
      (fun m r =>
         nth 0 r (DataExport.Int 0) = DataExport.Str (day_of m) /\
         nth 4 r (DataExport.Int 0) = DataExport.Num (meal_calories m) /\
         nth 11 r (DataExport.Int 0)
         = DataExport.Int (Z.of_nat (List.length (all_items [m]))))
      good rows /\
    DataExport.export_to_csv false (good ++ rest) file_before
    = DataExport.mk_Exported file_before false.
Proof.
  intros Hgood Hrest.
  assert (Hrows : exists rs,
            Forall2 (fun m r => DataExport.summary_row m = Ok r) good rs /\
            Forall2
              (fun m r =>
                 exists one, r = [one] /\ List.length one = 12%nat /\
                 nth 0 one (DataExport.Int 0) = DataExport.Str (day_of m) /\
                 nth 4 one (DataExport.Int 0) = DataExport.Num (meal_calories m) /\
                 nth 11 one (DataExport.Int 0)
                 = DataExport.Int (Z.of_nat (List.length (all_items [m]))))
              good rs).
  { clear Hrest. induction Hgood as [|m good [dt Hdt] _ (rs & H1 & H2)].
    - exists []. split; constructor.
    - eexists (_ :: rs). split.
      + constructor; [|exact H1]. unfold DataExport.summary_row.
        rewrite Hdt. cbn [bind]. reflexivity.
      + constructor; [|exact H2]. eexists. split; [reflexivity|].
        unfold day_of, meal_calories, all_items. rewrite Hdt.
        cbn [flat_map]. rewrite app_nil_r. repeat split. }
  destruct Hrows as (rs & Hrs & Hshape).
  exists (List.concat rs).
  split.
  { unfold DataExport.export_to_csv, DataExport.export_rows.
    rewrite (write_rows_prefix DataExport.summary_row good rs Hrs rest).
    - reflexivity.
    - destruct rest as [|bad tl]; [exact I|].
      destruct (not_parses_raises bad Hrest) as [e He]. exists e.
      unfold DataExport.summary_row. rewrite He. reflexivity. }
  assert (Hconcat : Forall2
            (fun m r =>
               List.length r = 12%nat /\
               nth 0 r (DataExport.Int 0) = DataExport.Str (day_of m) /\
               nth 4 r (DataExport.Int 0) = DataExport.Num (meal_calories m) /\
               nth 11 r (DataExport.Int 0)
               = DataExport.Int (Z.of_nat (List.length (all_items [m]))))
            good (List.concat rs)).
  { clear Hrs Hgood. induction Hshape as [|m r good rs0 (one & -> & H) _ IH].
    - constructor.
    - cbn [List.concat app]. constructor; [exact H | exact IH]. }
  split; [symmetry; eapply Forall2_length; exact Hconcat|].
  split.
  { constructor; [reflexivity|].
    eapply Forall2_Forall_r; [exact Hconcat|]. cbn. tauto. }
  split; [|reflexivity].
  eapply Forall2_impl; [|exact Hconcat]. cbn. tauto.
Qed.

(** Two good meals, one without a timestamp, and one more good meal. *)
Lemma X14_export_to_csv_rows_witness :
  exists rows,
    DataExport.export_to_csv true
      ([meal_on "2024-01-01T08:00:00Z" 500; meal_on "2024-01-02T08:00:00Z" 650]
       ++ [meal_of 100 1 1 1; meal_on "2024-01-03T08:00:00Z" 700])
      None
    = DataExport.mk_Exported (Some (DataExport.SUMMARY_HEADER :: rows)) false /\
    List.length rows = 2%nat.
Proof.
  destruct (X14_export_to_csv_rows
              [meal_on "2024-01-01T08:00:00Z" 500;
               meal_on "2024-01-02T08:00:00Z" 650]
              [meal_of 100 1 1 1; meal_on "2024-01-03T08:00:00Z" 700] None)
    as (rows & Hrun & Hlen & _).
  - repeat constructor; eexists; vm_compute; reflexivity.
  - intros [dt H]. vm_compute in H. discriminate.
  - exists rows. split; [exact Hrun | exact Hlen].
Defined.

Lemma detailed_rows_value (meal : Meal) :
  timestamp_parses meal ->
  DataExport.detailed_rows meal = Ok (detailed_rows_of meal).
Proof.
  intros [dt Hdt]. unfold DataExport.detailed_rows, detailed_rows_of, day_of.
  rewrite Hdt. cbn [bind all_items flat_map]. rewrite app_nil_r. reflexivity.
Qed.

Lemma all_items_cons (meal : Meal) (meals : list Meal) :
  all_items (meal :: meals) = all_items [meal] ++ all_items meals.
Proof.
  unfold all_items. cbn [flat_map]. rewrite app_nil_r. reflexivity.
Qed.

(** X15.  [export_detailed_csv] writes the header and then one row of 13
    cells for each item of each meal's composition, in order, up to the
    first meal whose timestamp does not parse: as many rows as the meals
    before it have items, so a meal without a composition leaves no row.
    The third cell is the item's label, empty when the item has none. *)
Theorem X15_export_detailed_csv_rows (good rest : list Meal)
  (file_before : option (list DataExport.row)) :
  Forall timestamp_parses good ->
  stops_at_bad_stamp rest ->
  exists rows,
    DataExport.export_detailed_csv true (good ++ rest) file_before
    = DataExport.mk_Exported (Some (DataExport.DETAILED_HEADER :: rows))
        (is_nil rest) /\
    List.length rows = List.length (all_items good) /\
    Forall (fun r => List.length r = 13%nat)
      (DataExport.DETAILED_HEADER :: rows) /\
    map (fun r => nth 2 r (DataExport.Int 0)) rows
    = map (fun item => DataExport.Str (get (label item) ""%string))
        (all_items good).
Proof.
  intros Hgood Hrest.
  set (rs := map detailed_rows_of good).
  assert (Hrs : Forall2 (fun m r => DataExport.detailed_rows m = Ok r) good rs).
  { unfold rs. clear Hrest. induction Hgood as [|m good Hm _ IH]; cbn [map].
    - constructor.
    - constructor; [apply detailed_rows_value; exact Hm | exact IH]. }
  exists (List.concat rs). split.
  { unfold DataExport.export_detailed_csv, DataExport.export_rows.
    rewrite (write_rows_prefix DataExport.detailed_rows good rs Hrs rest).
    - reflexivity.
    - destruct rest as [|bad tl]; [exact I|].
      destruct (not_parses_raises bad Hrest) as [e He]. exists e.
      unfold DataExport.detailed_rows. rewrite He. reflexivity. }
  unfold rs. clear Hrs rs Hgood Hrest.
  induction good as [|m good (IH1 & IH2 & IH3)].
  - cbn. repeat split. repeat constructor.
  - cbn [map List.concat]. rewrite all_items_cons.
    split; [|split].
    + rewrite !length_app, IH1. unfold detailed_rows_of.
      rewrite length_map. reflexivity.
    + inversion IH2 as [|? ? Hh Hr]; subst. constructor; [exact Hh|].
      apply Forall_app. split; [|exact Hr].
      unfold detailed_rows_of. apply Forall_map. apply Forall_forall.
      intros item _. reflexivity.
    + rewrite (map_app (fun r => nth 2 r (DataExport.Int 0))), IH3.
      rewrite (map_app (fun item => DataExport.Str (get (label item) ""%string))).
      f_equal. unfold detailed_rows_of. rewrite map_map. reflexivity.
Qed.

(** A meal with two items, one without a composition, then a bad record. *)
Lemma X15_export_detailed_csv_rows_witness :
  exists rows,
    DataExport.succeeded
      (DataExport.export_detailed_csv true
         ([mk_Meal None None None None (Some "2024-01-01T08:00:00Z"%string) None
             (Some (mk_AnalysisData None
                (Some [food_item "rice" 50; food_item "egg" 70]) None));
           meal_on "2024-01-02T08:00:00Z" 650]
          ++ [meal_of 100 1 1 1]) None) = false /\
    DataExport.file_after
      (DataExport.export_detailed_csv true
         ([mk_Meal None None None None (Some "2024-01-01T08:00:00Z"%string) None
             (Some (mk_AnalysisData None
                (Some [food_item "rice" 50; food_item "egg" 70]) None));
           meal_on "2024-01-02T08:00:00Z" 650]
          ++ [meal_of 100 1 1 1]) None)
    = Some (DataExport.DETAILED_HEADER :: rows) /\
    List.length rows = 2%nat.
Proof.
  destruct (X15_export_detailed_csv_rows
              [mk_Meal None None None None (Some "2024-01-01T08:00:00Z"%string) None
                 (Some (mk_AnalysisData None
                    (Some [food_item "rice" 50; food_item "egg" 70]) None));
               meal_on "2024-01-02T08:00:00Z" 650]
              [meal_of 100 1 1 1] None)
    as (rows & Hrun & Hlen & _).
  - repeat constructor; eexists; vm_compute; reflexivity.
  - intros [dt H]. vm_compute in H. discriminate.
  - exists rows. rewrite Hrun. cbn. repeat split. exact Hlen.
Defined.

(** ** The summary export *)

Lemma comprehension_ok_all {A B : Type} (f : A -> result B) (xs : list A)
  (ys : list B) :
  comprehension f xs = Ok ys -> Forall (fun x => exists y, f x = Ok y) xs.
Proof.
  revert ys. induction xs as [|x xs IH]; intros ys H; [constructor|].
  cbn [comprehension] in H. destruct (f x) as [y|e] eqn:E; [|discriminate].
  cbn [bind] in H.
  destruct (comprehension f xs) as [rest|e]; [|discriminate].
  constructor; [exists y; exact E | apply (IH rest); reflexivity].
Qed.

Lemma date_range_needs_stamps (meals : list Meal) (r : option string * option string) :
  DataExport._get_date_range meals = Ok r -> Forall timestamp_parses meals.
Proof.
  unfold DataExport._get_date_range. destruct meals as [|m ms]; [constructor|].
  destruct (comprehension consumed_at (m :: ms)) as [dates|e] eqn:E;
    [|discriminate].
  intros _. exact (comprehension_ok_all consumed_at _ dates E).
Qed.

(** X16.  [export_summary_json] builds the whole summary before it opens the
    output file: when it does not report success the file is left as it
    was, and it cannot succeed when a timestamp of the list does not parse
    (where the CSV export leaves a truncated file).  When it succeeds the
    file holds the summary: the clock reading, the number of meals, and
    meal type counters that add up to that number.  For the empty list it
    writes a date range of nulls and no daily averages. *)
Theorem X16_summary_json_all_or_nothing (now_iso : string) (can_open : bool)
  (meals : list Meal) (file_before : option DataExport.Summary) :
  let r := DataExport.export_summary_json now_iso can_open meals file_before in
  (DataExport.succeeded r = false -> DataExport.file_after r = file_before) /\
  (DataExport.succeeded r = true ->
   can_open = true /\ Forall timestamp_parses meals /\
   exists s,
     DataExport.file_after r = Some s /\
     DataExport.generated_at s = now_iso /\
     DataExport.total_meals s = Z.of_nat (List.length meals) /\
     Zsum (map snd (DataExport.meal_types s)) = DataExport.total_meals s /\
     DataExport._calculate_totals meals = Ok (DataExport.nutrition_totals s)) /\
  (meals = [] -> can_open = true ->
   exists s,
     r = DataExport.mk_Exported (Some s) true /\
     DataExport.date_range s = (None, None) /\
     DataExport.daily_averages s = None).
Proof.
  intro r. unfold DataExport.export_summary_json in r.
  split; [|split].
  - subst r.
    destruct (DataExport._get_date_range meals) as [range|e]; [|reflexivity].
    cbn [bind].
    destruct (DataExport._calculate_totals meals) as [t|e]; [|reflexivity].
    cbn [bind].
    destruct (DataExport._calculate_daily_averages meals) as [a|e];
      [|reflexivity].
    cbn [bind]. destruct can_open; [discriminate | reflexivity].
  - subst r.
    destruct (DataExport._get_date_range meals) as [range|e] eqn:Hr;
      [|discriminate].
    cbn [bind].
    destruct (DataExport._calculate_totals meals) as [t|e] eqn:Ht;
      [|discriminate].
    cbn [bind].
    destruct (DataExport._calculate_daily_averages meals) as [a|e];
      [|discriminate].
    cbn [bind]. destruct can_open; [|discriminate]. intros _.
    split; [reflexivity|].
    split; [exact (date_range_needs_stamps meals range Hr)|].
    eexists. split; [reflexivity|]. cbn.
    repeat split. apply (meal_frequency_sum meals []).
  - intros -> ->. subst r. eexists. split; [reflexivity|]. split; reflexivity.
Qed.

(** A list with a meal that has no timestamp, and a file already there. *)
Lemma X16_summary_json_all_or_nothing_witness :
  DataExport.file_after
    (DataExport.export_summary_json "2024-01-10T12:00:00" true
       [meal_on "2024-01-01T08:00:00Z" 500; meal_of 100 1 1 1]
       (Some (DataExport.mk_Summary "old" 0 (None, None) []
                (DataExport.mk_Totals 0 0 0 0 0 0) None)))
  = Some (DataExport.mk_Summary "old" 0 (None, None) []
            (DataExport.mk_Totals 0 0 0 0 0 0) None).
Proof.
  apply (X16_summary_json_all_or_nothing "2024-01-10T12:00:00" true
           [meal_on "2024-01-01T08:00:00Z" 500; meal_of 100 1 1 1]).
  vm_compute. reflexivity.
Defined.

(** ** Calendar arithmetic *)

Lemma fromisoformat_valid (s : string) (dt : datetime) :
  fromisoformat s = Ok dt -> valid dt.
Proof.
  unfold fromisoformat, valid.
  destruct (_parse_isoformat_date _) as [[[y m] d]|e]; [|discriminate].
  cbn [bind].
  match goal with
  | |- context [bind ?c _] => destruct c as [[[[[hh mm] ss] us] tz]|e]
  end; [|discriminate].
  cbn [bind]. destruct (check_fields y m d hh mm ss us) eqn:E; [|discriminate].
  intro H. inversion H; subst. cbn. exact E.
Qed.

Lemma valid_bounds (dt : datetime) :
  valid dt ->
  (1 <= year dt <= 9999 /\ 1 <= month dt <= 12 /\
   1 <= day dt <= _days_in_month (year dt) (month dt) /\
   0 <= hms_micros (hour dt, minute dt, second dt, microsecond dt)
     < 86400000000)%Z.
Proof.
  unfold valid, check_fields. intro H.
  repeat (apply andb_prop in H; destruct H as [H ?]).
  repeat match goal with
         | H : (_ <=? _)%Z = true |- _ => apply Z.leb_le in H
         end.
  unfold hms_micros. cbn [fst snd]. lia.
Qed.

Lemma days_before_year_succ (y : Z) :
  _days_before_year (y + 1)
  = (_days_before_year y + 365 + (if _is_leap y then 1 else 0))%Z.
Proof.
  unfold _days_before_year, _is_leap. cbv zeta.
  replace (y + 1 - 1)%Z with y by lia.
  destruct (y mod 4 =? 0)%Z eqn:E4; destruct (y mod 100 =? 0)%Z eqn:E100;
    destruct (y mod 400 =? 0)%Z eqn:E400; cbn [andb orb negb];
    rewrite ?Z.eqb_eq, ?Z.eqb_neq in *; Z.div_mod_to_equations; lia.
Qed.

Lemma days_before_year_mono (y y' : Z) :
  (y <= y')%Z -> (_days_before_year y <= _days_before_year y')%Z.
Proof.
  unfold _days_before_year. cbv zeta. intro H. Z.div_mod_to_equations. lia.
Qed.

Lemma month_cases (m : Z) :
  (1 <= m <= 12)%Z ->
  m = 1%Z \/ m = 2%Z \/ m = 3%Z \/ m = 4%Z \/ m = 5%Z \/ m = 6%Z \/
  m = 7%Z \/ m = 8%Z \/ m = 9%Z \/ m = 10%Z \/ m = 11%Z \/ m = 12%Z.
Proof. lia. Qed.

Ltac days_before_month_table :=
  repeat match goal with
         | |- context [_DAYS_BEFORE_MONTH ?k] =>
             let v := eval vm_compute in (_DAYS_BEFORE_MONTH k) in
             change (_DAYS_BEFORE_MONTH k) with v
         | H : context [_DAYS_BEFORE_MONTH ?k] |- _ =>
             let v := eval vm_compute in (_DAYS_BEFORE_MONTH k) in
             change (_DAYS_BEFORE_MONTH k) with v in H
         end.

Lemma ordinal_within_year (y m d : Z) :
  (1 <= m <= 12)%Z -> (1 <= d <= _days_in_month y m)%Z ->
  (_days_before_year y + 1 <= _ymd2ord y m d
   <= _days_before_year y + 365 + (if _is_leap y then 1 else 0))%Z.
Proof.
  intros Hm Hd. unfold _ymd2ord, _days_before_month, _days_in_month in *.
  remember (_is_leap y) as leap eqn:Hleap. clear Hleap.
  remember (_days_before_year y) as dby eqn:Hdby. clear Hdby.
  destruct (month_cases m Hm)
    as [->|[->|[->|[->|[->|[->|[->|[->|[->|[->|[->| ->]]]]]]]]]]];
    destruct leap; days_before_month_table; cbn in *; lia.
Qed.

Lemma ordinal_same_year (y m d m' d' : Z) :
  (1 <= m <= 12)%Z -> (1 <= d <= _days_in_month y m)%Z ->
  (1 <= m' <= 12)%Z -> (1 <= d' <= _days_in_month y m')%Z ->
  _ymd2ord y m d = _ymd2ord y m' d' -> m = m' /\ d = d'.
Proof.
  intros Hm Hd Hm' Hd'.
  unfold _ymd2ord, _days_before_month, _days_in_month in *.
  remember (_is_leap y) as leap eqn:Hleap. clear Hleap.
  remember (_days_before_year y) as dby eqn:Hdby. clear Hdby.
  destruct (month_cases m Hm)
    as [->|[->|[->|[->|[->|[->|[->|[->|[->|[->|[->| ->]]]]]]]]]]];
    destruct (month_cases m' Hm')
      as [->|[->|[->|[->|[->|[->|[->|[->|[->|[->|[->| ->]]]]]]]]]]];
    destruct leap; days_before_month_table; cbn in *; lia.
Qed.

Lemma ordinal_injective (a b : datetime) :
  valid a -> valid b ->
  _ymd2ord (year a) (month a) (day a) = _ymd2ord (year b) (month b) (day b) ->
  year a = year b /\ month a = month b /\ day a = day b.
Proof.
  intros Ha Hb Heq.
  destruct (valid_bounds a Ha) as (_ & Ham & Had & _).
  destruct (valid_bounds b Hb) as (_ & Hbm & Hbd & _).
  pose proof (ordinal_within_year _ _ _ Ham Had) as Wa.
  pose proof (ordinal_within_year _ _ _ Hbm Hbd) as Wb.
  assert (Hy : year a = year b).
  { destruct (Z.lt_trichotomy (year a) (year b)) as [Hlt|[He|Hgt]];
      [|exact He|].
    - pose proof (days_before_year_succ (year a)) as Hs.
      pose proof (days_before_year_mono (year a + 1) (year b)) as Hm.
      lia.
    - pose proof (days_before_year_succ (year b)) as Hs.
      pose proof (days_before_year_mono (year b + 1) (year a)) as Hm.
      lia. }
  split; [exact Hy|]. rewrite Hy in *.
  exact (ordinal_same_year _ _ _ _ _ Ham Had Hbm Hbd Heq).
Qed.

Lemma comprehension_if_filter {A : Type} (cond : A -> result bool)
  (p : A -> bool) (xs : list A) :
  Forall (fun x => cond x = Ok (p x)) xs ->
  comprehension_if cond xs = Ok (filter p xs).
Proof.
  induction 1 as [|x xs Hx _ IH]; [reflexivity|].
  cbn [comprehension_if filter]. rewrite Hx. cbn [bind]. rewrite IH.
  reflexivity.
Qed.

Lemma day_sums_fold (meals : list Meal) (acc : MealTracker.DaySums) :
  let r := fold_left MealTracker.day_sums_step meals acc in
  MealTracker.sum_calories r
  == MealTracker.sum_calories acc + Qsum (map meal_calories meals) /\
  MealTracker.sum_protein r
  == MealTracker.sum_protein acc + Qsum (map (meal_macro protein_g) meals) /\
  MealTracker.sum_carbs r
  == MealTracker.sum_carbs acc + Qsum (map (meal_macro carbs_g) meals) /\
  MealTracker.sum_fat r
  == MealTracker.sum_fat acc + Qsum (map (meal_macro fat_g) meals).
Proof.
  revert acc. induction meals as [|m meals IH]; intro acc; cbn [fold_left map].
  - cbv zeta. unfold Qsum. cbn. repeat split; ring.
  - specialize (IH (MealTracker.day_sums_step acc m)). cbv zeta in *.
    destruct IH as (H1 & H2 & H3 & H4).
    rewrite H1, H2, H3, H4, !Qsum_cons.
    unfold MealTracker.day_sums_step, meal_calories, meal_macro. cbn.
    repeat split; ring.
Qed.

Lemma in_day_same_date (date : datetime) (day_end : point) (meal : Meal) :
  valid date -> tzinfo date = None ->
  timestamp_naive meal ->
  day_end = mk_point (wall_micros (midnight date) + 86400000000) None ->
  MealTracker.in_day (point_of (midnight date)) day_end meal
  = Ok (on_date_of date meal).
Proof.
  intros Hv Htz (dt & Hdt & Hn) ->.
  assert (Hvd : valid dt).
  { unfold consumed_at in Hdt. exact (fromisoformat_valid _ _ Hdt). }
  unfold MealTracker.in_day, on_date_of. rewrite Hdt, Hn. cbn [bind].
  unfold point_le_dt, dt_lt_point, point_of, midnight.
  cbn [offset position tzinfo]. rewrite Htz, Hn. cbn [bind].
  unfold wall_micros. cbn [year month day hour minute second microsecond].
  destruct (valid_bounds dt Hvd) as (_ & _ & _ & Hhms).
  change (hms_micros (0, 0, 0, 0)%Z) with 0%Z.
  set (od := _ymd2ord (year date) (month date) (day date)).
  set (ox := _ymd2ord (year dt) (month dt) (day dt)).
  set (h := hms_micros (hour dt, minute dt, second dt, microsecond dt)) in *.
  destruct (Z.eq_dec ox od) as [Heq|Hne].
  - destruct (ordinal_injective dt date Hvd Hv Heq) as (Hy & Hm & Hd).
    rewrite Hy, Hm, Hd, !Z.eqb_refl. cbn [andb].
    replace (od * 86400000000 + 0 <=? ox * 86400000000 + h)%Z with true
      by (symmetry; apply Z.leb_le; lia).
    f_equal. apply Z.ltb_lt. lia.
  - assert (Hdiff : ((year dt =? year date) && (month dt =? month date)
                     && (day dt =? day date))%Z = false).
    { apply not_true_is_false. intro H.
      apply andb_prop in H. destruct H as [H Hd].
      apply andb_prop in H. destruct H as [Hy Hm].
      apply Z.eqb_eq in Hy, Hm, Hd. apply Hne. unfold ox, od.
      rewrite Hy, Hm, Hd. reflexivity. }
    rewrite Hdiff.
    destruct (od * 86400000000 + 0 <=? ox * 86400000000 + h)%Z eqn:E;
      [|reflexivity].
    apply Z.leb_le in E. f_equal. apply Z.ltb_ge. lia.
Qed.



(** ** The command lines *)

Lemma nth_error_length_some {A : Type} (l : list A) (i : nat) :
  (i < List.length l)%nat -> exists x, nth_error l i = Some x.
Proof.
  intro H. destruct (nth_error l i) eqn:E; [eauto|].
  apply nth_error_None in E. lia.
Qed.

(** X18.  [main] of the tracker asks for 6 arguments before it reads the
    seventh: for the command [add] (in any case of letters), fewer than 6
    arguments give the usage line; exactly 6, the fat missing, never give
    the usage line but an exception, the [IndexError] of [sys.argv[6]] when
    the three numbers before it are read; and [add_meal] is called only with
    7 arguments or more, on the five values read and the arguments after
    them joined by blanks as the notes. *)
Theorem X18_main_add_reads_past_its_check (lower : string -> string)
  (float : string -> option Q) (int : string -> option Z)
  (argv : list string) (command : string) :
  nth_error argv 1 = Some command ->
  lower command = "add"%string ->
  let ending := MealTracker.main lower float int argv in
  ((List.length argv < 6)%nat -> ending = MealTracker.Runs MealTracker.PrintUsage) /\
  (List.length argv = 6%nat ->
     (ending = MealTracker.FailsValueError \/ ending = MealTracker.FailsIndexError) /\
     ((forall i s, (3 <= i <= 5)%nat -> nth_error argv i = Some s -> reads float s) ->
      ending = MealTracker.FailsIndexError)) /\
  (forall meal_type calories protein carbs fat notes,
     ending = MealTracker.Runs
                (MealTracker.AddMeal meal_type calories protein carbs fat notes) ->
     (7 <= List.length argv)%nat /\
     nth_error argv 2 = Some meal_type /\
     option_map float (nth_error argv 3) = Some (Some calories) /\
     option_map float (nth_error argv 4) = Some (Some protein) /\
     option_map float (nth_error argv 5) = Some (Some carbs) /\
     option_map float (nth_error argv 6) = Some (Some fat) /\
     notes = String.concat " " (skipn 7 argv)).
Proof.
  intros Hc Hadd ending. subst ending.
  unfold MealTracker.main, MealTracker.argv_at, MealTracker.parsed.
  assert (Hlen : (2 <= List.length argv)%nat).
  { assert (nth_error argv 1 <> None) as H by congruence.
    apply nth_error_Some in H. lia. }
  replace (List.length argv <? 2)%nat with false
    by (symmetry; apply Nat.ltb_ge; lia).
  rewrite Hc, Hadd. change (String.eqb "add" "add") with true. cbv iota.
  split; [|split].
  - intro H. apply Nat.ltb_lt in H. rewrite H. reflexivity.
  - intro H6. rewrite H6. change (6 <? 6)%nat with false. cbv iota.
    destruct (nth_error_length_some argv 2) as [a2 E2]; [lia|].
    destruct (nth_error_length_some argv 3) as [a3 E3]; [lia|].
    destruct (nth_error_length_some argv 4) as [a4 E4]; [lia|].
    destruct (nth_error_length_some argv 5) as [a5 E5]; [lia|].
    assert (E6 : nth_error argv 6 = None) by (apply nth_error_None; lia).
    rewrite E2, E3, E4, E5, E6. split.
    + destruct (float a3); [|left; reflexivity].
      destruct (float a4); [|left; reflexivity].
      destruct (float a5); [right|left]; reflexivity.
    + intro Hr.
      destruct (Hr 3%nat a3 ltac:(lia) E3) as [x3 ->].
      destruct (Hr 4%nat a4 ltac:(lia) E4) as [x4 ->].
      destruct (Hr 5%nat a5 ltac:(lia) E5) as [x5 ->].
      reflexivity.
  - intros meal_type calories protein carbs fat notes.
    destruct (List.length argv <? 6)%nat eqn:E; [discriminate|].
    destruct (nth_error argv 2) as [a2|] eqn:E2; [|discriminate].
    destruct (nth_error argv 3) as [a3|] eqn:E3; [|discriminate].
    destruct (float a3) as [x3|] eqn:F3; [|discriminate].
    destruct (nth_error argv 4) as [a4|] eqn:E4; [|discriminate].
    destruct (float a4) as [x4|] eqn:F4; [|discriminate].
    destruct (nth_error argv 5) as [a5|] eqn:E5; [|discriminate].
    destruct (float a5) as [x5|] eqn:F5; [|discriminate].
    destruct (nth_error argv 6) as [a6|] eqn:E6; [|discriminate].
    destruct (float a6) as [x6|] eqn:F6; [|discriminate].
    intro H. injection H as <- <- <- <- <- <-.
    assert (H7 : (7 <= List.length argv)%nat).
    { assert (nth_error argv 6 <> None) as H by congruence.
      apply nth_error_Some in H. lia. }
    cbn [option_map]. rewrite F3, F4, F5, F6.
    repeat split; try reflexivity; try exact H7.
    destruct (7 <? List.length argv)%nat eqn:E7; [reflexivity|].
    apply Nat.ltb_ge in E7. rewrite skipn_all2 by lia. reflexivity.
Qed.

Lemma X18_main_add_reads_past_its_check_witness :
  MealTracker.main lower_all decimal_float decimal
    ["meal_tracker.py"; "ADD"; "lunch"; "650"; "35"; "60"]%string
  = MealTracker.FailsIndexError /\
  MealTracker.main lower_all decimal_float decimal
    ["meal_tracker.py"; "add"; "lunch"; "650"; "35"]%string
  = MealTracker.Runs MealTracker.PrintUsage.
Proof.
  split.
  - apply (X18_main_add_reads_past_its_check lower_all decimal_float decimal
             ["meal_tracker.py"; "ADD"; "lunch"; "650"; "35"; "60"]%string
             "ADD"%string); [reflexivity|reflexivity|reflexivity|].
    intros i s Hi Hs.
    destruct i as [|[|[|[|[|[|i]]]]]]; try lia;
      cbn in Hs; injection Hs as <-; eexists; vm_compute; reflexivity.
  - apply (X18_main_add_reads_past_its_check lower_all decimal_float decimal
             ["meal_tracker.py"; "add"; "lunch"; "650"; "35"]%string
             "add"%string); [reflexivity|reflexivity|]. cbn. lia.
Defined.

Lemma parse_arguments_stray (s : string) (args : list string) :
  is_export_option s = false ->
  DataExport.parse_arguments (s :: args)
  = DataExport.UnknownOption s :: DataExport.parse_arguments args.
Proof.
  intro H. unfold is_export_option in H. cbn [existsb] in H.
  repeat (apply orb_false_elim in H; destruct H as [? H]).
  cbn [DataExport.parse_arguments]. destruct args as [|v rest]; [reflexivity|].
  repeat match goal with E : String.eqb s _ = false |- _ => rewrite E; clear E end.
  reflexivity.
Qed.

Lemma parse_arguments_requests (requests : list Request) (tail : list string) :
  Forall stray_is_no_option requests ->
  DataExport.parse_arguments (flat_map arguments_of requests ++ tail)
  = flat_map steps_of requests ++ DataExport.parse_arguments tail.
Proof.
  induction 1 as [|r requests Hr _ IH]; [reflexivity|].
  cbn [flat_map]. rewrite <- !app_assoc.
  destruct r as [f|f|f|p|s]; cbn [arguments_of steps_of app].
  - cbn [DataExport.parse_arguments]. cbn. rewrite IH. reflexivity.
  - cbn [DataExport.parse_arguments]. cbn. rewrite IH. reflexivity.
  - cbn [DataExport.parse_arguments]. cbn. rewrite IH. reflexivity.
  - cbn [DataExport.parse_arguments]. cbn. rewrite IH. reflexivity.
  - rewrite parse_arguments_stray by exact Hr. rewrite IH. reflexivity.
Qed.

(** X19.  [main] of the export script runs the options in the order they
    are written: each of [--csv], [--detailed-csv] and [--summary-json]
    followed by a value makes one export to that file, whatever the value
    is, [--all] followed by a prefix makes the three exports to the three
    names built on the prefix, and an argument that is no option is reported
    and skipped without ending the loop.  A last argument that has nothing
    after it is reported as unknown even when it is the name of an option. *)
Theorem X19_export_main_runs_options_in_order
  (path_exists loads : string -> bool) (script input_file : string)
  (requests : list Request) :
  Forall stray_is_no_option requests ->
  path_exists input_file = true ->
  loads input_file = true ->
  DataExport.main path_exists loads
    (script :: input_file :: flat_map arguments_of requests)
  = DataExport.Ran input_file (flat_map steps_of requests) /\
  forall last,
    DataExport.main path_exists loads
      (script :: input_file :: flat_map arguments_of requests ++ [last])
    = DataExport.Ran input_file
        (flat_map steps_of requests ++ [DataExport.UnknownOption last]).
Proof.
  intros Hr He Hl. unfold DataExport.main. rewrite He, Hl. split.
  - f_equal. rewrite <- (app_nil_r (flat_map arguments_of requests)).
    rewrite parse_arguments_requests by exact Hr. apply app_nil_r.
  - intro last. f_equal. rewrite parse_arguments_requests by exact Hr.
    reflexivity.
Qed.

Lemma X19_export_main_runs_options_in_order_witness :
  DataExport.main (fun _ => true) (fun _ => true)
    ["data_export.py"; "meals.json"; "--csv"; "--all"; "extra"; "--all"; "out"]%string
  = DataExport.Ran "meals.json"
      [DataExport.ExportToCsv "--all"; DataExport.UnknownOption "extra";
       DataExport.ExportToCsv "out_summary.csv";
       DataExport.ExportDetailedCsv "out_detailed.csv";
       DataExport.ExportSummaryJson "out_summary.json"]%string.
Proof.
  apply (X19_export_main_runs_options_in_order (fun _ => true) (fun _ => true)
           "data_export.py" "meals.json"
           [WantCsv "--all"; Stray "extra"; WantAll "out"]%string).
  - repeat constructor.
  - reflexivity.
  - reflexivity.
Defined.

Lemma split_free (c : ascii) (s : string) :
  free_of c s = true -> split c s = [s].
Proof.
  induction s as [|a s IH]; [reflexivity|].
  cbn [free_of split]. intro H. apply andb_prop in H. destruct H as [Ha Hs].
  apply negb_true_iff in Ha. rewrite Ha, (IH Hs). reflexivity.
Qed.

Lemma split_at_separator (c : ascii) (a b : string) :
  free_of c a = true ->
  split c (a ++ String c b) = a :: split c b.
Proof.
  induction a as [|x a IH]; cbn [free_of split String.append].
  - intros _. rewrite Ascii.eqb_refl. reflexivity.
  - intro H. apply andb_prop in H. destruct H as [Hx Ha].
    apply negb_true_iff in Hx. rewrite Hx, (IH Ha). reflexivity.
Qed.

Lemma width_height_reads (int : string -> option Z) (w h : string) (x y : Z) :
  free_of "x" w = true -> free_of "x" h = true ->
  int w = Some x -> int h = Some y ->
  ImagePreprocessor.width_height int (w ++ "x" ++ h) = Some (x, y).
Proof.
  intros Hw Hh Hx Hy. unfold ImagePreprocessor.width_height.
  change ("x" ++ h)%string with (String "x" h).
  rewrite split_at_separator by exact Hw. rewrite split_free by exact Hh.
  cbn [map]. rewrite Hx, Hy. reflexivity.
Qed.

Lemma parse_options_positional (int : string -> option Z) (s : string)
  (args : list string) (size : Z * Z) (q : Z) (kept : list string) :
  String.eqb s "--max-size" = false -> String.eqb s "--quality" = false ->
  ImagePreprocessor.parse_options int (s :: args) size q kept
  = ImagePreprocessor.parse_options int args size q (kept ++ [s]).
Proof.
  intros H1 H2. cbn [ImagePreprocessor.parse_options].
  destruct args as [|v rest]; [reflexivity|]. rewrite H1, H2. reflexivity.
Qed.

Lemma parse_options_tokens (int : string -> option Z) (tokens : list Token)
  (tail : list string) (size : Z * Z) (q : Z) (kept : list string) :
  Forall (readable int) tokens ->
  ImagePreprocessor.parse_options int (flat_map words_of tokens ++ tail)
    size q kept
  = ImagePreprocessor.parse_options int tail
      (last_max_size int tokens size) (last_quality int tokens q)
      (kept ++ positionals tokens).
Proof.
  intro H. revert size q kept.
  induction H as [|t tokens Ht _ IH]; intros size q kept.
  - cbn. rewrite app_nil_r. reflexivity.
  - cbn [flat_map]. rewrite <- app_assoc.
    unfold last_max_size, last_quality, positionals.
    cbn [fold_left flat_map].
    fold (last_max_size int tokens) (last_quality int tokens) (positionals tokens).
    destruct t as [s|w h|v]; cbn [words_of app readable] in *.
    + destruct Ht as [H1 H2].
      rewrite parse_options_positional by assumption.
      rewrite IH, <- app_assoc. reflexivity.
    + destruct Ht as (Hw & Hh & [x Hx] & [y Hy]).
      cbn [ImagePreprocessor.parse_options].
      change (String.eqb "--max-size" "--max-size") with true. cbv iota.
      rewrite (width_height_reads int w h x y Hw Hh Hx Hy).
      rewrite IH, Hx, Hy. reflexivity.
    + destruct Ht as [x Hx].
      cbn [ImagePreprocessor.parse_options].
      change (String.eqb "--quality" "--max-size") with false.
      change (String.eqb "--quality" "--quality") with true. cbv iota.
      rewrite Hx, IH. reflexivity.
Qed.

(** X20.  The option loop of the image script takes [--max-size WxH] and
    [--quality N] wherever they stand among the arguments: the arguments
    that are left are the others, in their order; of several [--quality] or
    [--max-size] the last one counts, and without one the defaults 85 and
    1920x1920 stay; the numbers are taken as [int] reads them, without a
    check of their range.  A [--quality] whose value [int] does not read
    ends the script whatever follows it. *)
Theorem X20_image_options_anywhere (int : string -> option Z)
  (tokens : list Token) :
  Forall (readable int) tokens ->
  ImagePreprocessor.options int (flat_map words_of tokens)
  = Some (ImagePreprocessor.mk_Options
            (last_max_size int tokens (1920, 1920)%Z)
            (last_quality int tokens 85%Z)
            (positionals tokens)) /\
  forall value rest,
    int value = None ->
    ImagePreprocessor.options int
      (flat_map words_of tokens ++ "--quality"%string :: value :: rest)
    = None.
Proof.
  intro H. unfold ImagePreprocessor.options. split.
  - rewrite <- (app_nil_r (flat_map words_of tokens)).
    rewrite parse_options_tokens by exact H. reflexivity.
  - intros value rest Hv. rewrite parse_options_tokens by exact H.
    cbn [ImagePreprocessor.parse_options].
    change (String.eqb "--quality" "--max-size") with false.
    change (String.eqb "--quality" "--quality") with true. cbv iota.
    rewrite Hv. reflexivity.
Qed.

Lemma X20_image_options_anywhere_witness :
  ImagePreprocessor.options decimal
    ["--quality"; "90"; "photo.jpg"; "--max-size"; "800x600"; "--quality";
     "300"; "out.jpg"]%string
  = Some (ImagePreprocessor.mk_Options (800, 600)%Z 300%Z
            ["photo.jpg"; "out.jpg"]%string).
Proof.
  apply (X20_image_options_anywhere decimal
           [SetQuality "90"; Positional "photo.jpg"; SetMaxSize "800" "600";
            SetQuality "300"; Positional "out.jpg"]%string).
  repeat constructor; eexists; vm_compute; reflexivity.
Defined.

(** ** Sorting strings *)

Lemma insert_sorted_perm {A : Type} (after : A -> A -> bool) (x : A)
  (l : list A) : Permutation (insert_sorted after x l) (x :: l).
Proof.
  induction l as [|y l IH]; cbn [insert_sorted]; [reflexivity|].
  destruct (after x y); [|reflexivity].
  rewrite IH. apply perm_swap.
Qed.

Lemma sort_by_perm {A : Type} (after : A -> A -> bool) (l : list A) :
  Permutation (sort_by after l) l.
Proof.
  induction l as [|x l IH]; cbn [sort_by]; [reflexivity|].
  rewrite insert_sorted_perm. constructor. exact IH.
Qed.

Section Sorting.

Variable A : Type.
Variable after : A -> A -> bool.
Variable R : A -> A -> Prop.
Hypothesis stays : forall x y, after x y = false -> R x y.
Hypothesis moves : forall x y, after x y = true -> R y x.

Lemma insert_sorted_HdRel (y x : A) (l : list A) :
  R y x -> HdRel R y l -> HdRel R y (insert_sorted after x l).
Proof.
  intros Hyx Hl. destruct l as [|z l]; cbn [insert_sorted].
  - constructor. exact Hyx.
  - destruct (after x z); constructor; [|exact Hyx].
    inversion Hl; assumption.
Qed.

Lemma insert_sorted_Sorted (x : A) (l : list A) :
  Sorted R l -> Sorted R (insert_sorted after x l).
Proof.
  induction 1 as [|y l Hs IH Hhd]; cbn [insert_sorted].
  - repeat constructor.
  - destruct (after x y) eqn:E.
    + constructor; [exact IH|].
      apply insert_sorted_HdRel; [apply moves; exact E|exact Hhd].
    + constructor; [constructor; assumption|].
      constructor. apply stays. exact E.
Qed.

Lemma sort_by_Sorted (l : list A) : Sorted R (sort_by after l).
Proof.
  induction l as [|x l IH]; cbn [sort_by]; [constructor|].
  apply insert_sorted_Sorted. exact IH.
Qed.

End Sorting.

Lemma Sorted_NoDup_strict {A : Type} (R S : A -> A -> Prop) (l : list A) :
  (forall a b, R a b -> a <> b -> S a b) ->
  NoDup l -> Sorted R l -> Sorted S l.
Proof.
  intros HRS Hnd Hs. induction Hs as [|a l Hs IH Hhd]; [constructor|].
  inversion Hnd as [|? ? Hnin Hnd']; subst.
  constructor; [apply IH; exact Hnd'|].
  destruct Hhd as [|b l Hab]; constructor.
  apply HRS; [exact Hab|]. intros ->. apply Hnin. left. reflexivity.
Qed.

Lemma Sorted_map {A B : Type} (R : B -> B -> Prop) (f : A -> B) (l : list A) :
  Sorted (fun a b => R (f a) (f b)) l -> Sorted R (map f l).
Proof.
  induction 1 as [|a l Hs IH Hhd]; cbn [map]; [constructor|].
  constructor; [exact IH|].
  destruct Hhd; cbn [map]; constructor. assumption.
Qed.

Lemma ltb_asym (a b : string) : String.ltb a b = true -> String.ltb b a = false.
Proof.
  unfold String.ltb. rewrite (String.compare_antisym a b).
  destruct (String.compare b a); cbn; congruence.
Qed.

Lemma ltb_total (a b : string) :
  String.ltb a b = false -> a <> b -> String.ltb b a = true.
Proof.
  unfold String.ltb. rewrite (String.compare_antisym a b).
  destruct (String.compare b a) eqn:E; cbn; try congruence.
  intros _ Hne. exfalso. apply Hne. symmetry.
  apply String.compare_eq_iff. exact E.
Qed.

(** [sorted(keys)] is strictly ascending and [sorted(keys, reverse=True)]
    strictly descending, for keys without duplicates. *)
Lemma sorted_strings_ascending (l : list string) :
  NoDup l -> Sorted string_lt (sorted_strings l).
Proof.
  intro Hnd.
  apply (Sorted_NoDup_strict (fun a b => String.ltb b a = false) string_lt).
  - intros a b Hab Hne. apply (ltb_total b a Hab). intros ->. apply Hne.
    reflexivity.
  - eapply Permutation_NoDup; [symmetry; apply sort_by_perm|exact Hnd].
  - apply sort_by_Sorted with (after := fun x y => String.ltb y x).
    + intros x y H. exact H.
    + intros x y H. apply ltb_asym. exact H.
Qed.

Lemma sorted_strings_descending (l : list string) :
  NoDup l -> Sorted (fun a b => string_lt b a) (sorted_strings_reverse l).
Proof.
  intro Hnd.
  apply (Sorted_NoDup_strict (fun a b => String.ltb a b = false)
           (fun a b => string_lt b a)).
  - intros a b Hab Hne. exact (ltb_total a b Hab Hne).
  - eapply Permutation_NoDup; [symmetry; apply sort_by_perm|exact Hnd].
  - apply sort_by_Sorted with (after := fun x y => String.ltb x y).
    + intros x y H. exact H.
    + intros x y H. apply ltb_asym. exact H.
Qed.

(** ** Subscripts *)

Lemma dict_get_In {V : Type} (d : dict V) (k : string) (v : V) :
  NoDup (map fst d) -> In (k, v) d -> dict_get k d = Some v.
Proof.
  induction d as [|[k' v'] d IH]; intros Hnd Hin; [destruct Hin|].
  cbn [dict_get]. cbn [map fst] in Hnd. inversion Hnd as [|? ? Hnin Hnd']; subst.
  destruct Hin as [E|Hin].
  - injection E as -> ->. rewrite String.eqb_refl. reflexivity.
  - destruct (String.eqb k k') eqn:E.
    + apply String.eqb_eq in E. subst k'. exfalso. apply Hnin.
      apply (in_map fst) in Hin. exact Hin.
    + apply IH; assumption.
Qed.

Lemma subscript_entries {V : Type} (d : dict V) (dflt : V) :
  NoDup (map fst d) ->
  map (fun k => (k, subscript d k dflt)) (keys d) = d.
Proof.
  intro Hnd. unfold keys. rewrite map_map.
  rewrite <- (map_id d) at 2. apply map_ext_in.
  intros [k v] Hin. cbn [fst]. unfold subscript.
  rewrite (dict_get_In d k v Hnd Hin). reflexivity.
Qed.

(** The rows read off a dictionary in the order of sorted keys are its
    entries, in another order. *)
Lemma sorted_entries_perm {V : Type} (after : string -> string -> bool)
  (d : dict V) (dflt : V) :
  NoDup (map fst d) ->
  Permutation (map (fun k => (k, subscript d k dflt)) (sort_by after (keys d))) d.
Proof.
  intro Hnd.
  eapply Permutation_trans; [apply Permutation_map, sort_by_perm|].
  rewrite (subscript_entries d dflt Hnd). reflexivity.
Qed.

Lemma sorted_entries_In {V : Type} (after : string -> string -> bool)
  (d : dict V) (dflt : V) (k : string) (v : V) :
  NoDup (map fst d) ->
  In (k, v) (map (fun k => (k, subscript d k dflt)) (sort_by after (keys d)))
  <-> In (k, v) d.
Proof.
  intro Hnd. split; intro H.
  - eapply Permutation_in; [apply sorted_entries_perm; exact Hnd|exact H].
  - eapply Permutation_in;
      [symmetry; apply sorted_entries_perm; exact Hnd|exact H].
Qed.

(** ** The weekly report *)

Lemma comprehension_map {A B : Type} (f : A -> result B) (g : A -> B)
  (xs : list A) :
  (forall x, In x xs -> f x = Ok (g x)) ->
  comprehension f xs = Ok (map g xs).
Proof.
  induction xs as [|x xs IH]; intro H; [reflexivity|].
  cbn [comprehension map]. rewrite (H x (or_introl eq_refl)). cbn [bind].
  rewrite IH by (intros y Hy; apply H; right; exact Hy). reflexivity.
Qed.

Lemma flat_map_map_nil {A B C : Type} (f : B -> list C) (g : A -> B)
  (l : list A) :
  (forall x, f (g x) = []) -> flat_map f (map g l) = [].
Proof.
  intro H. induction l as [|x l IH]; [reflexivity|].
  cbn [map flat_map]. rewrite H, IH. reflexivity.
Qed.

Lemma flat_map_map_one {A B C : Type} (f : B -> list C) (g : A -> B)
  (h : A -> C) (l : list A) :
  (forall x, f (g x) = [h x]) -> flat_map f (map g l) = map h l.
Proof.
  intro H. induction l as [|x l IH]; [reflexivity|].
  cbn [map flat_map]. rewrite H, IH. reflexivity.
Qed.

Lemma recommendations_bounded (totals : NutritionReport.ReportTotals)
  (meals : list Meal) :
  exists recs,
    NutritionReport._generate_recommendations totals meals = Ok recs /\
    (1 <= List.length recs <= 5)%nat.
Proof.
  unfold NutritionReport._generate_recommendations.
  rewrite !truediv_7. cbn [bind].
  destruct (Qltb 0 (NutritionReport.t_protein totals
                    + NutritionReport.t_carbs totals
                    + NutritionReport.t_fat totals)) eqn:E.
  - rewrite !(fun a => truediv_positive a _ E). cbn [bind].
    unfold NutritionReport.append.
    repeat match goal with
           | |- context [Qltb ?a ?b] => destruct (Qltb a b)
           end;
      eexists; (split; [reflexivity|]); cbn; lia.
  - cbn [bind]. unfold NutritionReport.append.
    repeat match goal with
           | |- context [Qltb ?a ?b] => destruct (Qltb a b)
           end;
      eexists; (split; [reflexivity|]); cbn; lia.
Qed.

Lemma naive_parses (meals : list Meal) :
  Forall timestamp_naive meals -> Forall timestamp_parses meals.
Proof.
  apply Forall_impl. intros m (dt & H & _). exists dt. exact H.
Qed.

Lemma Forall_filter {A : Type} (P : A -> Prop) (p : A -> bool) (l : list A) :
  Forall P l -> Forall P (filter p l).
Proof.
  intro H. apply Forall_forall. intros x Hx. apply filter_In in Hx.
  destruct Hx as [Hx _]. revert x Hx. apply Forall_forall. exact H.
Qed.

Lemma flat_map_of_map {A B C : Type} (f : B -> list C) (g : A -> B)
  (l : list A) : flat_map f (map g l) = flat_map (fun x => f (g x)) l.
Proof.
  induction l as [|x l IH]; [reflexivity|].
  cbn [map flat_map]. rewrite IH. reflexivity.
Qed.

Lemma flat_map_none {A C : Type} (l : list A) :
  flat_map (fun _ : A => @nil C) l = [].
Proof. induction l as [|x l IH]; [reflexivity|exact IH]. Qed.

Lemma flat_map_each {A C : Type} (h : A -> C) (l : list A) :
  flat_map (fun x => [h x]) l = map h l.
Proof.
  induction l as [|x l IH]; [reflexivity|].
  cbn [map flat_map app]. rewrite IH. reflexivity.
Qed.

(** Reads the lines of one kind off a report that is written out. *)
Ltac read_lines :=
  rewrite ?flat_map_app; cbn [flat_map app];
  rewrite ?flat_map_of_map; cbn beta iota;
  rewrite ?flat_map_none, ?flat_map_each; cbn [app]; rewrite ?app_nil_r.

Lemma map_pair_id {A B : Type} (l : list (A * B)) :
  map (fun x => (fst x, snd x)) l = l.
Proof.
  induction l as [|[a b] l IH]; [reflexivity|].
  cbn [map fst snd]. rewrite IH. reflexivity.
Qed.

Lemma match_nonempty {A B : Type} (l : list A) (a b : B) :
  l <> [] -> match l with [] => a | _ :: _ => b end = b.
Proof. destruct l; [contradiction|reflexivity]. Qed.

Lemma weekly_report_long (generated : datetime) (now cutoff : Z)
  (meals : list Meal) :
  minus_days now 7 = Ok cutoff ->
  Forall timestamp_naive meals ->
  let recent := filter (strictly_after cutoff) meals in
  let n := Z.of_nat (List.length recent) in
  let daily :=
    fold_left (fun d m => dict_update (day_of m) (day_update m)
                            NutritionReport.day_default d) recent [] in
  let types := NutritionAnalyzer.get_meal_frequency recent in
  let totals := NutritionReport._calculate_totals recent in
  recent <> [] ->
  exists lines foods recs,
    NutritionReport.generate_weekly_report generated now meals = Ok lines /\
    NutritionReport._get_top_foods recent 10 = Ok foods /\
    NutritionReport._generate_recommendations totals recent = Ok recs /\
    headings lines
    = ["OVERVIEW"; "DAILY BREAKDOWN"; "WEEKLY TOTALS"; "DAILY AVERAGES"]%string
      ++ (if Qltb 0 (NutritionReport.t_protein totals
                     + NutritionReport.t_carbs totals
                     + NutritionReport.t_fat totals)
          then ["MACRONUTRIENT DISTRIBUTION"]%string else [])
      ++ ["MEAL TYPE DISTRIBUTION"]%string
      ++ (if is_nil foods then [] else ["TOP 10 FOODS"]%string)
      ++ ["RECOMMENDATIONS"]%string /\
    total_meals_of lines = [n] /\
    day_rows lines
    = map (fun d => (d, subscript daily d NutritionReport.day_default))
        (sorted_strings_reverse (keys daily)) /\
    totals_of lines
    = [("Calories", NutritionReport.t_calories totals);
       ("Protein", NutritionReport.t_protein totals);
       ("Carbs", NutritionReport.t_carbs totals);
       ("Fat", NutritionReport.t_fat totals)]%string /\
    meal_type_rows lines
    = map (fun t => (capitalize t, subscript types t 0%Z,
                     inject_Z (subscript types t 0%Z) / inject_Z n * 100))
        (sorted_strings (keys types)) /\
    top_food_rows lines = enumerate foods 1 /\
    bullets lines = recs.
Proof.
  intros Hc Hall recent n daily types totals Hne.
  destruct (recent_meals_naive now 7 meals Hall cutoff Hc) as (_ & _ & Hrec).
  specialize (Hrec eq_refl). fold recent in Hrec.
  destruct (recommendations_bounded totals recent) as (recs & Hrecs & _).
  pose proof (report_top_foods_value recent 10) as Hfoods.
  set (foods := map _ _) in Hfoods.
  assert (Hparse : Forall timestamp_parses recent).
  { apply Forall_filter, naive_parses, Hall. }
  assert (Hn : ~ inject_Z n == 0).
  { unfold n. destruct recent; [contradiction|].
    cbn [List.length]. unfold Qeq. cbn. lia. }
  assert (Htypes : types <> []).
  { unfold types, NutritionAnalyzer.get_meal_frequency.
    intro H. apply (f_equal (map fst)) in H.
    rewrite (group_keys Meal Z meal_type_of (fun _ k => (k + 1)%Z) 0%Z) in H.
    destruct recent; [contradiction|]. discriminate. }
  unfold NutritionReport.generate_weekly_report. rewrite Hrec. cbn [bind].
  rewrite (match_nonempty recent _ _ Hne).
  fold n. rewrite !truediv_7. cbn [bind].
  unfold NutritionReport._group_by_day.
  rewrite (group_by_day_as_fold recent Hparse). fold daily. cbn [bind].
  fold totals.
  change (fold_left
            (fun meal_types meal =>
               dict_update (get (mealType meal) "unknown"%string)
                 (fun k => (k + 1)%Z) 0%Z meal_types) recent [])
    with types.
  destruct (Qltb 0 (NutritionReport.t_protein totals
                    + NutritionReport.t_carbs totals
                    + NutritionReport.t_fat totals)) eqn:Etm;
    [rewrite !(fun a => truediv_positive a _ Etm)|]; cbn [bind];
    rewrite (match_nonempty types _ _ Htypes);
    (rewrite (comprehension_map _
               (fun t => NutritionReport.MealTypeRow (capitalize t)
                           (subscript types t 0%Z)
                           (inject_Z (subscript types t 0%Z) / inject_Z n * 100)));
     [|intros t _; rewrite (truediv_nonzero _ _ Hn); reflexivity]);
    cbn [bind]; rewrite Hfoods, Hrecs; cbn [bind].
  all: clearbody foods; destruct foods as [|food foods];
    eexists; eexists; exists recs; (split; [reflexivity|]);
    (split; [reflexivity|]); (split; [reflexivity|]);
    unfold headings, total_meals_of, day_rows, totals_of, meal_type_rows,
      top_food_rows, bullets;
    repeat split; read_lines;
    first [reflexivity | apply map_id | apply map_pair_id].
Qed.

Lemma nil_or_not {A : Type} (l : list A) : l = [] \/ l <> [].
Proof. destruct l; [left; reflexivity|right; discriminate]. Qed.

Lemma weekly_report_short (generated : datetime) (now cutoff : Z)
  (meals : list Meal) :
  minus_days now 7 = Ok cutoff ->
  Forall timestamp_naive meals ->
  filter (strictly_after cutoff) meals = [] ->
  NutritionReport.generate_weekly_report generated now meals
  = Ok (header_lines generated ++ [NutritionReport.NoMeals]).
Proof.
  intros Hc Hall He.
  destruct (recent_meals_naive now 7 meals Hall cutoff Hc) as (_ & _ & Hrec).
  specialize (Hrec eq_refl).
  unfold NutritionReport.generate_weekly_report. rewrite Hrec, He. reflexivity.
Qed.

Lemma recent_ok_naive (cutoff : Z) (meals : list Meal) :
  forall kept, recent cutoff meals = Ok kept -> Forall timestamp_naive meals.
Proof.
  induction meals as [|m meals IH]; intros kept H; [constructor|].
  unfold recent in *. cbn [comprehension_if] in H.
  destruct (consumed_at m) as [dt|e] eqn:Hdt; [|discriminate].
  cbn [bind] in H. unfold gt_naive in H at 1.
  destruct (tzinfo dt) as [off|] eqn:Htz; [discriminate|].
  cbn [bind] in H.
  destruct (comprehension_if
              (fun meal => dt0 <- consumed_at meal ;; gt_naive dt0 cutoff)
              meals) as [rest|e] eqn:Hrest; [|discriminate].
  constructor; [exists dt; auto | apply (IH rest); reflexivity].
Qed.

Lemma weekly_report_ok_naive (generated : datetime) (now cutoff : Z)
  (meals : list Meal) (lines : list NutritionReport.line) :
  minus_days now 7 = Ok cutoff ->
  NutritionReport.generate_weekly_report generated now meals = Ok lines ->
  Forall timestamp_naive meals.
Proof.
  intros Hc H. unfold NutritionReport.generate_weekly_report in H.
  unfold NutritionReport.recent_meals in H. rewrite Hc in H. cbn [bind] in H.
  destruct (recent cutoff meals) as [kept|e] eqn:E; [|discriminate].
  exact (recent_ok_naive cutoff meals kept E).
Qed.

Lemma Qltb_comp (a a' b b' : Q) :
  a == a' -> b == b' -> Qltb a b = Qltb a' b'.
Proof.
  intros Ha Hb. destruct (Qltb a b) eqn:E, (Qltb a' b') eqn:E'; try reflexivity.
  - apply Qltb_lt in E. apply Qltb_ge in E'. rewrite Ha, Hb in E.
    exfalso. exact (Qlt_not_le _ _ E E').
  - apply Qltb_ge in E. apply Qltb_lt in E'. rewrite Ha, Hb in E.
    exfalso. exact (Qlt_not_le _ _ E' E).
Qed.

Lemma report_macro_grams (meals : list Meal) :
  let totals := NutritionReport._calculate_totals meals in
  NutritionReport.t_protein totals + NutritionReport.t_carbs totals
  + NutritionReport.t_fat totals == macro_grams meals.
Proof.
  cbv zeta. unfold NutritionReport._calculate_totals, macro_grams.
  destruct (report_totals_sums meals (NutritionReport.mk_ReportTotals 0 0 0 0 0))
    as (_ & Hp & Hc & Hf & _).
  cbv zeta in Hp, Hc, Hf. rewrite Hp, Hc, Hf. cbn. ring.
Qed.

Lemma top_foods_length (meals : list Meal) (foods : list NutritionReport.TopFood) :
  NutritionReport._get_top_foods meals 10 = Ok foods ->
  List.length foods
  = Nat.min 10 (List.length (first_seen (map item_label (all_items meals)))).
Proof.
  rewrite report_top_foods_value. intro H. injection H as <-.
  rewrite length_map. unfold slice_to. change (10 <? 0)%Z with false.
  cbv iota. rewrite length_firstn. change (Z.to_nat 10) with 10%nat.
  f_equal. rewrite (Permutation_length (sorted_foods_perm meals)).
  rewrite <- (length_map fst), food_count_keys. reflexivity.
Qed.

Lemma is_nil_length {A : Type} (l : list A) :
  is_nil l = (List.length l =? 0)%nat.
Proof. destruct l; reflexivity. Qed.

Lemma top_foods_nil (meals : list Meal) (foods : list NutritionReport.TopFood) :
  NutritionReport._get_top_foods meals 10 = Ok foods ->
  is_nil foods = is_nil (all_items meals).
Proof.
  intro H. rewrite (is_nil_length foods), (top_foods_length meals foods H).
  destruct (all_items meals) as [|item items]; [reflexivity|].
  cbn [map first_seen List.length is_nil].
  destruct (List.length _); reflexivity.
Qed.

(** X21.  When the clock allows the cutoff of 7 days, [generate_weekly_report]
    returns exactly when every timestamp of the list is naive.  Without a
    meal after the cutoff the report is the header and the line that no
    meals were found.  With one, it gives the number of those meals and the
    sections in this order: overview, daily breakdown, weekly totals, daily
    averages, the macronutrient distribution only when the grams of protein,
    carbohydrates and fat add up to more than 0, the meal type distribution
    always, the top foods only when some meal has a composition item, and
    between 1 and 5 recommendations: no division of the report can fail. *)
Theorem X21_weekly_report_sections (generated : datetime) (now cutoff : Z)
  (meals : list Meal) :
  minus_days now 7 = Ok cutoff ->
  let recent := filter (strictly_after cutoff) meals in
  (forall lines,
     NutritionReport.generate_weekly_report generated now meals = Ok lines ->
     Forall timestamp_naive meals) /\
  (Forall timestamp_naive meals ->
   exists lines,
     NutritionReport.generate_weekly_report generated now meals = Ok lines /\
     (recent = [] ->
      lines = header_lines generated ++ [NutritionReport.NoMeals]) /\
     (recent <> [] ->
      headings lines
      = ["OVERVIEW"; "DAILY BREAKDOWN"; "WEEKLY TOTALS"; "DAILY AVERAGES"]%string
        ++ (if Qltb 0 (macro_grams recent)
            then ["MACRONUTRIENT DISTRIBUTION"]%string else [])
        ++ ["MEAL TYPE DISTRIBUTION"]%string
        ++ (if is_nil (all_items recent) then [] else ["TOP 10 FOODS"]%string)
        ++ ["RECOMMENDATIONS"]%string /\
      total_meals_of lines = [Z.of_nat (List.length recent)] /\
      (1 <= List.length (bullets lines) <= 5)%nat)).
Proof.
  intros Hc recent. split.
  - intros lines H. exact (weekly_report_ok_naive generated now cutoff meals lines Hc H).
  - intro Hall. destruct (nil_or_not recent) as [He|Hne].
    + exists (header_lines generated ++ [NutritionReport.NoMeals]).
      split; [apply (weekly_report_short generated now cutoff); assumption|].
      split; [reflexivity|]. intro H. contradiction.
    + destruct (weekly_report_long generated now cutoff meals Hc Hall Hne)
        as (lines & foods & recs & Hrun & Hfoods & Hrecs & Hh & Hn & _ & _ & _ & _ & Hb).
      exists lines. split; [exact Hrun|]. split; [intro H; contradiction|].
      intros _. split; [|split].
      * rewrite Hh. fold recent.
        rewrite (Qltb_comp 0 0 _ (macro_grams recent) (Qeq_refl 0)
                   (report_macro_grams recent)).
        rewrite (top_foods_nil recent foods Hfoods). reflexivity.
      * exact Hn.
      * rewrite Hb.
        destruct (recommendations_bounded
                    (NutritionReport._calculate_totals recent) recent)
          as (recs' & Hrecs' & Hlen).
        fold recent in Hrecs. rewrite Hrecs in Hrecs'. injection Hrecs' as <-.
        exact Hlen.
Qed.

Lemma X21_weekly_report_sections_witness :
  exists lines,
    NutritionReport.generate_weekly_report
      (mk_datetime 2024 1 10 9 30 0 0 None) clock_2024_01_10
      [meal_on "2024-01-09T08:00:00" 300; meal_on "2024-01-01T08:00:00" 200]
    = Ok lines /\
    headings lines
    = ["OVERVIEW"; "DAILY BREAKDOWN"; "WEEKLY TOTALS"; "DAILY AVERAGES";
       "MEAL TYPE DISTRIBUTION"; "RECOMMENDATIONS"]%string.
Proof.
  destruct (X21_weekly_report_sections (mk_datetime 2024 1 10 9 30 0 0 None)
              clock_2024_01_10 (clock_2024_01_10 - 7 * 86400000000)%Z
              [meal_on "2024-01-09T08:00:00" 300;
               meal_on "2024-01-01T08:00:00" 200])
    as [_ H].
  - reflexivity.
  - destruct H as (lines & Hrun & _ & Hlong).
    + repeat constructor; eexists; vm_compute; split; reflexivity.
    + exists lines. split; [exact Hrun|].
      destruct Hlong as (Hh & _); [vm_compute; discriminate|].
      rewrite Hh. vm_compute. reflexivity.
Defined.

Lemma Qsum_perm (xs ys : list Q) : Permutation xs ys -> Qsum xs == Qsum ys.
Proof.
  induction 1 as [|x xs ys _ IH|x y xs|xs ys zs _ IH1 _ IH2].
  - reflexivity.
  - rewrite !Qsum_cons, IH. reflexivity.
  - rewrite !Qsum_cons. ring.
  - rewrite IH1. exact IH2.
Qed.

Lemma day_sums_from (meals : list Meal) :
  forall d : dict NutritionReport.DayData,
  let daily :=
    fold_left (fun d m => dict_update (day_of m) (day_update m)
                            NutritionReport.day_default d) meals d in
  Zsum (map (fun kv => NutritionReport.count (snd kv)) daily)
  = (Zsum (map (fun kv => NutritionReport.count (snd kv)) d)
     + Z.of_nat (List.length meals))%Z /\
  Qsum (map (fun kv => NutritionReport.calories (snd kv)) daily)
  == Qsum (map (fun kv => NutritionReport.calories (snd kv)) d)
     + Qsum (map meal_calories meals).
Proof.
  induction meals as [|m meals IH]; intro d; cbv zeta.
  - cbn [fold_left List.length map Z.of_nat]. split; [lia|].
    unfold Qsum at 3. cbn [fold_left]. ring.
  - cbn [fold_left]. destruct (IH (dict_update (day_of m) (day_update m)
                                     NutritionReport.day_default d)) as [Hz Hq].
    cbv zeta in Hz, Hq. rewrite Hz, Hq. split.
    + rewrite (dict_update_Zsum NutritionReport.DayData (day_update m)
                 NutritionReport.day_default NutritionReport.count 1%Z);
        [| intro v; reflexivity | reflexivity].
      cbn [List.length]. lia.
    + rewrite (dict_update_Qsum NutritionReport.DayData (day_update m)
                 NutritionReport.day_default NutritionReport.calories
                 (meal_calories m));
        [| intro v; reflexivity | reflexivity].
      cbn [map]. rewrite Qsum_cons. ring.
Qed.



Lemma Qsum_shares {A : Type} (g : A -> Z) (c : Q) (l : list A) :
  Qsum (map (fun x => inject_Z (g x) / c * 100) l)
  == inject_Z (Zsum (map g l)) / c * 100.
Proof.
  induction l as [|x l IH]; cbn [map].
  - unfold Qsum, Zsum. cbn [fold_left]. unfold Qdiv. ring.
  - rewrite Qsum_cons, Zsum_cons, IH, inject_Z_plus. unfold Qdiv. ring.
Qed.

Lemma subscript_In {V : Type} (d : dict V) (dflt : V) (k : string) :
  NoDup (map fst d) -> In k (keys d) -> In (k, subscript d k dflt) d.
Proof.
  intros Hnd Hk. unfold keys in Hk. apply in_map_iff in Hk.
  destruct Hk as ([k' v] & <- & Hin). cbn [fst]. unfold subscript.
  rewrite (dict_get_In d k' v Hnd Hin). exact Hin.
Qed.



Lemma enumerate_snd {A : Type} (xs : list A) (start : Z) :
  map snd (enumerate xs start) = xs.
Proof.
  revert start. induction xs as [|x xs IH]; intro start; [reflexivity|].
  cbn [enumerate map snd]. rewrite IH. reflexivity.
Qed.

Lemma enumerate_fst {A : Type} (xs : list A) (start : nat) :
  map fst (enumerate xs (Z.of_nat start))
  = map Z.of_nat (seq start (List.length xs)).
Proof.
  revert start. induction xs as [|x xs IH]; intro start; [reflexivity|].
  cbn [enumerate map fst List.length seq].
  replace (Z.of_nat start + 1)%Z with (Z.of_nat (S start)) by lia.
  rewrite IH. reflexivity.
Qed.

(** X24.  The top foods of the weekly report are what [_get_top_foods]
    returns for the meals after the cutoff and the limit 10, numbered 1, 2,
    3 and so on in that order; there are as many rows as these meals have
    distinct item labels, and never more than 10. *)
Theorem X24_weekly_top_foods_numbered (generated : datetime) (now cutoff : Z)
  (meals : list Meal) :
  minus_days now 7 = Ok cutoff ->
  Forall timestamp_naive meals ->
  let recent := filter (strictly_after cutoff) meals in
  let labels := first_seen (map item_label (all_items recent)) in
  exists lines foods,
    NutritionReport.generate_weekly_report generated now meals = Ok lines /\
    NutritionReport._get_top_foods recent 10 = Ok foods /\
    map snd (top_food_rows lines) = foods /\
    map fst (top_food_rows lines) = map Z.of_nat (seq 1 (List.length foods)) /\
    List.length foods = Nat.min 10 (List.length labels).
Proof.
  intros Hc Hall recent labels. destruct (nil_or_not recent) as [He|Hne].
  - exists (header_lines generated ++ [NutritionReport.NoMeals]), [].
    split; [apply (weekly_report_short generated now cutoff); assumption|].
    unfold labels. rewrite He. repeat split; reflexivity.
  - destruct (weekly_report_long generated now cutoff meals Hc Hall Hne)
      as (lines & foods & recs & Hrun & Hfoods & _ & _ & _ & _ & _ & _ & Hrows & _).
    fold recent in Hfoods.
    exists lines, foods. split; [exact Hrun|]. split; [exact Hfoods|].
    rewrite Hrows. split; [apply enumerate_snd|]. split.
    + apply (enumerate_fst foods 1).
    + apply top_foods_length. exact Hfoods.
Qed.

Lemma X24_weekly_top_foods_numbered_witness :
  exists lines,
    NutritionReport.generate_weekly_report
      (mk_datetime 2024 1 10 9 30 0 0 None) clock_2024_01_10
      [meal_served "2024-01-08T08:00:00" "lunch"
         [food_item "egg" 80; food_item "rice" 200];
       meal_served "2024-01-09T08:00:00" "dinner" [food_item "rice" 220]]
    = Ok lines /\
    map fst (top_food_rows lines) = [1; 2]%Z.
Proof.
  destruct (X24_weekly_top_foods_numbered (mk_datetime 2024 1 10 9 30 0 0 None)
              clock_2024_01_10 (clock_2024_01_10 - 7 * 86400000000)%Z
              [meal_served "2024-01-08T08:00:00" "lunch"
                 [food_item "egg" 80; food_item "rice" 200];
               meal_served "2024-01-09T08:00:00" "dinner"
                 [food_item "rice" 220]])
    as (lines & foods & Hrun & Hfoods & _ & Hfst & _).
  - reflexivity.
  - repeat constructor; eexists; vm_compute; split; reflexivity.
  - exists lines. split; [exact Hrun|]. rewrite Hfst.
    vm_compute in Hfoods. injection Hfoods as <-. reflexivity.
Defined.

(** ** The summary of the analyzer *)

Lemma analyze_macros_returns (meals : list Meal) :
  exists macros, NutritionAnalyzer.analyze_macros meals = Ok macros.
Proof.
  unfold NutritionAnalyzer.analyze_macros, NutritionAnalyzer.percentages.
  destruct (Qltb 0 _) eqn:E.
  - rewrite !(fun a => truediv_positive a _ E). eexists. reflexivity.
  - eexists. reflexivity.
Qed.

Lemma daily_averages_7_returns (now cutoff : Z) (meals : list Meal) :
  minus_days now 7 = Ok cutoff ->
  ((exists averages,
      NutritionAnalyzer.get_daily_averages now 7 meals = Ok averages)
   <-> Forall timestamp_naive meals).
Proof.
  intro Hc. unfold NutritionAnalyzer.get_daily_averages,
    NutritionAnalyzer.recent_meals. rewrite Hc. cbn [bind]. split.
  - intros [averages H].
    destruct (recent cutoff meals) as [kept|e] eqn:E; [|discriminate].
    exact (recent_ok_naive cutoff meals kept E).
  - intro Hall. rewrite (recent_naive cutoff meals Hall). cbn [bind].
    destruct (filter (strictly_after cutoff) meals); [eexists; reflexivity|].
    change (inject_Z 7) with 7. rewrite !truediv_7. eexists. reflexivity.
Qed.

Lemma descending_map_snd (f : string -> string) (l : list (string * Z)) :
  descending snd l -> descending snd (map (fun x => (f (fst x), snd x)) l).
Proof.
  unfold descending. induction 1 as [|x l Hs IH Hx]; cbn [map]; constructor.
  - exact IH.
  - apply Forall_map. cbn [snd]. exact Hx.
Qed.

(** X25.  [print_summary] gets to its end exactly when every timestamp of
    the file is naive (given a clock that allows the cutoff).  Otherwise it
    has printed the number of meals, the macronutrient totals and the meal
    type frequency when [get_daily_averages] raises: the last thing printed
    is the title of the daily averages, and no average and no top food is
    shown.  In both cases the frequency rows are in descending order of
    their counts and the counts add up to the number of meals printed at
    the top. *)
Theorem X25_summary_stops_at_averages (now cutoff : Z) (meals : list Meal) :
  minus_days now 7 = Ok cutoff ->
  let out := fst (NutritionAnalyzer.print_summary now meals) in
  let raised := snd (NutritionAnalyzer.print_summary now meals) in
  (raised = None <-> Forall timestamp_naive meals) /\
  In (NutritionAnalyzer.MealsAnalyzed (Z.of_nat (List.length meals))) out /\
  Zsum (map snd (frequency_rows out)) = Z.of_nat (List.length meals) /\
  descending snd (frequency_rows out) /\
  (raised <> None ->
   last out NutritionAnalyzer.Ruler
   = NutritionAnalyzer.Part "7-DAY DAILY AVERAGES" /\
   average_lines out = [] /\ food_rows out = []) /\
  (raised = None ->
   exists top_foods,
     NutritionAnalyzer.get_top_foods meals 10 = Ok top_foods /\
     food_rows out = enumerate top_foods 1 /\
     List.length (average_lines out) = 4%nat).
Proof.
  intros Hc out raised. subst out raised.
  unfold NutritionAnalyzer.print_summary.
  destruct (analyze_macros_returns meals) as [macros ->].
  rewrite get_top_foods_value.
  set (frequency := NutritionAnalyzer.get_meal_frequency meals).
  assert (Hsum : Zsum (map snd (map (fun x : string * Z => (capitalize (fst x), snd x))
                                  (sorted_reverse (fun x => snd x) frequency)))
                 = Z.of_nat (List.length meals)).
  { rewrite map_map. cbn [snd].
    rewrite (Zsum_perm _ _ (Permutation_map (fun x : string * Z => snd x)
                              (sorted_reverse_perm _ (fun x => snd x) frequency))).
    apply (meal_frequency_sum meals []). }
  assert (Hdesc : descending snd
                    (map (fun x : string * Z => (capitalize (fst x), snd x))
                       (sorted_reverse (fun x => snd x) frequency))).
  { apply descending_map_snd.
    apply (sorted_reverse_descending _ (fun x : string * Z => snd x)). }
  pose proof (daily_averages_7_returns now cutoff meals Hc) as Hiff.
  destruct (NutritionAnalyzer.get_daily_averages now 7 meals)
    as [averages|e] eqn:Eavg; cbn [fst snd].
  - split; [split; [intros _; apply Hiff; eauto|reflexivity]|].
    split; [cbn; auto 10|].
    unfold frequency_rows, average_lines, food_rows.
    split; [read_lines; exact Hsum|].
    split; [read_lines; exact Hdesc|].
    split; [intro H; contradiction|].
    intros _. eexists. split; [reflexivity|].
    split; read_lines; [apply map_pair_id|reflexivity].
  - split.
    { split; [discriminate|]. intro Hall.
      apply Hiff in Hall. destruct Hall as [? H]. discriminate. }
    split; [cbn; auto 10|].
    unfold frequency_rows, average_lines, food_rows.
    split; [read_lines; exact Hsum|].
    split; [read_lines; exact Hdesc|].
    split; [|discriminate].
    intros _. split; [|split; read_lines; reflexivity].
    rewrite !app_assoc. apply last_last.
Qed.

Lemma X25_summary_stops_at_averages_witness :
  snd (NutritionAnalyzer.print_summary clock_2024_01_10
         [meal_on "2024-01-09T08:00:00Z" 300])
  <> None /\
  food_rows (fst (NutritionAnalyzer.print_summary clock_2024_01_10
                    [meal_on "2024-01-09T08:00:00Z" 300])) = [].
Proof.
  destruct (X25_summary_stops_at_averages clock_2024_01_10
              (clock_2024_01_10 - 7 * 86400000000)%Z
              [meal_on "2024-01-09T08:00:00Z" 300])
    as (_ & _ & _ & _ & Hraised & _); [reflexivity|].
  assert (H : snd (NutritionAnalyzer.print_summary clock_2024_01_10
                     [meal_on "2024-01-09T08:00:00Z" 300]) <> None)
    by (vm_compute; discriminate).
  split; [exact H|]. destruct (Hraised H) as (_ & _ & Hfood). exact Hfood.
Defined.

(** ** The interactive addition *)

Lemma known_type (s : string) :
  In (if existsb (String.eqb s) MealTracker.MEAL_TYPES then s
      else "snack"%string)
    MealTracker.MEAL_TYPES.
Proof.
  destruct (existsb (String.eqb s) MealTracker.MEAL_TYPES) eqn:E.
  - apply existsb_exists in E. destruct E as (t & Ht & E).
    apply String.eqb_eq in E. rewrite E. exact Ht.
  - cbn. auto.
Qed.

(** X26.  When [interactive_add] returns, it has either left the tracker and
    its file as they were (a number could not be read), or added exactly
    one meal, in front, whose type is one of breakfast, lunch, dinner and
    snack, whatever was typed, and whose calories are the number read from
    the second answer.  An unreadable calorie answer, the empty one
    included, never adds a meal. *)
Theorem X26_interactive_add_known_types (strip lower : string -> string)
  (float : string -> option Q) (clock : MealTracker.Clock) (written : bool)
  (answers : list string) (self after : MealTracker.MealTrackerCLI) :
  MealTracker.interactive_add strip lower float clock written answers self
  = MealTracker.Returned after ->
  (after = self \/
   exists meal calories,
     MealTracker.meals after = meal :: MealTracker.meals self /\
     (exists t, mealType meal = Some t /\ In t MealTracker.MEAL_TYPES) /\
     option_map float (nth_error answers 1) = Some (Some calories) /\
     meal_calories meal = calories) /\
  (option_map float (nth_error answers 1) = Some None -> after = self).
Proof.
  unfold MealTracker.interactive_add, MealTracker.input,
    MealTracker.float_or_give_up.
  destruct answers as [|a1 [|a2 answers]]; try discriminate.
  cbn [nth_error option_map].
  destruct (float a2) as [calories|] eqn:F2.
  2:{ intro H. injection H as <-. split; [left; reflexivity|reflexivity]. }
  intro H. split; [|discriminate].
  destruct answers as [|a3 answers]; [discriminate|].
  destruct (float (MealTracker.or_zero a3)) as [protein|];
    [|injection H as <-; left; reflexivity].
  destruct answers as [|a4 answers]; [discriminate|].
  destruct (float (MealTracker.or_zero a4)) as [carbs|];
    [|injection H as <-; left; reflexivity].
  destruct answers as [|a5 answers]; [discriminate|].
  destruct (float (MealTracker.or_zero a5)) as [fat|];
    [|injection H as <-; left; reflexivity].
  destruct answers as [|a6 answers]; [discriminate|].
  injection H as <-. right.
  eexists. exists calories. split.
  - unfold MealTracker.add_meal, MealTracker.save_data.
    destruct written; reflexivity.
  - split; [|split; reflexivity].
    eexists. split; [reflexivity|]. apply known_type.
Qed.

Lemma X26_interactive_add_known_types_witness :
  exists after meal,
    MealTracker.interactive_add (fun s => s) lower_all decimal_float
      (MealTracker.mk_Clock "1" "2024-01-10T12:00:00" "2024-01-10T12:00:00")
      true ["Brunch"; "500"; ""; "60"; "15"; "late"]%string
      (MealTracker.load_data None)
    = MealTracker.Returned after /\
    MealTracker.meals after = [meal] /\
    mealType meal = Some "snack"%string.
Proof.
  destruct (X26_interactive_add_known_types (fun s => s) lower_all decimal_float
              (MealTracker.mk_Clock "1" "2024-01-10T12:00:00" "2024-01-10T12:00:00")
              true ["Brunch"; "500"; ""; "60"; "15"; "late"]%string
              (MealTracker.load_data None)
              (MealTracker.add_meal
                 (MealTracker.mk_Clock "1" "2024-01-10T12:00:00" "2024-01-10T12:00:00")
                 true "snack" 500 0 60 15 "late" (MealTracker.load_data None)))
    as [[H|(meal & calories & Hmeals & _)] _].
  - reflexivity.
  - discriminate H.
  - eexists. exists meal. split; [reflexivity|]. split; [exact Hmeals|].
    cbn in Hmeals. injection Hmeals as <-. reflexivity.
Defined.

(** ** The jobs of the image script *)

(** X27.  [main] of the image script reads the options before it looks at
    the command: an option value that cannot be read ends the script for
    every command but [help], also for an unknown one.  For [batch], the
    job depends on the arguments that are not options and on the sizes
    only: whatever [--quality] is given, [batch_process] gets none.  For
    [process], the first such argument is the input, and the output is the
    second or, without one, the stem of the input with [_processed.jpg]. *)
Theorem X27_batch_ignores_quality (lower : string -> string)
  (int : string -> option Z) (stem : string -> string)
  (script command : string) (tokens : list Token) :
  Forall (readable int) tokens ->
  let job :=
    ImagePreprocessor.main lower int stem
      (script :: command :: flat_map words_of tokens) in
  let size := last_max_size int tokens (1920, 1920)%Z in
  (lower command = "batch"%string ->
   job = match positionals tokens with
         | input_dir :: output_dir :: _ =>
             ImagePreprocessor.BatchProcess input_dir output_dir size
         | _ => ImagePreprocessor.Usage "batch"
         end) /\
  (lower command = "process"%string ->
   job = match positionals tokens with
         | [] => ImagePreprocessor.Usage "process"
         | input_file :: rest =>
             ImagePreprocessor.Process input_file
               (ImagePreprocessor.output_name rest (stem input_file)
                  "_processed.jpg")
               size (last_quality int tokens 85)
         end) /\
  (forall value rest,
     lower command <> "help"%string -> int value = None ->
     ImagePreprocessor.main lower int stem
       (script :: command
        :: flat_map words_of tokens ++ "--quality"%string :: value :: rest)
     = ImagePreprocessor.Exit1).
Proof.
  intros Hr job size. subst job size.
  assert (Hopt : ImagePreprocessor.options int (flat_map words_of tokens)
                 = Some (ImagePreprocessor.mk_Options
                           (last_max_size int tokens (1920, 1920)%Z)
                           (last_quality int tokens 85%Z)
                           (positionals tokens))).
  { unfold ImagePreprocessor.options.
    rewrite <- (app_nil_r (flat_map words_of tokens)).
    rewrite parse_options_tokens by exact Hr. reflexivity. }
  assert (Hbad : forall value rest,
             int value = None ->
             ImagePreprocessor.options int
               (flat_map words_of tokens ++ "--quality"%string :: value :: rest)
             = None).
  { intros value rest Hv. unfold ImagePreprocessor.options.
    rewrite parse_options_tokens by exact Hr.
    cbn [ImagePreprocessor.parse_options].
    change (String.eqb "--quality" "--max-size") with false.
    change (String.eqb "--quality" "--quality") with true. cbv iota.
    rewrite Hv. reflexivity. }
  unfold ImagePreprocessor.main. split; [|split].
  - intros ->. rewrite Hopt. cbn [String.eqb Ascii.eqb Bool.eqb].
    cbn [ImagePreprocessor.filtered_args ImagePreprocessor.max_size].
    destruct (positionals tokens) as [|a [|b rest]]; reflexivity.
  - intros ->. rewrite Hopt. cbn [String.eqb Ascii.eqb Bool.eqb].
    cbn [ImagePreprocessor.filtered_args ImagePreprocessor.max_size
           ImagePreprocessor.quality].
    destruct (positionals tokens) as [|a rest]; reflexivity.
  - intros value rest Hh Hv. apply String.eqb_neq in Hh. rewrite Hh.
    rewrite (Hbad value rest Hv). reflexivity.
Qed.

Lemma X27_batch_ignores_quality_witness :
  ImagePreprocessor.main lower_all decimal (fun s => s)
    ["image_preprocessor.py"; "BATCH"; "--quality"; "50"; "raw"; "out";
     "--max-size"; "800x600"]%string
  = ImagePreprocessor.BatchProcess "raw" "out" (800, 600)%Z.
Proof.
  apply (X27_batch_ignores_quality lower_all decimal (fun s => s)
           "image_preprocessor.py" "BATCH"
           [SetQuality "50"; Positional "raw"; Positional "out";
            SetMaxSize "800" "600"]%string).
  - repeat constructor; eexists; vm_compute; reflexivity.
  - reflexivity.
Defined.

(** ** Timestamps written and read back *)

Lemma digit_char_facts (d : Z) :
  (0 <= d <= 9)%Z ->
  digit (digit_char d) = Some d /\
  Ascii.eqb (digit_char d) "-" = false /\
  Ascii.eqb (digit_char d) "+" = false /\
  Ascii.eqb (digit_char d) "Z" = false.
Proof.
  intro H.
  assert (E : (d = 0 \/ d = 1 \/ d = 2 \/ d = 3 \/ d = 4 \/ d = 5 \/ d = 6
               \/ d = 7 \/ d = 8 \/ d = 9)%Z) by lia.
  destruct E as [->|[->|[->|[->|[->|[->|[->|[->|[->| ->]]]]]]]]];
    vm_compute; auto.
Qed.

Lemma mod10_digit (n : Z) : (0 <= n mod 10 <= 9)%Z.
Proof. pose proof (Z.mod_pos_bound n 10). lia. Qed.

(** Rewrites with what is known of the characters of a timestamp. *)
Ltac read_chars :=
  repeat match goal with
         | H : Ascii.eqb ?c ?x = false |- context [Ascii.eqb ?c ?x] => rewrite H
         | H : digit ?c = Some _ |- context [digit ?c] => rewrite H
         end.

Lemma find_none (c : ascii) (cs : list ascii) :
  Forall (fun x => Ascii.eqb x c = false) cs -> find c cs = None.
Proof.
  induction 1 as [|x cs Hx _ IH]; [reflexivity|].
  cbn [find]. rewrite Hx, IH. reflexivity.
Qed.

Lemma two_digits_value (a b : ascii) (ka kb : Z) (rest : list ascii) :
  digit a = Some ka -> digit b = Some kb ->
  two_digits (a :: b :: rest) = Ok ((10 * (10 * 0 + ka) + kb)%Z, rest).
Proof.
  intros Ha Hb. unfold two_digits, int_of. cbn [int_digits].
  rewrite Ha, Hb. reflexivity.
Qed.

Lemma parse_date_value (y1 y2 y3 y4 m1 m2 d1 d2 : ascii)
  (k1 k2 k3 k4 km1 km2 kd1 kd2 : Z) :
  digit y1 = Some k1 -> digit y2 = Some k2 -> digit y3 = Some k3 ->
  digit y4 = Some k4 -> digit m1 = Some km1 -> digit m2 = Some km2 ->
  digit d1 = Some kd1 -> digit d2 = Some kd2 ->
  _parse_isoformat_date [y1; y2; y3; y4; "-"; m1; m2; "-"; d1; d2]%char
  = Ok ((10 * (10 * (10 * (10 * 0 + k1) + k2) + k3) + k4)%Z,
        (10 * (10 * 0 + km1) + km2)%Z, (10 * (10 * 0 + kd1) + kd2)%Z).
Proof.
  intros. unfold _parse_isoformat_date, int_of. cbn [int_digits].
  read_chars. reflexivity.
Qed.

Lemma parse_time_seconds (h1 h2 m1 m2 s1 s2 : ascii)
  (kh1 kh2 km1 km2 ks1 ks2 : Z) :
  digit h1 = Some kh1 -> digit h2 = Some kh2 -> digit m1 = Some km1 ->
  digit m2 = Some km2 -> digit s1 = Some ks1 -> digit s2 = Some ks2 ->
  _parse_hh_mm_ss_ff [h1; h2; ":"; m1; m2; ":"; s1; s2]%char
  = Ok ((10 * (10 * 0 + kh1) + kh2)%Z, (10 * (10 * 0 + km1) + km2)%Z,
        (10 * (10 * 0 + ks1) + ks2)%Z, 0%Z).
Proof.
  intros Hh1 Hh2 Hm1 Hm2 Hs1 Hs2. unfold _parse_hh_mm_ss_ff.
  rewrite (two_digits_value h1 h2 kh1 kh2 _ Hh1 Hh2). cbn [bind fst snd].
  change (negb (Ascii.eqb ":" ":")) with false. cbv iota.
  rewrite (two_digits_value m1 m2 km1 km2 _ Hm1 Hm2). cbn [bind fst snd].
  change (negb (Ascii.eqb ":" ":")) with false. cbv iota.
  rewrite (two_digits_value s1 s2 ks1 ks2 _ Hs1 Hs2). reflexivity.
Qed.

Lemma parse_time_micros (h1 h2 m1 m2 s1 s2 u1 u2 u3 u4 u5 u6 : ascii)
  (kh1 kh2 km1 km2 ks1 ks2 k1 k2 k3 k4 k5 k6 : Z) :
  digit h1 = Some kh1 -> digit h2 = Some kh2 -> digit m1 = Some km1 ->
  digit m2 = Some km2 -> digit s1 = Some ks1 -> digit s2 = Some ks2 ->
  digit u1 = Some k1 -> digit u2 = Some k2 -> digit u3 = Some k3 ->
  digit u4 = Some k4 -> digit u5 = Some k5 -> digit u6 = Some k6 ->
  _parse_hh_mm_ss_ff
    [h1; h2; ":"; m1; m2; ":"; s1; s2; "."; u1; u2; u3; u4; u5; u6]%char
  = Ok ((10 * (10 * 0 + kh1) + kh2)%Z, (10 * (10 * 0 + km1) + km2)%Z,
        (10 * (10 * 0 + ks1) + ks2)%Z,
        (10 * (10 * (10 * (10 * (10 * (10 * 0 + k1) + k2) + k3) + k4) + k5)
         + k6)%Z).
Proof.
  intros Hh1 Hh2 Hm1 Hm2 Hs1 Hs2 H1 H2 H3 H4 H5 H6. unfold _parse_hh_mm_ss_ff.
  rewrite (two_digits_value h1 h2 kh1 kh2 _ Hh1 Hh2). cbn [bind fst snd].
  change (negb (Ascii.eqb ":" ":")) with false. cbv iota.
  rewrite (two_digits_value m1 m2 km1 km2 _ Hm1 Hm2). cbn [bind fst snd].
  change (negb (Ascii.eqb ":" ":")) with false. cbv iota.
  rewrite (two_digits_value s1 s2 ks1 ks2 _ Hs1 Hs2). cbn [bind fst snd].
  unfold fraction. change (negb (Ascii.eqb "." ".")) with false. cbv iota.
  cbn [List.length Nat.eqb]. unfold int_of. cbn [int_digits].
  rewrite H1, H2, H3, H4, H5, H6. reflexivity.
Qed.

Lemma two_digits_back (n : Z) :
  (0 <= n <= 99)%Z -> (10 * (10 * 0 + (n / 10) mod 10) + n mod 10 = n)%Z.
Proof. intro H. Z.div_mod_to_equations. lia. Qed.

Lemma four_digits_back (n : Z) :
  (0 <= n <= 9999)%Z ->
  (10 * (10 * (10 * (10 * 0 + (n / 1000) mod 10) + (n / 100) mod 10)
         + (n / 10) mod 10) + n mod 10 = n)%Z.
Proof. intro H. Z.div_mod_to_equations. lia. Qed.

Lemma six_digits_back (n : Z) :
  (0 <= n <= 999999)%Z ->
  (10 * (10 * (10 * (10 * (10 * (10 * 0 + (n / 10000 / 10) mod 10)
                           + (n / 10000) mod 10)
                     + (n / 100 / 10) mod 10)
               + (n / 100) mod 10)
         + (n / 10) mod 10) + n mod 10 = n)%Z.
Proof. intro H. Z.div_mod_to_equations. lia. Qed.

Lemma days_in_month_31 (y m : Z) : (_days_in_month y m <= 31)%Z.
Proof.
  unfold _days_in_month.
  destruct (m =? 2)%Z; [destruct (_is_leap y); lia|].
  destruct ((m =? 4) || (m =? 6) || (m =? 9) || (m =? 11))%Z; lia.
Qed.

Lemma digit_char_digit (e : Z) :
  digit (digit_char (e mod 10)) = Some (e mod 10)%Z.
Proof. apply digit_char_facts, mod10_digit. Qed.

Lemma digit_char_no_minus (e : Z) :
  Ascii.eqb (digit_char (e mod 10)) "-" = false.
Proof. apply digit_char_facts, mod10_digit. Qed.

Lemma digit_char_no_plus (e : Z) :
  Ascii.eqb (digit_char (e mod 10)) "+" = false.
Proof. apply digit_char_facts, mod10_digit. Qed.

Lemma digit_char_no_Z (e : Z) :
  Ascii.eqb (digit_char (e mod 10)) "Z" = false.
Proof. apply digit_char_facts, mod10_digit. Qed.

Lemma replace_Z_none (cs : list ascii) :
  Forall (fun c => Ascii.eqb c "Z" = false) cs ->
  replace_Z (string_of_list_ascii cs) = string_of_list_ascii cs.
Proof.
  induction 1 as [|c cs Hc _ IH]; [reflexivity|].
  cbn [string_of_list_ascii replace_Z]. rewrite Hc, IH. reflexivity.
Qed.

(** Proves that a character of a timestamp is not the one looked for. *)
Ltac other_char :=
  first [ apply digit_char_no_minus | apply digit_char_no_plus
        | apply digit_char_no_Z | reflexivity ].

Lemma isoformat_read_back (dt : datetime) :
  valid dt -> tzinfo dt = None ->
  fromisoformat (replace_Z (isoformat dt)) = Ok dt.
Proof.
  intros Hv Htz. destruct dt as [y m d hh mm ss us tz].
  cbn [tzinfo] in Htz. subst tz. unfold valid in Hv.
  cbn [year month day hour minute second microsecond] in Hv.
  assert (Hb : (1 <= y <= 9999 /\ 1 <= m <= 12 /\ 1 <= d <= 31 /\
                0 <= hh <= 23 /\ 0 <= mm <= 59 /\ 0 <= ss <= 59 /\
                0 <= us <= 999999)%Z).
  { pose proof Hv as H. unfold check_fields in H.
    repeat (apply andb_prop in H; destruct H as [H ?]).
    repeat match goal with
           | H : (_ <=? _)%Z = true |- _ => apply Z.leb_le in H
           end.
    pose proof (days_in_month_31 y m). lia. }
  unfold isoformat.
  cbn [year month day hour minute second microsecond tzinfo].
  destruct (us =? 0)%Z eqn:Eus.
  - match goal with
    | |- fromisoformat (replace_Z ?s) = _ =>
        change s with
          (string_of_list_ascii
             [digit_char ((y / 1000) mod 10); digit_char ((y / 100) mod 10);
              digit_char ((y / 10) mod 10); digit_char (y mod 10); "-"%char;
              digit_char ((m / 10) mod 10); digit_char (m mod 10); "-"%char;
              digit_char ((d / 10) mod 10); digit_char (d mod 10); "T"%char;
              digit_char ((hh / 10) mod 10); digit_char (hh mod 10); ":"%char;
              digit_char ((mm / 10) mod 10); digit_char (mm mod 10); ":"%char;
              digit_char ((ss / 10) mod 10); digit_char (ss mod 10)])
    end.
    rewrite replace_Z_none by (repeat constructor; other_char).
    unfold fromisoformat. rewrite list_ascii_of_string_of_list_ascii.
    cbn [substr Nat.sub firstn skipn].
    erewrite parse_date_value by apply digit_char_digit. cbn [bind].
    unfold _parse_isoformat_time. cbn [List.length Nat.ltb Nat.leb].
    rewrite (find_none "-") by (repeat constructor; other_char).
    rewrite (find_none "+") by (repeat constructor; other_char).
    erewrite parse_time_seconds by apply digit_char_digit. cbn [bind].
    rewrite four_digits_back, !two_digits_back by lia.
    apply Z.eqb_eq in Eus. subst us. rewrite Hv. reflexivity.
  - match goal with
    | |- fromisoformat (replace_Z ?s) = _ =>
        change s with
          (string_of_list_ascii
             [digit_char ((y / 1000) mod 10); digit_char ((y / 100) mod 10);
              digit_char ((y / 10) mod 10); digit_char (y mod 10); "-"%char;
              digit_char ((m / 10) mod 10); digit_char (m mod 10); "-"%char;
              digit_char ((d / 10) mod 10); digit_char (d mod 10); "T"%char;
              digit_char ((hh / 10) mod 10); digit_char (hh mod 10); ":"%char;
              digit_char ((mm / 10) mod 10); digit_char (mm mod 10); ":"%char;
              digit_char ((ss / 10) mod 10); digit_char (ss mod 10); "."%char;
              digit_char ((us / 10000 / 10) mod 10);
              digit_char ((us / 10000) mod 10);
              digit_char ((us / 100 / 10) mod 10);
              digit_char ((us / 100) mod 10);
              digit_char ((us / 10) mod 10); digit_char (us mod 10)])
    end.
    rewrite replace_Z_none by (repeat constructor; other_char).
    unfold fromisoformat. rewrite list_ascii_of_string_of_list_ascii.
    cbn [substr Nat.sub firstn skipn].
    erewrite parse_date_value by apply digit_char_digit. cbn [bind].
    unfold _parse_isoformat_time. cbn [List.length Nat.ltb Nat.leb].
    rewrite (find_none "-") by (repeat constructor; other_char).
    rewrite (find_none "+") by (repeat constructor; other_char).
    erewrite parse_time_micros by apply digit_char_digit. cbn [bind].
    rewrite six_digits_back, four_digits_back, !two_digits_back by lia.
    rewrite Hv. reflexivity.
Qed.

(** X28.  A timestamp that [add_meal] writes is read back as it was taken:
    for a reading [now] of the clock (a naive [datetime] with valid fields),
    the [consumedAt] that [isoformat] writes is parsed by the readers
    ([fromisoformat] after the replacement of Z) to [now] itself, with its
    microseconds and without an offset.  So the new meal is filed under the
    date of [now], it is after a cutoff exactly when [now] is, and a list of
    meals with naive timestamps stays one when [add_meal] has added to it:
    the recency filter of the report still returns. *)
Theorem X28_added_meal_reads_back (now : datetime) (clock : MealTracker.Clock)
  (written : bool) (meal_type : string) (calories protein carbs fat : Q)
  (notes : string) (self : MealTracker.MealTrackerCLI) :
  valid now -> tzinfo now = None ->
  MealTracker.consumed_iso clock = isoformat now ->
  let meal :=
    MealTracker.new_meal clock meal_type calories protein carbs fat notes in
  let after :=
    MealTracker.add_meal clock written meal_type calories protein carbs fat
      notes self in
  consumed_at meal = Ok now /\
  day_of meal = strftime_ymd now /\
  (forall cutoff, strictly_after cutoff meal = (cutoff <? wall_micros now)%Z) /\
  (Forall timestamp_naive (MealTracker.meals self) ->
   forall cutoff,
     recent cutoff (MealTracker.meals after)
     = Ok ((if (cutoff <? wall_micros now)%Z then [meal] else [])
           ++ filter (strictly_after cutoff) (MealTracker.meals self))).
Proof.
  intros Hv Htz Hiso meal after.
  assert (Hread : consumed_at meal = Ok now).
  { unfold consumed_at, meal, MealTracker.new_meal. cbn [consumedAt get].
    rewrite Hiso. apply isoformat_read_back; assumption. }
  split; [exact Hread|]. split; [|split].
  - unfold day_of. rewrite Hread. reflexivity.
  - intro cutoff. unfold strictly_after. rewrite Hread. reflexivity.
  - intros Hall cutoff.
    assert (Hmeals : MealTracker.meals after = meal :: MealTracker.meals self).
    { unfold after, MealTracker.add_meal, MealTracker.save_data.
      destruct written; reflexivity. }
    rewrite Hmeals, recent_naive.
    + cbn [filter]. unfold strictly_after at 1. rewrite Hread.
      destruct (cutoff <? wall_micros now)%Z; reflexivity.
    + constructor; [|exact Hall]. exists now. split; assumption.
Qed.

Lemma X28_added_meal_reads_back_witness :
  consumed_at
    (MealTracker.new_meal
       (MealTracker.mk_Clock "1704879000.00025" "2024-01-10T09:30:00.000250"
          "2024-01-10T09:30:00.000251")
       "lunch" 650 35 60 25 "")
  = Ok (mk_datetime 2024 1 10 9 30 0 250 None).
Proof.
  apply (X28_added_meal_reads_back (mk_datetime 2024 1 10 9 30 0 250 None)
           (MealTracker.mk_Clock "1704879000.00025" "2024-01-10T09:30:00.000250"
              "2024-01-10T09:30:00.000251")
           true "lunch" 650 35 60 25 "" (MealTracker.load_data None)).
  - vm_compute. reflexivity.
  - reflexivity.
  - vm_compute. reflexivity.
Defined.
